(** * btcvol-cli: the model submission tool ([btcvol_submit_old.py])

    A shallow embedding of the submission pipeline

      Validator -> Extractor -> Structure Builder -> Config Updater
                -> Deployment Trigger -> Status Poller

    Text is a [string] whose characters are the code points 0..255; the
    file system, the clock, the container runtime and the effects the
    script performs are explicit state, threaded through a small
    state-and-exception monad.  The argument parser, [json.load],
    [yaml.safe_load] and [yaml.dump] are library code: they are parameters
    of the program. *)

From Stdlib Require Import String Ascii List ZArith NArith Bool Lia DecimalString.
Import ListNotations.

Local Open Scope string_scope.
Local Open Scope Z_scope.

(** ** Python [str] operations *)

Module Str.

Local Open Scope char_scope.

Definition in_range (lo hi c : ascii) : bool := ((lo <=? c) && (c <=? hi))%char.

(** [str.lower] on the code points below 256: A-Z and the accented capitals
    U+00C0..U+00DE (the multiplication sign U+00D7 apart) move up by 32. *)
Definition lower_char (c : ascii) : ascii :=
  if in_range "A" "Z" c then ascii_of_nat (nat_of_ascii c + 32)
  else if in_range "192" "222" c && negb (Ascii.eqb c "215")
       then ascii_of_nat (nat_of_ascii c + 32)
  else c.

Fixpoint map (f : ascii -> ascii) (s : string) : string :=
  match s with
  | EmptyString => EmptyString
  | String c r => String (f c) (map f r)
  end.

Definition lower (s : string) : string := map lower_char s.

(** [str.isspace] on one code point below 256. *)
Definition is_space (c : ascii) : bool :=
  in_range "009" "013" c || in_range "028" "032" c
  || Ascii.eqb c "133" || Ascii.eqb c "160".

Fixpoint lstrip (p : ascii -> bool) (s : string) : string :=
  match s with
  | EmptyString => EmptyString
  | String c r => if p c then lstrip p r else s
  end.

Fixpoint rstrip (p : ascii -> bool) (s : string) : string :=
  match s with
  | EmptyString => EmptyString
  | String c r =>
      match rstrip p r with
      | EmptyString => if p c then EmptyString else String c EmptyString
      | r' => String c r'
      end
  end.

(** [s.strip(chars)], the characters to remove given as a predicate. *)
Definition strip_chars (p : ascii -> bool) (s : string) : string :=
  rstrip p (lstrip p s).

(** [s.strip()] *)
Definition strip (s : string) : string := strip_chars is_space s.

(** [s.startswith(p)] *)
Definition startswith (p s : string) : bool := String.prefix p s.

(** [needle in hay] *)
Fixpoint contains (needle hay : string) : bool :=
  String.prefix needle hay ||
  match hay with
  | EmptyString => false
  | String _ r => contains needle r
  end.

(** [sep.join(parts)] *)
Definition join (sep : string) (parts : list string) : string :=
  String.concat sep parts.

(** [s.split(sep)] for a one-character separator. *)
Fixpoint split (sep : ascii) (s : string) : list string :=
  match s with
  | EmptyString => [EmptyString]
  | String c r =>
      if Ascii.eqb c sep then EmptyString :: split sep r
      else match split sep r with
           | [] => [String c EmptyString]
           | w :: ws => String c w :: ws
           end
  end.

Fixpoint drop (n : nat) (s : string) : string :=
  match n, s with
  | O, _ => s
  | S n', String _ r => drop n' r
  | S _, EmptyString => EmptyString
  end.

(** [s.replace(old, new)] for a non-empty [old]: the occurrences are taken
    from the left and do not overlap.  [skip] counts the characters of an
    occurrence already replaced that are still to be passed over. *)
Fixpoint replace_from (skip : nat) (old new s : string) : string :=
  match s with
  | EmptyString => EmptyString
  | String c r =>
      match skip with
      | S k => replace_from k old new r
      | O =>
          if String.prefix old s
          then new ++ replace_from (String.length old - 1) old new r
          else String c (replace_from O old new r)
      end
  end%string.

Definition replace (old new s : string) : string := replace_from O old new s.

(** What reading a file in text mode makes of its stored text
    (universal newlines): a carriage return with the line feed after it,
    and a carriage return alone, arrive as one line feed. *)
Fixpoint universal_newlines (s : string) : string :=
  match s with
  | EmptyString => EmptyString
  | String c r =>
      if Ascii.eqb c "013" then
        String "010"
               match r with
               | String c' r' =>
                   if Ascii.eqb c' "010" then universal_newlines r'
                   else universal_newlines r
               | EmptyString => EmptyString
               end
      else String c (universal_newlines r)
  end.

(** [str(n)] for an integer. *)
Definition of_Z (n : Z) : string := NilZero.string_of_int (Z.to_int n).

End Str.

(** ** Submission names *)

Local Open Scope char_scope.

(** The class [[a-z0-9]]. *)
Definition is_alnum (c : ascii) : bool :=
  Str.in_range "a" "z" c || Str.in_range "0" "9" c.

Definition is_hyphen (c : ascii) : bool := Ascii.eqb c "-".

(** [re.sub(r'[^a-z0-9-]', '-', s)]: every character outside the class
    becomes a hyphen. *)
Definition sub_invalid (s : string) : string :=
  Str.map (fun c => if is_alnum c || is_hyphen c then c else "-") s.

(** [re.sub(r'-+', '-', s)]: every maximal run of hyphens becomes one.
    [in_run] tells that the scan is inside a run whose hyphen is already
    written. *)
Fixpoint sub_hyphen_runs_from (in_run : bool) (s : string) : string :=
  match s with
  | EmptyString => EmptyString
  | String c r =>
      if is_hyphen c
      then if in_run then sub_hyphen_runs_from true r
           else String "-" (sub_hyphen_runs_from true r)
      else String c (sub_hyphen_runs_from false r)
  end.

Definition sub_hyphen_runs (s : string) : string := sub_hyphen_runs_from false s.

Local Close Scope char_scope.

(** ** Python values

    What [json.load] and [yaml.safe_load] return.  A [dict] keeps its items
    in insertion order, keys unique; a number is kept as written (the
    script never computes with one). *)

#[local] Set Warnings "-register-all".

Inductive value : Type :=
  | PNone
  | PBool (b : bool)
  | PNum (lit : string)
  | PStr (s : string)
  | PList (items : list value)
  | PDict (items : list (value * value)).

(** The exceptions the script can meet, all of them of class [Exception]. *)
Inductive exn : Type :=
  | FileNotFoundError
  | FileExistsError
  | IsADirectoryError
  | NotADirectoryError
  | JSONDecodeError
  | YAMLError
  | AttributeError
  | TypeError
  | KeyError
  | CalledProcessError.

Inductive result (A : Type) : Type :=
  | Ok (a : A)
  | Raise (e : exn).
Arguments Ok {A} a.
Arguments Raise {A} e.

Definition rbind {A B} (r : result A) (k : A -> result B) : result B :=
  match r with
  | Ok a => k a
  | Raise e => Raise e
  end.

Declare Scope result_scope.
Delimit Scope result_scope with result.
Notation "x <~ r ;; k" := (rbind r (fun x => k))
  (at level 61, r at next level, right associativity) : result_scope.
Local Open Scope result_scope.

Module Py.

(** [v == s] for a [str] [s]: only the same string is equal to it. *)
Definition eq_str (v : value) (s : string) : bool :=
  match v with
  | PStr t => String.eqb t s
  | _ => false
  end.

(** Dictionary lookup under a string key. *)
Fixpoint lookup (key : string) (items : list (value * value)) : option value :=
  match items with
  | [] => None
  | (k, v) :: rest => if eq_str k key then Some v else lookup key rest
  end.

(** [d[key] = v] on the items of a dictionary: an existing key keeps its
    place, a new one goes last. *)
Fixpoint store (key : string) (v : value) (items : list (value * value))
  : list (value * value) :=
  match items with
  | [] => [(PStr key, v)]
  | (k, old) :: rest =>
      if eq_str k key then (k, v) :: rest else (k, old) :: store key v rest
  end.

(** [obj.get(key, default)]: only a [dict] has the method. *)
Definition get (obj : value) (key : string) (default : value) : result value :=
  match obj with
  | PDict items =>
      Ok (match lookup key items with Some v => v | None => default end)
  | _ => Raise AttributeError
  end.

(** [obj[key]] for a string key. *)
Definition getitem (obj : value) (key : string) : result value :=
  match obj with
  | PDict items =>
      match lookup key items with Some v => Ok v | None => Raise KeyError end
  | _ => Raise TypeError
  end.

(** [obj[key] = v] for a string key.  A list or a string refuses a string
    index; so does every value that is no container. *)
Definition setitem (obj : value) (key : string) (v : value) : result value :=
  match obj with
  | PDict items => Ok (PDict (store key v items))
  | _ => Raise TypeError
  end.

(** [key in obj] for a string key and a dictionary [obj]. *)
Definition has_key (key : string) (items : list (value * value)) : bool :=
  match lookup key items with Some _ => true | None => false end.

Fixpoint chars (s : string) : list value :=
  match s with
  | EmptyString => []
  | String c r => PStr (String c EmptyString) :: chars r
  end.

(** What [for x in obj] runs through: the elements of a list, the keys of
    a dictionary, the characters of a string. *)
Definition iter (obj : value) : result (list value) :=
  match obj with
  | PList items => Ok items
  | PDict items => Ok (List.map fst items)
  | PStr s => Ok (chars s)
  | _ => Raise TypeError
  end.

(** [''.join(parts)]: every part has to be a [str]. *)
Fixpoint join_values (parts : list value) : result string :=
  match parts with
  | [] => Ok EmptyString
  | PStr s :: rest =>
      match join_values rest with
      | Ok t => Ok (s ++ t)%string
      | Raise e => Raise e
      end
  | _ :: _ => Raise TypeError
  end.

End Py.

(** ** Documents with shared objects

    What [yaml.safe_load] returns.  A list and a dict are objects with an
    identity: an alias of the YAML text makes two places of the document
    hold the same object, and what is changed through one of them shows
    through the other.  A document is the value at its root together
    with its objects, each at its address. *)

Definition addr := nat.

Inductive yval : Type :=
  | YNone
  | YBool (b : bool)
  | YNum (lit : string)
  | YStr (s : string)
  | YRef (a : addr).

Inductive yobj : Type :=
  | YList (items : list yval)
  | YDict (items : list (yval * yval)).

Record document : Type := mkDocument {
  root : yval;
  objects : list yobj
}.

Module Obj.

(** [v == s] for a [str] [s]. *)
Definition eq_str (v : yval) (s : string) : bool :=
  match v with
  | YStr t => String.eqb t s
  | _ => false
  end.

Fixpoint lookup (key : string) (items : list (yval * yval)) : option yval :=
  match items with
  | [] => None
  | (k, v) :: rest => if eq_str k key then Some v else lookup key rest
  end.

(** [d[key] = v] on the items of a dictionary: an existing key keeps its
    place, a new one goes last. *)
Fixpoint store (key : string) (v : yval) (items : list (yval * yval))
  : list (yval * yval) :=
  match items with
  | [] => [(YStr key, v)]
  | (k, old) :: rest =>
      if eq_str k key then (k, v) :: rest else (k, old) :: store key v rest
  end.

(** The object a value refers to. *)
Definition deref (h : list yobj) (v : yval) : option yobj :=
  match v with
  | YRef a => nth_error h a
  | _ => None
  end.

(** The objects with [o] in the place of the object at [a]. *)
Fixpoint put (a : addr) (o : yobj) (h : list yobj) : list yobj :=
  match h, a with
  | [], _ => []
  | _ :: rest, O => o :: rest
  | x :: rest, S a' => x :: put a' o rest
  end.

(** A new object: its reference, and the objects with it. *)
Definition alloc (o : yobj) (h : list yobj) : yval * list yobj :=
  (YRef (List.length h), (h ++ [o])%list).

(** [obj.get(key, default)], [None] standing for the default: only a
    [dict] has the method. *)
Definition get (h : list yobj) (obj : yval) (key : string) : result (option yval) :=
  match deref h obj with
  | Some (YDict items) => Ok (lookup key items)
  | _ => Raise AttributeError
  end.

(** [obj[key]] for a string key. *)
Definition getitem (h : list yobj) (obj : yval) (key : string) : result yval :=
  match deref h obj with
  | Some (YDict items) =>
      match lookup key items with Some v => Ok v | None => Raise KeyError end
  | _ => Raise TypeError
  end.

(** [obj[key] = v] for a string key: the object is changed where it is.
    A list or a string refuses a string index; so does every value that
    is no container. *)
Definition setitem (h : list yobj) (obj : yval) (key : string) (v : yval)
  : result (list yobj) :=
  match obj, deref h obj with
  | YRef a, Some (YDict items) => Ok (put a (YDict (store key v items)) h)
  | _, _ => Raise TypeError
  end.

(** [key in obj] for a string key and a dictionary [obj]. *)
Definition has_key (h : list yobj) (obj : yval) (key : string) : result bool :=
  match deref h obj with
  | Some (YDict items) =>
      Ok (match lookup key items with Some _ => true | None => false end)
  | _ => Raise TypeError
  end.

Fixpoint chars (s : string) : list yval :=
  match s with
  | EmptyString => []
  | String c r => YStr (String c EmptyString) :: chars r
  end.

(** What [for x in obj] runs through: the elements of a list, the keys of
    a dictionary, the characters of a string. *)
Definition iter (h : list yobj) (obj : yval) : result (list yval) :=
  match obj, deref h obj with
  | _, Some (YList items) => Ok items
  | _, Some (YDict items) => Ok (List.map fst items)
  | YStr s, _ => Ok (chars s)
  | _, _ => Raise TypeError
  end.

(** [obj.append(x)]: only a list has the method; the list is changed
    where it is. *)
Definition append (h : list yobj) (obj x : yval) : result (list yobj) :=
  match obj, deref h obj with
  | YRef a, Some (YList items) => Ok (put a (YList (items ++ [x])) h)
  | _, _ => Raise AttributeError
  end.

End Obj.

(** ** The world: file system, clock, container runtime, effects *)

Definition path := list string.

Inductive node : Type :=
  | File (content : string)
  | Dir.

(** The effects of the script that reach outside the process, in the
    order they happen. *)
Inductive event : Type :=
  | EvRead (p : path)
  | EvRmtree (p : path)
  | EvMkdir (p : path)
  | EvCopytree (src dst : path)
  | EvWrite (p : path) (content : string)
  | EvRun (argv : list string)
  | EvSleep (seconds : Z).

(** The container runtime and the scheduler, as the script meets them.
    [restart_rc] is the exit status of [docker restart] and [logs_out n]
    the combined output of the [n]-th [docker logs]; [None] says that the
    executable cannot be started.  [lag n] is the time (in milliseconds)
    the [n]-th timed effect takes beyond its nominal duration. *)
Record Runtime : Type := mkRuntime {
  restart_rc : option Z;
  logs_out : nat -> option string;
  lag : nat -> N
}.

(** The clock counts milliseconds. *)
Record World : Type := mkWorld {
  fs : path -> option node;
  clock : Z;
  trace : list event;
  nlogs : nat;
  runtime : Runtime
}.

Definition M (A : Type) : Type := World -> result A * World.

Definition ret {A} (a : A) : M A := fun w => (Ok a, w).

Definition raise {A} (e : exn) : M A := fun w => (Raise e, w).

Definition bind {A B} (m : M A) (k : A -> M B) : M B :=
  fun w =>
    match m w with
    | (Ok a, w') => k a w'
    | (Raise e, w') => (Raise e, w')
    end.

(** [try: m except Exception as e: h e] *)
Definition try_except {A} (m : M A) (h : exn -> M A) : M A :=
  fun w =>
    match m w with
    | (Ok a, w') => (Ok a, w')
    | (Raise e, w') => h e w'
    end.

Definition lift {A} (r : result A) : M A := fun w => (r, w).

Declare Scope monad_scope.
Delimit Scope monad_scope with monad.
Notation "x <- m ;; k" := (bind m (fun x => k))
  (at level 61, m at next level, right associativity) : monad_scope.
Notation "m ;;; k" := (bind m (fun _ => k))
  (at level 61, right associativity) : monad_scope.
Local Open Scope monad_scope.

Definition log (e : event) : M unit :=
  fun w => (Ok tt, mkWorld (fs w) (clock w) (trace w ++ [e])%list (nlogs w) (runtime w)).

Definition set_fs (f : path -> option node) : M unit :=
  fun w => (Ok tt, mkWorld f (clock w) (trace w) (nlogs w) (runtime w)).

Definition get_fs : M (path -> option node) := fun w => (Ok (fs w), w).

(** Let [ms] milliseconds and the lag of this effect pass. *)
Definition elapse (ms : Z) : M unit :=
  fun w =>
    (Ok tt, mkWorld (fs w)
                    (clock w + ms + Z.of_N (lag (runtime w) (List.length (trace w))))
                    (trace w) (nlogs w) (runtime w)).

(** *** Paths *)

Fixpoint path_eqb (p q : path) : bool :=
  match p, q with
  | [], [] => true
  | x :: p', y :: q' => String.eqb x y && path_eqb p' q'
  | _, _ => false
  end.

(** [strip_prefix p q] is what follows [p] in [q], when [q] is [p] or lies
    under it. *)
Fixpoint strip_prefix (p q : path) : option path :=
  match p, q with
  | [], _ => Some q
  | x :: p', y :: q' => if String.eqb x y then strip_prefix p' q' else None
  | _ :: _, [] => None
  end.

Definition is_prefix (p q : path) : bool :=
  match strip_prefix p q with Some _ => true | None => false end.

Fixpoint proper_prefixes (p : path) : list path :=
  match p with
  | [] => []
  | x :: r => [] :: List.map (cons x) (proper_prefixes r)
  end.

Definition parent (p : path) : path := removelast p.

(** [base / name] for a name that is one path component or empty (a
    slug never holds a slash or a dot): joining the empty name gives
    [base] back. *)
Definition joinpath (base : path) (name : string) : path :=
  if String.eqb name "" then base else (base ++ [name])%list.

Definition path_str (p : path) : string := Str.join "/" p.

(** Splits a file name at its last dot: what is before it, and the rest
    with the dot. *)
Fixpoint rsplit_dot (name : string) : option (string * string) :=
  match name with
  | EmptyString => None
  | String c r =>
      match rsplit_dot r with
      | Some (before, ext) => Some (String c before, ext)
      | None => if Ascii.eqb c "."%char then Some (EmptyString, name) else None
      end
  end.

(** [Path.suffix]: the last dot of the final component starts the suffix,
    unless it is the first or the last character of the name. *)
Definition suffix (p : path) : string :=
  match rsplit_dot (List.last p EmptyString) with
  | Some (before, ext) =>
      if negb (String.eqb before "") && (1 <? String.length ext)%nat
      then ext else EmptyString
  | None => EmptyString
  end.

(** *** File system and process primitives *)

Definition is_file (n : option node) : bool :=
  match n with Some (File _) => true | _ => false end.

Definition has_file_ancestor (f : path -> option node) (p : path) : bool :=
  existsb (fun q => is_file (f q)) (proper_prefixes p).

(** The file system after the four mutations the script performs. *)
Definition fs_write (p : path) (s : string) (f : path -> option node)
  : path -> option node :=
  fun q => if path_eqb q p then Some (File s) else f q.

Definition fs_rmtree (p : path) (f : path -> option node) : path -> option node :=
  fun q => if is_prefix p q then None else f q.

Definition fs_mkdir (p : path) (f : path -> option node) : path -> option node :=
  fun q => if is_prefix q p then Some Dir else f q.

Definition fs_copytree (src dst : path) (f : path -> option node)
  : path -> option node :=
  fun q =>
    match strip_prefix dst q with
    | Some rest => f (src ++ rest)%list
    | None => if is_prefix q dst then Some Dir else f q
    end.

(** [p.exists()] *)
Definition path_exists (p : path) : M bool :=
  fun w => (Ok (match fs w p with Some _ => true | None => false end), w).

(** [p.read_text()], and [open(p)] followed by reading the whole file:
    the text arrives with its line ends translated. *)
Definition read_text (p : path) : M string :=
  f <- get_fs ;;
  match f p with
  | Some (File s) => log (EvRead p) ;;; ret (Str.universal_newlines s)
  | Some Dir => raise IsADirectoryError
  | None => raise FileNotFoundError
  end.

(** [p.write_text(s)], and [open(p, 'w')] followed by writing [s], on a
    system whose line end is the line feed: the text is stored as it
    is. *)
Definition write_text (p : path) (s : string) : M unit :=
  f <- get_fs ;;
  match f p with
  | Some Dir => raise IsADirectoryError
  | _ =>
      match f (parent p) with
      | Some Dir =>
          log (EvWrite p s) ;;;
          set_fs (fs_write p s f)
      | Some (File _) => raise NotADirectoryError
      | None => raise FileNotFoundError
      end
  end.

(** [shutil.rmtree(p)] *)
Definition rmtree (p : path) : M unit :=
  f <- get_fs ;;
  match f p with
  | Some Dir =>
      log (EvRmtree p) ;;;
      set_fs (fs_rmtree p f)
  | Some (File _) => raise NotADirectoryError
  | None => raise FileNotFoundError
  end.

(** [p.mkdir(parents=True, exist_ok=True)] *)
Definition mkdir_parents (p : path) : M unit :=
  f <- get_fs ;;
  if has_file_ancestor f p then raise NotADirectoryError
  else if is_file (f p) then raise FileExistsError
  else
    log (EvMkdir p) ;;;
    set_fs (fs_mkdir p f).

(** [shutil.copytree(src, dst)]: [dst] must not exist; it is made with its
    missing parents and receives everything under [src]. *)
Definition copytree (src dst : path) : M unit :=
  f <- get_fs ;;
  match f src with
  | None => raise FileNotFoundError
  | Some (File _) => raise NotADirectoryError
  | Some Dir =>
      match f dst with
      | Some _ => raise FileExistsError
      | None =>
          if has_file_ancestor f dst then raise NotADirectoryError
          else
            log (EvCopytree src dst) ;;;
            set_fs (fs_copytree src dst f)
      end
  end.

(** [time.time()], in milliseconds. *)
Definition now : M Z := fun w => (Ok (clock w), w).

(** [time.sleep(seconds)] *)
Definition sleep (seconds : Z) : M unit :=
  elapse (1000 * seconds) ;;; log (EvSleep seconds).

(** [int(time.time())]: the whole seconds of a clock reading. *)
Definition whole_seconds (t : Z) : Z := Z.quot t 1000.

Definition container : string := "dvol-model-orchestrator-local".

Definition restart_argv : list string := ["docker"; "restart"; container].

Definition logs_argv : list string := ["docker"; "logs"; container; "--tail"; "100"].

(** [subprocess.run(restart_argv, capture_output=True, text=True, check=True)] *)
Definition run_restart : M unit :=
  fun w =>
    match restart_rc (runtime w) with
    | None => (Raise FileNotFoundError, w)
    | Some rc =>
        (elapse 0 ;;; log (EvRun restart_argv) ;;;
         if rc =? 0 then ret tt else raise CalledProcessError) w
    end.

(** [subprocess.run(logs_argv, capture_output=True, text=True)], giving
    [result.stdout + result.stderr]. *)
Definition run_logs : M string :=
  fun w =>
    match logs_out (runtime w) (nlogs w) with
    | None => (Raise FileNotFoundError, w)
    | Some out =>
        (elapse 0 ;;; log (EvRun logs_argv) ;;;
         (fun w' => (Ok out, mkWorld (fs w') (clock w') (trace w')
                                     (S (nlogs w')) (runtime w')))) w
    end.

(** ** The script *)

Definition nl : string := String "010"%char EmptyString.

Inductive status : Type := RUNNING | FAILED | UNKNOWN.

Record Args : Type := mkArgs {
  model_file : path;
  name : option string;
  no_deploy : bool
}.

(** What [parser.parse_args()] does with a command line: it gives the
    arguments, or ends the process (status 0 after printing the help,
    status 2 after a usage error). *)
Inductive parsed : Type :=
  | Parsed (args : Args)
  | Exits (code : Z).

(** How [main()] ends: it returns a status, the parser ends the process
    ([SystemExit], which no [except Exception] catches), or an exception
    leaves it. *)
Inductive ending : Type :=
  | Returns (code : Z)
  | SystemExit (code : Z)
  | Uncaught (e : exn).

(** [generate_submission_name]; [t] is the reading of [time.time()].  An
    empty name is as good as none ([if model_name:]). *)
Definition generate_submission_name (model_name : option string) (t : Z) : string :=
  match model_name with
  | Some (String _ _ as given) =>
      let name := sub_invalid (Str.lower given) in
      Str.strip_chars is_hyphen (sub_hyphen_runs name)
  | _ => "submission-" ++ Str.of_Z (whole_seconds t)
  end.

(** [generate_model_id] *)
Definition generate_model_id (t : Z) : string :=
  let base_id := 12315 in
  let timestamp := (whole_seconds t) mod 10000 in
  Str.of_Z (base_id + timestamp).

(** *** Extractor: the cells of a notebook *)

(** The test that makes the loop [continue]. *)
Definition skipped (code : string) : bool :=
  let stripped := Str.strip code in
  String.eqb stripped ""
  || Str.startswith "%" stripped
  || Str.startswith "!" stripped
  || Str.contains "test_model_locally" code
  || Str.contains "pip install" code
  || Str.contains "# Test" code.

(** The code of one cell: [None] for a cell that is not of type "code".
    A [source] that is neither a list nor a string has no [strip]. *)
Definition cell_code (cell : value) : result (option string) :=
  cell_type <~ Py.get cell "cell_type" PNone ;;
  if Py.eq_str cell_type "code" then
    source <~ Py.get cell "source" (PList []) ;;
    match source with
    | PList parts => code <~ Py.join_values parts ;; Ok (Some code)
    | PStr code => Ok (Some code)
    | _ => Raise AttributeError
    end
  else Ok None.

(** The [for cell in ...] loop, [code_cells] being the list built so far. *)
Fixpoint extract_loop (cells : list value) (code_cells : list string)
  : result (list string) :=
  match cells with
  | [] => Ok code_cells
  | cell :: rest =>
      c <~ cell_code cell ;;
      match c with
      | Some code =>
          if skipped code then extract_loop rest code_cells
          else extract_loop rest (code_cells ++ [code])%list
      | None => extract_loop rest code_cells
      end
  end.

(** What [extract_model_code_from_notebook] does with the parsed notebook. *)
Definition extract_code (notebook : value) : result string :=
  cells_v <~ Py.get notebook "cells" (PList []) ;;
  cells <~ Py.iter cells_v ;;
  code_cells <~ extract_loop cells [] ;;
  Ok (Str.join (nl ++ nl) code_cells).

(** *** Structure Builder: entry point text and dependency manifest *)

Definition canonical_import : string := "from btcvol.tracker import TrackerBase".

(** The index of the first line that, stripped, starts with [if __name__]. *)
Fixpoint find_main_block (lines : list string) (i : nat) : option nat :=
  match lines with
  | [] => None
  | line :: rest =>
      if Str.startswith "if __name__" (Str.strip line) then Some i
      else find_main_block rest (S i)
  end.

(** From the model's code to the text written to [main.py]. *)
Definition prepare_code (code : string) : string :=
  let code :=
    if negb (Str.contains canonical_import code)
    then Str.replace "from btcvol import TrackerBase" canonical_import code
    else code in
  let required_imports :=
    ((if Str.contains "TrackerBase" code && negb (Str.contains canonical_import code)
      then [canonical_import] else [])
     ++
     (if Str.contains "np." code && negb (Str.contains "import numpy as np" code)
      then ["import numpy as np"] else []))%list in
  let code :=
    match required_imports with
    | [] => code
    | _ => Str.join nl required_imports ++ nl ++ nl ++ nl ++ code
    end in
  let lines := Str.split "010"%char code in
  match find_main_block lines O with
  | Some main_block_start => Str.join nl (firstn main_block_start lines)
  | None => code
  end.

Definition import_patterns : list (string * string) :=
  [ ("numpy", "numpy>=1.24.0");
    ("pandas", "pandas>=2.0.0");
    ("scipy", "scipy>=1.10.0");
    ("sklearn", "scikit-learn>=1.3.0") ].

(** [deps.add(x)] on a set kept as a list without repetition. *)
Definition set_add (x : string) (deps : list string) : list string :=
  if existsb (String.eqb x) deps then deps else (deps ++ [x])%list.

Fixpoint insert_sorted (x : string) (l : list string) : list string :=
  match l with
  | [] => [x]
  | y :: r => if String.leb x y then x :: l else y :: insert_sorted x r
  end.

(** [sorted(deps)] *)
Definition sorted (deps : list string) : list string :=
  fold_right insert_sorted [] deps.

(** The library is detected when [import <pkg>] occurs in the code. *)
Definition detected (pkg code : string) : bool :=
  Str.contains ("import " ++ pkg) code.

Definition collect_deps (code : string) : list string :=
  let deps :=
    fold_left (fun deps '(pkg, req) =>
                 if detected pkg code then set_add req deps else deps)
              import_patterns [] in
  match deps with
  | [] => set_add "numpy>=1.24.0" deps
  | _ => deps
  end.

(** The text written to [requirements.txt]. *)
Definition requirements_text (code : string) : string :=
  Str.join nl (sorted (collect_deps code)) ++ nl.

(** *** Config Updater: the registry document *)

(** The items of the dictionary [new_model]. *)
Definition new_model (submission_name model_id : string) : list (yval * yval) :=
  [ (YStr "id", YStr model_id);
    (YStr "name", YStr submission_name);
    (YStr "submission_id", YStr submission_name);
    (YStr "crunch_id", YStr "btcvol");
    (YStr "desired_state", YStr "RUNNING");
    (YStr "cruncher_id", YStr "test_1") ].

(** [[m['id'] for m in models]] *)
Fixpoint ids_of (h : list yobj) (models : list yval) : result (list yval) :=
  match models with
  | [] => Ok []
  | m :: rest =>
      id <~ Obj.getitem h m "id" ;;
      ids <~ ids_of h rest ;;
      Ok (id :: ids)
  end.

(** The loop that updates the first record of the given id, where it
    is, and stops; it gives the objects as the loop leaves them. *)
Fixpoint update_first (h : list yobj) (submission_name model_id : string)
         (models : list yval) : result (list yobj) :=
  match models with
  | [] => Ok h
  | model :: rest =>
      id <~ Obj.getitem h model "id" ;;
      if Obj.eq_str id model_id then
        h <~ Obj.setitem h model "submission_id" (YStr submission_name) ;;
        Obj.setitem h model "desired_state" (YStr "RUNNING")
      else update_first h submission_name model_id rest
  end.

(** What [update_models_config] does with the loaded document.  The
    default [[]] of [config.get] is only run through. *)
Definition update_config (config : document) (submission_name model_id : string)
  : result document :=
  let h := objects config in
  let cfg := root config in
  models_v <~ Obj.get h cfg "models" ;;
  models <~ (match models_v with
             | Some v => Obj.iter h v
             | None => Ok []
             end) ;;
  existing_ids <~ ids_of h models ;;
  if existsb (fun id => Obj.eq_str id model_id) existing_ids then
    models_v <~ Obj.getitem h cfg "models" ;;
    models <~ Obj.iter h models_v ;;
    h <~ update_first h submission_name model_id models ;;
    Ok (mkDocument cfg h)
  else
    let '(model, h) := Obj.alloc (YDict (new_model submission_name model_id)) h in
    absent <~ (present <~ Obj.has_key h cfg "models" ;; Ok (negb present)) ;;
    h <~ (if absent
          then let '(empty, h) := Obj.alloc (YList []) h in
               Obj.setitem h cfg "models" empty
          else Ok h) ;;
    models_v <~ Obj.getitem h cfg "models" ;;
    h <~ Obj.append h models_v model ;;
    Ok (mkDocument cfg h).

(** *** Status Poller: one look at the logs *)

(** The two tests on the fetched text, the success test first; [None]
    when neither holds and the loop goes on. *)
Definition scan_logs (model_id logs : string) : option status :=
  if Str.contains ("Model " ++ model_id ++ " is RUNNING") logs then Some RUNNING
  else if Str.contains ("Model " ++ model_id) logs && Str.contains "FAILED" logs
       then Some FAILED
  else None.

Section Program.

(** The directory of the script, and the library functions: [parse_args]
    is the parser that [main] builds, applied to a command line;
    [json_load] and [yaml_safe_load] give [None] for a text they reject. *)
Variable here : path.
Variable parse_args : list string -> parsed.
Variable json_load : string -> option value.
Variable yaml_safe_load : string -> option document.
Variable yaml_dump : document -> string.

Definition orchestrator : path :=
  (here ++ ["deployment"; "model-orchestrator-local"])%list.

Definition SUBMISSION_BASE : path := (orchestrator ++ ["data"; "submissions"])%list.

Definition MODELS_CONFIG : path := (orchestrator ++ ["config"; "models.dev.yml"])%list.

Definition BTCVOL_SOURCE : path := (SUBMISSION_BASE ++ ["model-1"; "btcvol"])%list.

Definition validate_model_file (model_path : path) : M (bool * string) :=
  found <- path_exists model_path ;;
  if negb found then
    ret (false, "Model file not found: " ++ path_str model_path)
  else if negb (existsb (String.eqb (suffix model_path)) [".py"; ".ipynb"]) then
    ret (false, "Model file must be .py or .ipynb, got: " ++ suffix model_path)
  else
    content <- read_text model_path ;;
    if negb (Str.contains "Tracker" content) || negb (Str.contains "predict" content)
    then ret (false, "Model file must contain a Tracker class with predict() method")
    else ret (true, "Valid").

Definition extract_model_code_from_notebook (notebook_path : path) : M string :=
  text <- read_text notebook_path ;;
  match json_load text with
  | None => raise JSONDecodeError
  | Some notebook => lift (extract_code notebook)
  end.

Definition create_submission_structure (model_path : path) (submission_name : string)
  : M path :=
  let submission_dir := joinpath SUBMISSION_BASE submission_name in
  present <- path_exists submission_dir ;;
  (if present then rmtree submission_dir else ret tt) ;;;
  mkdir_parents submission_dir ;;;
  source_present <- path_exists BTCVOL_SOURCE ;;
  if negb source_present then raise FileNotFoundError
  else
    copytree BTCVOL_SOURCE (submission_dir ++ ["btcvol"])%list ;;;
    code <- (if String.eqb (suffix model_path) ".ipynb"
             then extract_model_code_from_notebook model_path
             else read_text model_path) ;;
    let code := prepare_code code in
    write_text (submission_dir ++ ["main.py"])%list code ;;;
    write_text (submission_dir ++ ["requirements.txt"])%list (requirements_text code) ;;;
    ret submission_dir.

Definition update_models_config (submission_name model_id : string) : M bool :=
  try_except
    (text <- read_text MODELS_CONFIG ;;
     match yaml_safe_load text with
     | None => raise YAMLError
     | Some config =>
         config <- lift (update_config config submission_name model_id) ;;
         write_text MODELS_CONFIG (yaml_dump config) ;;;
         ret true
     end)
    (fun _ => ret false).

Definition trigger_deployment : M bool :=
  try_except
    (run_restart ;;;
     sleep 5 ;;;
     ret true)
    (fun e =>
       match e with
       | CalledProcessError => ret false
       | _ => raise e
       end).

(** The [while] loop of the poller; [None] when [fuel] does not suffice. *)
Fixpoint poll_loop (fuel : nat) (model_id : string) (max_wait start_time : Z)
  : M (option status) :=
  t <- now ;;
  if t - start_time <? 1000 * max_wait then
    match fuel with
    | O => ret None
    | S fuel' =>
        logs <- run_logs ;;
        match scan_logs model_id logs with
        | Some st => ret (Some st)
        | None =>
            sleep 3 ;;;
            poll_loop fuel' model_id max_wait start_time
        end
    end
  else ret (Some UNKNOWN).

(** A pass of the loop takes three seconds at least, so this many passes
    exhaust the wait ([poll_loop_fuelled]). *)
Definition poll_fuel (max_wait : Z) : nat := S (Z.to_nat max_wait).

Definition check_deployment_status (model_id : string) (max_wait : Z) : M status :=
  try_except
    (start_time <- now ;;
     r <- poll_loop (poll_fuel max_wait) model_id max_wait start_time ;;
     match r with
     | Some st => ret st
     | None => ret UNKNOWN
     end)
    (fun _ => ret UNKNOWN).

Definition default_max_wait : Z := 60.

(** [main()] once [parser.parse_args()] has given the arguments. *)
Definition submit (args : Args) : M Z :=
  v <- validate_model_file (model_file args) ;;
  let '(valid, message) := v in
  if negb valid then ret 1
  else
    t <- now ;;
    let submission_name := generate_submission_name (name args) t in
    t <- now ;;
    let model_id := generate_model_id t in
    try_except
      (submission_dir <- create_submission_structure (model_file args) submission_name ;;
       updated <- update_models_config submission_name model_id ;;
       if negb updated then ret 1
       else if no_deploy args then ret 0
       else
         triggered <- trigger_deployment ;;
         if negb triggered then ret 1
         else
           st <- check_deployment_status model_id default_max_wait ;;
           ret (match st with RUNNING => 0 | _ => 1 end))
      (fun _ => ret 1).

Definition main (argv : list string) (w : World) : ending * World :=
  match parse_args argv with
  | Exits code => (SystemExit code, w)
  | Parsed args =>
      match submit args w with
      | (Ok code, w') => (Returns code, w')
      | (Raise e, w') => (Uncaught e, w')
      end
  end.

(** [sys.exit(main())]: the status is what [main] returns, the code of a
    [SystemExit], and 1 for an exception that leaves [main]. *)
Definition exit_code (argv : list string) (w : World) : Z :=
  match fst (main argv w) with
  | Returns code => code
  | SystemExit code => code
  | Uncaught _ => 1
  end.

End Program.

(** ** Specification-side definitions

    What the specification says, in its own words, to be compared with
    the script above. *)

(** The slug: the name lowercased, every run of characters outside
    [[a-z0-9]] collapsed to a single hyphen, leading and trailing hyphens
    trimmed. *)
Fixpoint collapse_runs (in_run : bool) (s : string) : string :=
  match s with
  | EmptyString => EmptyString
  | String c r =>
      if is_alnum c then String c (collapse_runs false r)
      else if in_run then collapse_runs true r
      else String "-"%char (collapse_runs true r)
  end.

Definition slug_spec (given : string) : string :=
  Str.strip_chars is_hyphen (collapse_runs false (Str.lower given)).

(** No character of [s] is in [[a-z0-9]]. *)
Fixpoint no_alnum (s : string) : bool :=
  match s with
  | EmptyString => true
  | String c r => negb (is_alnum c) && no_alnum r
  end.

(** The field of a record, the top-level key of a document. *)
Definition field (key : string) (v : value) : option value :=
  match v with
  | PDict items => Py.lookup key items
  | _ => None
  end.

(** The cells the Extractor looks at: those of type "code". *)
Definition is_code_cell (cell : value) : bool :=
  match field "cell_type" cell with
  | Some v => Py.eq_str v "code"
  | None => false
  end.

Fixpoint concat_strs (parts : list value) : string :=
  match parts with
  | [] => EmptyString
  | PStr s :: rest => s ++ concat_strs rest
  | _ :: rest => concat_strs rest
  end.

(** The joined source of a cell. *)
Definition joined_source (cell : value) : string :=
  match field "source" cell with
  | Some (PList parts) => concat_strs parts
  | Some (PStr s) => s
  | _ => EmptyString
  end.

Definition excluded_substrings : list string :=
  ["test_model_locally"; "pip install"; "# Test"].

(** The cell is kept: its joined source, after trimming, is non-empty,
    does not begin with ['%'] or ['!'] and contains none of the excluded
    substrings. *)
Definition kept (code : string) : bool :=
  let trimmed := Str.strip code in
  negb (String.eqb trimmed "")
  && negb (Str.startswith "%" trimmed)
  && negb (Str.startswith "!" trimmed)
  && forallb (fun x => negb (Str.contains x trimmed)) excluded_substrings.

(** The first, the last character of [s] is no white space. *)
Definition starts_nonspace (s : string) : bool :=
  match s with
  | String a _ => negb (Str.is_space a)
  | EmptyString => false
  end.

Fixpoint ends_nonspace (s : string) : bool :=
  match s with
  | EmptyString => false
  | String a EmptyString => negb (Str.is_space a)
  | String _ r => ends_nonspace r
  end.

Definition all_strs (parts : list value) : bool :=
  forallb (fun v => match v with PStr _ => true | _ => false end) parts.

(** A cell as a notebook has them: an object; the source of a code cell
    is a string or a list of strings, when there is one. *)
Definition cell_ok (cell : value) : bool :=
  match cell with
  | PDict items =>
      if is_code_cell cell then
        match Py.lookup "source" items with
        | Some (PList parts) => all_strs parts
        | Some (PStr _) => true
        | Some _ => false
        | None => true
        end
      else true
  | _ => false
  end.

(** The text the Extractor is to return for a list of cells. *)
Definition extracted_spec (cells : list value) : string :=
  Str.join (nl ++ nl)
           (filter kept (List.map joined_source (filter is_code_cell cells))).

(** The pinned requirements, in the order of the manifest. *)
Definition pinned : list (string * string) :=
  [ ("numpy", "numpy>=1.24.0");
    ("pandas", "pandas>=2.0.0");
    ("sklearn", "scikit-learn>=1.3.0");
    ("scipy", "scipy>=1.10.0") ].

(** A library is detected as present in the code text when the text
    holds an import of its name: the words [import <name>]. *)
Definition import_present (pkg code : string) : bool :=
  Str.contains ("import " ++ pkg) code.

(** The lines of the manifest: the pinned requirement of every detected
    library, the baseline when there is none. *)
Definition manifest_lines (code : string) : list string :=
  match List.map snd (filter (fun '(pkg, _) => import_present pkg code) pinned) with
  | [] => ["numpy>=1.24.0"]
  | reqs => reqs
  end.

(** The records of a registry document: the entries of the list under
    [models], no record when the key is missing. *)
Definition records (config : document) : option (list yval) :=
  match Obj.deref (objects config) (root config) with
  | Some (YDict items) =>
      match Obj.lookup "models" items with
      | Some v =>
          match Obj.deref (objects config) v with
          | Some (YList models) => Some models
          | _ => None
          end
      | None => Some []
      end
  | _ => None
  end.

(** The field [key] of a record, among the objects [h]. *)
Definition attr (h : list yobj) (key : string) (record : yval) : option yval :=
  match Obj.deref h record with
  | Some (YDict items) => Obj.lookup key items
  | _ => None
  end.

Definition has_id (h : list yobj) (model_id : string) (record : yval) : bool :=
  match attr h "id" record with
  | Some v => Obj.eq_str v model_id
  | None => false
  end.

(** A record of the registry: a mapping with an [id]. *)
Definition record_ok (h : list yobj) (record : yval) : bool :=
  match attr h "id" record with
  | Some _ => true
  | None => false
  end.

(** The items of a record with the two fields of an update set. *)
Definition updated_items (submission_name : string) (items : list (yval * yval))
  : list (yval * yval) :=
  Obj.store "desired_state" (YStr "RUNNING")
            (Obj.store "submission_id" (YStr submission_name) items).

(** A record as the mapping it holds. *)
Definition mapping_of (h : list yobj) (record : yval) : option (list (yval * yval)) :=
  match Obj.deref h record with
  | Some (YDict items) => Some items
  | _ => None
  end.

(** The records of a document as mappings, entry by entry. *)
Definition record_mappings (config : document)
  : option (list (option (list (yval * yval)))) :=
  option_map (List.map (mapping_of (objects config))) (records config).

(** The update of a known id as the specification words it: one entry of
    the list, a record of the given id, has the two fields set; the
    entries before it and after it read as they did. *)
Definition updates_one_record (config config' : document)
           (submission_name model_id : string) : Prop :=
  exists before items after,
    record_mappings config = Some (before ++ Some items :: after)%list
    /\ Obj.lookup "id" items = Some (YStr model_id)
    /\ record_mappings config'
       = Some (before ++ Some (updated_items submission_name items) :: after)%list.

(** The world after a timed effect [e] of nominal duration [ms]. *)
Definition after (ms : Z) (e : event) (w : World) : World :=
  mkWorld (fs w)
          (clock w + ms + Z.of_N (lag (runtime w) (List.length (trace w))))
          (trace w ++ [e])%list (nlogs w) (runtime w).

(** The world after a mutation [e] that leaves the file system [f]. *)
Definition mutated (f : path -> option node) (e : event) (w : World) : World :=
  mkWorld f (clock w) (trace w ++ [e])%list (nlogs w) (runtime w).

(** The world after reading the file at [p]. *)
Definition after_read (p : path) (w : World) : World := mutated (fs w) (EvRead p) w.

(** The world after one more [docker logs]. *)
Definition after_logs (w : World) : World :=
  let w' := after 0 (EvRun logs_argv) w in
  mkWorld (fs w') (clock w') (trace w') (S (nlogs w')) (runtime w').

(** The effects of [n] unsuccessful passes of the poller. *)
Fixpoint polls (n : nat) : list event :=
  match n with
  | O => []
  | S n' => EvRun logs_argv :: EvSleep 3 :: polls n'
  end.

(** The text of the [i]-th fetch of a poller started in [w]. *)
Definition fetched (w : World) (i : nat) : string :=
  match logs_out (runtime w) (nlogs w + i) with
  | Some text => text
  | None => EmptyString
  end.

(** The world [w] with a container whose [i]-th [docker logs] gives
    [texts i]. *)
Definition with_logs (texts : nat -> string) (w : World) : World :=
  mkWorld (fs w) (clock w) (trace w) (nlogs w)
          (mkRuntime (restart_rc (runtime w))
                     (fun i => Some (texts i))
                     (lag (runtime w))).

Definition success_marker (model_id : string) : string :=
  "Model " ++ model_id ++ " is RUNNING".



Section Outcome.

Variable here : path.
Variable parse_args : list string -> parsed.
Variable json_load : string -> option value.
Variable yaml_safe_load : string -> option document.
Variable yaml_dump : document -> string.

(** The names [main] gives the submission and the model, from the clock
    of the world it starts in. *)
Definition submission_name_of (args : Args) (w : World) : string :=
  generate_submission_name (name args) (clock w).

Definition model_id_of (w : World) : string := generate_model_id (clock w).

(** The Structure Builder can prepare the directory [dir]: no file is in
    the way, the directory is there or nothing is, and the support library
    is a directory outside of it. *)
Definition builder_ready (f : path -> option node) (dir : path) : bool :=
  negb (has_file_ancestor f dir)
  && match f dir with
     | Some Dir => true
     | Some (File _) => false
     | None => match f (dir ++ ["btcvol"])%list with
               | None => true
               | Some _ => false
               end
     end
  && match f (BTCVOL_SOURCE here) with
     | Some Dir => true
     | _ => false
     end
  && negb (is_prefix dir (BTCVOL_SOURCE here)).

(** When the directory is not there yet, no directory is in the place
    of the two files the Structure Builder writes. *)
Definition files_free (f : path -> option node) (dir : path) : bool :=
  match f dir with
  | Some _ => true
  | None =>
      negb (match f (dir ++ ["main.py"])%list with Some Dir => true | _ => false end)
      && negb (match f (dir ++ ["requirements.txt"])%list with
               | Some Dir => true
               | _ => false
               end)
  end.

(** The world once the directory is prepared: deleted if it was there,
    made again, the support library copied into it. *)
Definition prepared (dir : path) (w : World) : World :=
  let w1 := match fs w dir with
            | Some _ => mutated (fs_rmtree dir (fs w)) (EvRmtree dir) w
            | None => w
            end in
  let w2 := mutated (fs_mkdir dir (fs w1)) (EvMkdir dir) w1 in
  let dst := (dir ++ ["btcvol"])%list in
  mutated (fs_copytree (BTCVOL_SOURCE here) dst (fs w2))
          (EvCopytree (BTCVOL_SOURCE here) dst) w2.

(** The run with arguments [args] succeeds: the file is valid, the
    submission is created, the registry is updated, and either deployment
    is skipped by the flag or it is triggered and confirmed RUNNING. *)
Definition succeeds (args : Args) (w : World) : Prop :=
  exists message w1 dir w2 w3,
    validate_model_file (model_file args) w = (Ok (true, message), w1) /\
    create_submission_structure here json_load (model_file args)
      (submission_name_of args w) w1 = (Ok dir, w2) /\
    update_models_config here yaml_safe_load yaml_dump
      (submission_name_of args w) (model_id_of w) w2 = (Ok true, w3) /\
    (no_deploy args = true \/
     no_deploy args = false /\
     exists w4 w5,
       trigger_deployment w3 = (Ok true, w4) /\
       check_deployment_status (model_id_of w) default_max_wait w4 = (Ok RUNNING, w5)).

(** The invocation succeeds: the parser gives arguments with which the
    run succeeds. *)
Definition invocation_succeeds (argv : list string) (w : World) : Prop :=
  exists args, parse_args argv = Parsed args /\ succeeds args w.

End Outcome.

(** ** A sample installation

    A file system with the orchestrator's tree, a registry without
    records, an earlier submission and three model files; container
    runtimes that behave in the ways the script distinguishes; and the
    library functions on the texts of this installation. *)

Module Sample.

Definition dq : string := String "034"%char EmptyString.

Definition here : path := ["srv"; "btcvol-cli"].

Definition home : path := ["home"; "ana"].

Definition garch_py : string :=
  "from btcvol import TrackerBase" ++ nl ++
  "import numpy as np" ++ nl ++
  "class GarchTracker(TrackerBase):" ++ nl ++
  "    def predict(self, asset, horizon, step):" ++ nl ++
  "        return np.zeros(1)" ++ nl ++
  "if __name__ == '__main__':" ++ nl ++
  "    print(GarchTracker())" ++ nl.

(** Not JSON: the object is never closed. *)
Definition broken_ipynb : string :=
  "{" ++ dq ++ "cells" ++ dq ++ ": [ class Tracker: def predict".

Definition good_ipynb : string :=
  "{" ++ dq ++ "cells" ++ dq ++ ": [{" ++ dq ++ "cell_type" ++ dq ++ ": "
  ++ dq ++ "code" ++ dq ++ ", " ++ dq ++ "source" ++ dq ++ ": ["
  ++ dq ++ "class Tracker:" ++ dq ++ ", " ++ dq ++ " predict = None" ++ dq
  ++ "]}]}".

Definition good_notebook : value :=
  PDict [(PStr "cells",
          PList [PDict [(PStr "cell_type", PStr "code");
                        (PStr "source", PList [PStr "class Tracker:";
                                               PStr " predict = None"])]])].

Definition registry_yml : string := "models: []" ++ nl.

Definition json_load (text : string) : option value :=
  if String.eqb text good_ipynb then Some good_notebook else None.

(** The registry without records, as the loader builds it. *)
Definition empty_registry : document :=
  mkDocument (YRef 0%nat) [YDict [(YStr "models", YRef 1%nat)]; YList []].

Definition yaml_safe_load (text : string) : option document :=
  if String.eqb text registry_yml then Some empty_registry else None.

Definition all_digits (s : string) : bool :=
  negb (String.eqb s "")
  && String.eqb (Str.map (fun c => if Str.in_range "0" "9" c then "0"%char else c) s)
                (Str.map (fun _ => "0"%char) s).

(** A string scalar: quoted when it would read as a number. *)
Definition dump_scalar (v : yval) : string :=
  match v with
  | YStr s => if all_digits s then "'" ++ s ++ "'" else s
  | _ => "null"
  end.

Definition dump_key (v : yval) : string :=
  match v with
  | YStr s => s
  | _ => "?"
  end.

Fixpoint dump_fields (first : bool) (items : list (yval * yval)) : string :=
  match items with
  | [] => EmptyString
  | (k, v) :: rest =>
      (if first then "- " else "  ") ++ dump_key k ++ ": " ++ dump_scalar v ++ nl
      ++ dump_fields false rest
  end.

Definition dump_record (h : list yobj) (record : yval) : string :=
  match Obj.deref h record with
  | Some (YDict items) => dump_fields true items
  | _ => EmptyString
  end.

(** [yaml.dump] in block style, on a registry whose records are distinct
    mappings that hold strings. *)
Definition yaml_dump (config : document) : string :=
  match records config with
  | Some [] => "models: []" ++ nl
  | Some models =>
      "models:" ++ nl
      ++ String.concat "" (List.map (dump_record (objects config)) models)
  | None => EmptyString
  end.

Definition dirs_to (p : path) : list (path * node) :=
  List.map (fun q => (q, Dir)) (proper_prefixes p ++ [p]).

(** The file system given by a table of entries. *)
Definition fs_of (entries : list (path * node)) : path -> option node :=
  fun p =>
    match find (fun e => path_eqb (fst e) p) entries with
    | Some e => Some (snd e)
    | None => None
    end.

Definition entries : list (path * node) :=
  (dirs_to (BTCVOL_SOURCE here)
   ++ [((BTCVOL_SOURCE here ++ ["tracker.py"])%list, File "class TrackerBase: pass")]
   ++ dirs_to (SUBMISSION_BASE here ++ ["garch"])
   ++ [((SUBMISSION_BASE here ++ ["garch"; "main.py"])%list, File "# an earlier model")]
   ++ dirs_to (parent (MODELS_CONFIG here))
   ++ [(MODELS_CONFIG here, File registry_yml)]
   ++ dirs_to home
   ++ [((home ++ ["garch.py"])%list, File garch_py);
       ((home ++ ["broken.ipynb"])%list, File broken_ipynb);
       ((home ++ ["good.ipynb"])%list, File good_ipynb)])%list.

(** The restart succeeds and the third look at the logs shows the model
    running; every timed effect takes a quarter of a second more. *)
Definition rt_running : Runtime :=
  mkRuntime (Some 0)
            (fun n => Some (if (n <? 2)%nat then "Starting runner"
                            else "Model 12315 is RUNNING"))
            (fun _ => 250%N).

(** The restart exits with status 1. *)
Definition rt_restart_fails : Runtime :=
  mkRuntime (Some 1) (fun _ => Some EmptyString) (fun _ => 250%N).

(** The logs never mention the model. *)
Definition rt_silent : Runtime :=
  mkRuntime (Some 0) (fun _ => Some "Starting runner") (fun _ => 250%N).

(** The logs report a failure of the model. *)
Definition rt_failing : Runtime :=
  mkRuntime (Some 0)
            (fun _ => Some ("Model 12315 started" ++ nl ++ "build FAILED"))
            (fun _ => 250%N).

(** The restart succeeds, but [docker logs] cannot be started. *)
Definition rt_logs_unavailable : Runtime :=
  mkRuntime (Some 0) (fun _ => None) (fun _ => 250%N).

(** The logs report a failed attempt and then the running model. *)
Definition mixed_logs : string :=
  "Model 12315 FAILED health check" ++ nl ++ "Model 12315 is RUNNING".

Definition rt_mixed : Runtime :=
  mkRuntime (Some 0) (fun _ => Some mixed_logs) (fun _ => 250%N).

(** A clock reading whose whole seconds end in 0000: the model id is 12315. *)
Definition clock0 : Z := 1730000000000.

Definition world (rt : Runtime) : World := mkWorld (fs_of entries) clock0 [] O rt.

Definition args_py : Args := mkArgs (home ++ ["garch.py"])%list (Some "Garch") false.

Definition args_broken : Args :=
  mkArgs (home ++ ["broken.ipynb"])%list (Some "Garch") false.

Definition argv_py : list string := ["/home/ana/garch.py"; "--name"; "Garch"].

Definition argv_broken : list string := ["/home/ana/broken.ipynb"; "--name"; "Garch"].

Definition argv_help : list string := ["--help"].

Definition argv_eqb (a b : list string) : bool := path_eqb a b.

(** The parser on the command lines used here: the two submissions and
    the request for help.  The other command lines are not needed; they
    are all taken as usage errors. *)
Definition parse_args (argv : list string) : parsed :=
  if argv_eqb argv argv_py then Parsed args_py
  else if argv_eqb argv argv_broken then Parsed args_broken
  else if argv_eqb argv argv_help then Exits 0
  else Exits 2.

Definition garch_dir : path := (SUBMISSION_BASE here ++ ["garch"])%list.

(** A registry with two records. *)
Definition registry : document :=
  mkDocument (YRef 0%nat)
    [ YDict [(YStr "version", YNum "1"); (YStr "models", YRef 1%nat)];
      YList [YRef 2%nat; YRef 3%nat];
      YDict (new_model "baseline" "12315");
      YDict (new_model "garch" "12316") ].

(** A registry whose second record is an alias of the first: the YAML
    text gives the first record an anchor and the second entry of the
    list is a reference to it, so that the loader makes both entries the
    same object. *)
Definition aliased_registry : document :=
  mkDocument (YRef 0%nat)
    [ YDict [(YStr "models", YRef 1%nat)];
      YList [YRef 2%nat; YRef 2%nat];
      YDict (new_model "baseline" "12315") ].

End Sample.

(** ** Further specification-side definitions *)

(** Every character of [s] satisfies [p]. *)
Fixpoint all_chars (p : ascii -> bool) (s : string) : bool :=
  match s with
  | EmptyString => true
  | String c r => p c && all_chars p r
  end.

(** A character that is no line end. *)
Definition plain_char (c : ascii) : bool :=
  negb (Ascii.eqb c "013"%char) && negb (Ascii.eqb c "010"%char).

(** The characters a submission name is made of. *)
Definition slug_char (c : ascii) : bool := is_alnum c || is_hyphen c.

(** The last character of [s] satisfies [p]. *)
Fixpoint last_is (p : ascii -> bool) (s : string) : bool :=
  match s with
  | EmptyString => false
  | String c EmptyString => p c
  | String _ r => last_is p r
  end.

Definition first_is (p : ascii -> bool) (s : string) : bool :=
  match s with
  | EmptyString => false
  | String c _ => p c
  end.

(** The line opens the block the Structure Builder cuts off. *)
Definition entry_guard (line : string) : bool :=
  Str.startswith "if __name__" (Str.strip line).

Definition is_newline (c : ascii) : bool := Ascii.eqb c "010"%char.

(** No two hyphens follow each other in [s]. *)
Fixpoint no_double_hyphen (s : string) : bool :=
  match s with
  | String a (String b _ as r) => negb (is_hyphen a && is_hyphen b) && no_double_hyphen r
  | _ => true
  end.

(** ** What an effect leaves alone *)

(** [m] keeps [R] between the world it starts in and the world it
    leaves, whether it returns or raises. *)
Definition keeps {A} (R : World -> World -> Prop) (m : M A) : Prop :=
  forall w, R w (snd (m w)).

(** Outside of [inside], nothing that exists is changed or removed, and
    nothing is made but missing directories on the way to [dir]. *)
Definition confined (inside : path -> bool) (dir : path) (w w' : World) : Prop :=
  forall p, inside p = false ->
    match fs w p with
    | Some n => fs w' p = Some n
    | None => fs w' p = None \/ (is_prefix p dir = true /\ fs w' p = Some Dir)
    end.

(** The file system is the same but for the paths in [touched]. *)
Definition unchanged_except (touched : path -> bool) (w w' : World) : Prop :=
  forall p, touched p = false -> fs w' p = fs w p.

(** The effects on files, as opposed to running a process and waiting. *)
Definition file_event (e : event) : bool :=
  match e with
  | EvRun _ | EvSleep _ => false
  | _ => true
  end.

(** From [w] to [w'] no process was run and no time has passed: the
    clock and the container runtime are as they were, and the new
    effects are all on files. *)
Definition offline (w w' : World) : Prop :=
  clock w' = clock w /\ nlogs w' = nlogs w /\ runtime w' = runtime w
  /\ exists evs, trace w' = (trace w ++ evs)%list /\ forallb file_event evs = true.

(** The places the Structure Builder writes to once the old directory is
    gone: the directory and its ancestors, the copy of the support
    library and the two files. *)
Definition builder_target (dir p : path) : bool :=
  is_prefix p dir
  || is_prefix (dir ++ ["btcvol"])%list p
  || path_eqb p (dir ++ ["main.py"])%list
  || path_eqb p (dir ++ ["requirements.txt"])%list.

(** The code the Structure Builder takes from a model file of text
    [text]: the text of a script, what the Extractor makes of a
    notebook. *)
Definition model_code (json_load : string -> option value)
           (model_path : path) (text : string) : option string :=
  if String.eqb (suffix model_path) ".ipynb" then
    match json_load text with
    | Some notebook =>
        match extract_code notebook with
        | Ok code => Some code
        | Raise _ => None
        end
    | None => None
    end
  else Some text.

Definition not_newline (c : ascii) : bool := negb (is_newline c).

(** The lines of a text, as [text.split('\n')] gives them. *)
Definition lines_of (text : string) : list string := Str.split "010"%char text.

Definition not_cr (c : ascii) : bool := negb (Ascii.eqb c "013"%char).

(** The lines of a source text as Python reads them: a line ends at a
    line feed, at a carriage return, or at the two in a row. *)
Definition source_lines (text : string) : list string :=
  lines_of (Str.universal_newlines text).

(** ** Further cases of the sample installation *)

Module Cases.

(** A parser that gives the same arguments every time. *)
Definition parse_as (args : Args) : list string -> parsed := fun _ => Parsed args.

(** A model file that is not there. *)
Definition args_missing : Args :=
  mkArgs (Sample.home ++ ["missing.py"])%list None false.

(** The sample model, submitted with [--no-deploy]. *)
Definition args_offline : Args :=
  mkArgs (Sample.home ++ ["garch.py"])%list (Some "Garch") true.

(** A directory with the name of a script. *)
Definition package : path := (Sample.home ++ ["models.py"])%list.

Definition args_package : Args := mkArgs package None false.

Definition world_with_package : World :=
  mkWorld (fs_mkdir package (Sample.fs_of Sample.entries))
          Sample.clock0 [] O Sample.rt_running.

(** No container runtime is installed. *)
Definition rt_no_docker : Runtime :=
  mkRuntime None (fun _ => None) (fun _ => 250%N).

(** A registry whose only record has no [id]. *)
Definition registry_without_id : document :=
  mkDocument (YRef 0%nat)
    [ YDict [(YStr "models", YRef 1%nat)];
      YList [YRef 2%nat];
      YDict [(YStr "name", YStr "baseline")] ].

Definition load_without_id : string -> option document :=
  fun _ => Some registry_without_id.

(** A registry whose record has a number as its [id]. *)
Definition registry_with_number : document :=
  mkDocument (YRef 0%nat)
    [ YDict [(YStr "models", YRef 1%nat)];
      YList [YRef 2%nat];
      YDict [(YStr "id", YNum "12315"); (YStr "submission_id", YStr "baseline")] ].

(** A notebook whose one cell has a carriage return before its entry
    block, as the JSON text [x = 1\rif __name__ == '__main__':\n    run()]
    gives it. *)
Definition cell_with_cr : string :=
  ("x = 1" ++ String "013" "if __name__ == '__main__':" ++ nl ++ "    run()")%string.

Definition notebook_with_cr : value :=
  PDict [(PStr "cells",
          PList [PDict [(PStr "cell_type", PStr "code");
                        (PStr "source", PList [PStr cell_with_cr])]])].

(** The entry point of the earlier submission, submitted again under
    its name. *)
Definition earlier_main : path := (Sample.garch_dir ++ ["main.py"])%list.

End Cases.

(** * Properties *)

Local Open Scope list_scope.

(** ** Text *)

Lemma prefix_spec (n h : string) :
  String.prefix n h = true <-> exists b, h = (n ++ b)%string.
Proof.
  revert h. induction n as [|a n IH]; intros h.
  - split; [intros _; now exists h | intros _; now destruct h].
  - destruct h as [|c h]; cbn.
    + split; [discriminate | intros [b Hb]; discriminate Hb].
    + destruct (ascii_dec a c) as [->|Hac].
      * rewrite IH. split; intros [b Hb]; exists b; [now rewrite Hb | now inversion Hb].
      * split; [discriminate | intros [b Hb]; inversion Hb; congruence].
Qed.

Lemma append_assoc (a b c : string) : ((a ++ b) ++ c = a ++ (b ++ c))%string.
Proof. induction a as [|x a IH]; [reflexivity|]. cbn. now rewrite IH. Qed.

(** [needle in hay] holds exactly when [needle] occurs somewhere in [hay]. *)
Lemma contains_spec (n h : string) :
  Str.contains n h = true <-> exists a b, h = (a ++ n ++ b)%string.
Proof.
  induction h as [|c h IH].
  - cbn [Str.contains]. rewrite orb_false_r, prefix_spec. split.
    + intros [b Hb]. now exists EmptyString, b.
    + intros (a & b & H). destruct a; [now exists b|discriminate H].
  - cbn [Str.contains]. rewrite orb_true_iff, prefix_spec, IH. split.
    + intros [[b Hb]|(a & b & Hab)].
      * now exists EmptyString, b.
      * exists (String c a), b. now rewrite Hab.
    + intros (a & b & H). destruct a as [|c' a]; cbn in H.
      * left. now exists b.
      * right. exists a, b. now inversion H.
Qed.

Lemma is_hyphen_eq (c : ascii) : is_hyphen c = true -> c = "-"%char.
Proof. unfold is_hyphen. apply Ascii.eqb_eq. Qed.

Lemma alnum_not_hyphen (c : ascii) : is_alnum c = true -> is_hyphen c = false.
Proof.
  intros Ha. destruct (is_hyphen c) eqn:Hh; [|reflexivity].
  apply is_hyphen_eq in Hh. subst c. discriminate Ha.
Qed.

(** The two substitutions of the script, one after the other, collapse
    the runs of characters outside [[a-z0-9]]. *)
Lemma sub_passes_collapse (s : string) (in_run : bool) :
  sub_hyphen_runs_from in_run (sub_invalid s) = collapse_runs in_run s.
Proof.
  revert in_run. induction s as [|c r IH]; intros in_run; [reflexivity|].
  unfold sub_invalid in *. cbn [Str.map sub_hyphen_runs_from collapse_runs].
  destruct (is_alnum c) eqn:Ha.
  - cbn [orb]. rewrite (alnum_not_hyphen c Ha). now rewrite IH.
  - cbn [orb]. destruct (is_hyphen c) eqn:Hh.
    + rewrite Hh. apply is_hyphen_eq in Hh. subst c.
      destruct in_run; now rewrite IH.
    + change (is_hyphen "-") with true. cbn iota.
      destruct in_run; now rewrite IH.
Qed.

Lemma generate_submission_name_given (c : ascii) (r : string) (t : Z) :
  generate_submission_name (Some (String c r)) t = slug_spec (String c r).
Proof.
  unfold generate_submission_name, slug_spec, sub_hyphen_runs.
  now rewrite sub_passes_collapse.
Qed.

Lemma collapse_no_alnum (s : string) :
  no_alnum s = true -> collapse_runs true s = EmptyString.
Proof.
  induction s as [|c r IH]; intros H; [reflexivity|].
  cbn in H. apply andb_true_iff in H as [Hc Hr].
  apply negb_true_iff in Hc. cbn [collapse_runs]. rewrite Hc. auto.
Qed.

Lemma slug_spec_no_alnum (given : string) :
  no_alnum (Str.lower given) = true -> slug_spec given = EmptyString.
Proof.
  unfold slug_spec. destruct (Str.lower given) as [|c r]; [reflexivity|].
  intros H. cbn in H. apply andb_true_iff in H as [Hc Hr].
  apply negb_true_iff in Hc. cbn [collapse_runs]. rewrite Hc.
  now rewrite (collapse_no_alnum r Hr).
Qed.

(** *** Trimming keeps the occurrences of a word that neither starts nor
    ends with white space *)

Lemma prefix_nil_r (n : string) : n <> EmptyString -> String.prefix n "" = false.
Proof. now destruct n. Qed.

Lemma prefix_cons (a c : ascii) (n h : string) :
  String.prefix (String a n) (String c h)
  = (if ascii_dec a c then String.prefix n h else false).
Proof. reflexivity. Qed.

Lemma rstrip_cons (p : ascii -> bool) (c : ascii) (r : string) :
  Str.rstrip p r <> EmptyString ->
  Str.rstrip p (String c r) = String c (Str.rstrip p r).
Proof. cbn. now destruct (Str.rstrip p r). Qed.

Lemma rstrip_cons_nil (p : ascii -> bool) (c : ascii) (r : string) :
  Str.rstrip p r = EmptyString ->
  Str.rstrip p (String c r)
  = (if p c then EmptyString else String c EmptyString).
Proof. cbn. now intros ->. Qed.

Lemma prefix_rstrip (n s : string) :
  ends_nonspace n = true ->
  String.prefix n (Str.rstrip Str.is_space s) = String.prefix n s.
Proof.
  revert n. induction s as [|c r IH]; intros n Hn; [reflexivity|].
  destruct n as [|a n]; [discriminate Hn|].
  destruct (string_dec (Str.rstrip Str.is_space r) EmptyString) as [E|E].
  - rewrite (rstrip_cons_nil _ c r E). rewrite prefix_cons.
    destruct n as [|a' n'].
    + cbn in Hn. apply negb_true_iff in Hn.
      destruct (Str.is_space c) eqn:Hc.
      * destruct (ascii_dec a c) as [->|_]; [congruence|reflexivity].
      * rewrite prefix_cons. destruct (ascii_dec a c); [now destruct r|reflexivity].
    + assert (Hn' : ends_nonspace (String a' n') = true) by exact Hn.
      specialize (IH _ Hn'). rewrite E in IH.
      rewrite prefix_nil_r in IH by discriminate. rewrite <- IH.
      destruct (Str.is_space c); [now destruct (ascii_dec a c)|].
      rewrite prefix_cons. now destruct (ascii_dec a c).
  - rewrite (rstrip_cons _ c r E). rewrite !prefix_cons.
    destruct (ascii_dec a c); [|reflexivity].
    destruct n as [|a' n'];
      [destruct (Str.rstrip Str.is_space r); destruct r; reflexivity|].
    now apply IH.
Qed.

Lemma contains_nil_r (n : string) : n <> EmptyString -> Str.contains n "" = false.
Proof. intros H. now destruct n. Qed.

Lemma contains_rstrip (n s : string) :
  ends_nonspace n = true ->
  Str.contains n (Str.rstrip Str.is_space s) = Str.contains n s.
Proof.
  intros Hn. assert (Hne : n <> EmptyString) by (now destruct n).
  induction s as [|c r IH]; [reflexivity|].
  pose proof (prefix_rstrip n (String c r) Hn) as P.
  cbn [Str.contains]. rewrite <- P, <- IH.
  destruct (string_dec (Str.rstrip Str.is_space r) EmptyString) as [E|E].
  - rewrite (rstrip_cons_nil _ c r E), E, (contains_nil_r n Hne), orb_false_r.
    destruct (Str.is_space c).
    + now rewrite (contains_nil_r n Hne), prefix_nil_r.
    + cbn [Str.contains]. now rewrite prefix_nil_r, !orb_false_r.
  - now rewrite (rstrip_cons _ c r E).
Qed.

Lemma contains_lstrip (n s : string) :
  starts_nonspace n = true ->
  Str.contains n (Str.lstrip Str.is_space s) = Str.contains n s.
Proof.
  intros Hn. destruct n as [|a n]; [discriminate Hn|].
  cbn in Hn. apply negb_true_iff in Hn.
  induction s as [|c r IH]; [reflexivity|].
  cbn [Str.lstrip]. destruct (Str.is_space c) eqn:Hc; [|reflexivity].
  rewrite IH. cbn [Str.contains]. rewrite prefix_cons.
  destruct (ascii_dec a c) as [->|_]; [congruence|reflexivity].
Qed.

Lemma contains_strip (n s : string) :
  starts_nonspace n = true -> ends_nonspace n = true ->
  Str.contains n (Str.strip s) = Str.contains n s.
Proof.
  intros Hs He. unfold Str.strip, Str.strip_chars.
  now rewrite contains_rstrip, contains_lstrip.
Qed.

(** The test of the script is the negation of the specification's. *)
Lemma kept_not_skipped (code : string) : kept code = negb (skipped code).
Proof.
  unfold kept, skipped, excluded_substrings. cbn [forallb].
  rewrite !contains_strip by reflexivity.
  rewrite !negb_orb, andb_true_r, !andb_assoc. reflexivity.
Qed.

(** ** Reading with universal newlines *)

Lemma prefix_other_head (n : string) (c : ascii) (r : string) :
  all_chars plain_char n = true -> n <> EmptyString -> plain_char c = false ->
  String.prefix n (String c r) = false.
Proof.
  intros Hn Hne Hc. destruct n as [|y n]; [congruence|].
  cbn [all_chars] in Hn. apply andb_true_iff in Hn as [Hy _].
  rewrite prefix_cons. destruct (ascii_dec y c) as [->|]; [congruence|reflexivity].
Qed.

Lemma prefix_universal_newlines (n s : string) :
  all_chars plain_char n = true ->
  String.prefix n (Str.universal_newlines s) = String.prefix n s.
Proof.
  revert s. induction n as [|y n IH]; intros s Hn.
  - destruct (Str.universal_newlines s); destruct s; reflexivity.
  - cbn [all_chars] in Hn. apply andb_true_iff in Hn as [Hy Hn].
    destruct s as [|c r]; [reflexivity|]. cbn [Str.universal_newlines].
    destruct (Ascii.eqb c "013") eqn:Ec.
    + apply Ascii.eqb_eq in Ec. subst c. rewrite !prefix_cons.
      destruct (ascii_dec y "010") as [->|]; [discriminate Hy|].
      destruct (ascii_dec y "013") as [->|]; [discriminate Hy|reflexivity].
    + rewrite !prefix_cons. destruct (ascii_dec y c); [now apply IH|reflexivity].
Qed.

(** A text without line ends occurs in what is read exactly when it
    occurs in what is stored. *)
Lemma contains_universal_newlines (n s : string) :
  all_chars plain_char n = true -> n <> EmptyString ->
  Str.contains n (Str.universal_newlines s) = Str.contains n s.
Proof.
  intros Hn Hne.
  assert (Hcr : forall r, String.prefix n (String "013" r) = false)
    by (intros r; now apply prefix_other_head).
  assert (Hlf : forall r, String.prefix n (String "010" r) = false)
    by (intros r; now apply prefix_other_head).
  assert (H : forall k s, (String.length s <= k)%nat ->
              Str.contains n (Str.universal_newlines s) = Str.contains n s).
  { induction k as [|k IH]; intros t Hlen.
    - destruct t; [reflexivity|cbn in Hlen; lia].
    - destruct t as [|c r]; [reflexivity|]. cbn [String.length] in Hlen.
      destruct (Ascii.eqb c "013") eqn:Ec.
      + apply Ascii.eqb_eq in Ec. subst c.
        cbn [Str.universal_newlines Ascii.eqb Bool.eqb].
        cbn [Str.contains]. rewrite Hcr, Hlf. cbn [orb].
        destruct r as [|c' r'].
        * reflexivity.
        * destruct (Ascii.eqb c' "010") eqn:Ec'.
          -- apply Ascii.eqb_eq in Ec'. subst c'.
             cbn [Str.contains]. rewrite Hlf. cbn [orb].
             apply IH. cbn [String.length] in Hlen. lia.
          -- apply IH. lia.
      + pose proof (prefix_universal_newlines n (String c r) Hn) as Hp.
        cbn [Str.universal_newlines] in Hp |- *. rewrite Ec in Hp |- *.
        cbn [Str.contains]. rewrite Hp. f_equal. apply IH. lia. }
  now apply (H (String.length s)).
Qed.

(** ** Paths *)

Lemma strip_prefix_app (p r : path) : strip_prefix p (p ++ r) = Some r.
Proof.
  induction p as [|x p IH]; [reflexivity|].
  cbn. now rewrite String.eqb_refl.
Qed.

Lemma is_prefix_app (p r : path) : is_prefix p (p ++ r) = true.
Proof. unfold is_prefix. now rewrite strip_prefix_app. Qed.

Lemma is_prefix_refl (p : path) : is_prefix p p = true.
Proof. rewrite <- (app_nil_r p) at 2. apply is_prefix_app. Qed.

Lemma strip_prefix_length (p q r : path) :
  strip_prefix p q = Some r -> List.length q = (List.length p + List.length r)%nat.
Proof.
  revert q. induction p as [|x p IH]; intros q H.
  - cbn in H. now inversion H.
  - destruct q as [|y q]; [discriminate|]. cbn in H.
    destruct (String.eqb x y); [|discriminate].
    cbn. now rewrite (IH q H).
Qed.

Lemma is_prefix_longer (p q : path) :
  (List.length q < List.length p)%nat -> is_prefix p q = false.
Proof.
  intros Hlen. unfold is_prefix.
  destruct (strip_prefix p q) as [r|] eqn:E; [|reflexivity].
  apply strip_prefix_length in E. lia.
Qed.

Lemma proper_prefixes_shorter (p q : path) :
  In q (proper_prefixes p) -> (List.length q < List.length p)%nat.
Proof.
  revert q. induction p as [|x p IH]; intros q H; [destruct H|].
  cbn in H. destruct H as [<-|H]; [cbn; lia|].
  apply in_map_iff in H as (q' & <- & Hq'). cbn.
  specialize (IH q' Hq'). lia.
Qed.

Lemma has_file_ancestor_ext (f g : path -> option node) (p : path) :
  (forall q, In q (proper_prefixes p) -> is_file (g q) = is_file (f q)) ->
  has_file_ancestor g p = has_file_ancestor f p.
Proof.
  unfold has_file_ancestor. induction (proper_prefixes p) as [|q l IH]; intros H.
  - reflexivity.
  - cbn. rewrite (H q (or_introl eq_refl)). f_equal.
    apply IH. intros q' Hq'. apply H. now right.
Qed.

Lemma path_eqb_refl (p : path) : path_eqb p p = true.
Proof.
  induction p as [|x p IH]; [reflexivity|].
  cbn. now rewrite String.eqb_refl.
Qed.

Lemma path_eqb_eq (p q : path) : path_eqb p q = true -> p = q.
Proof.
  revert q. induction p as [|x p IH]; intros [|y q] H; try discriminate;
    [reflexivity|].
  cbn in H. apply andb_true_iff in H as [Hx Hp].
  apply String.eqb_eq in Hx. now rewrite Hx, (IH q Hp).
Qed.

Lemma path_eqb_siblings (p : path) (x y : string) :
  x <> y -> path_eqb (p ++ [x]) (p ++ [y]) = false.
Proof.
  intros Hxy. destruct (path_eqb (p ++ [x]) (p ++ [y])) eqn:E; [|reflexivity].
  apply path_eqb_eq, app_inv_head in E. congruence.
Qed.

Lemma path_eqb_child (p : path) (x : string) : path_eqb p (p ++ [x]) = false.
Proof.
  destruct (path_eqb p (p ++ [x])) eqn:E; [|reflexivity].
  apply path_eqb_eq in E. apply (f_equal (@List.length string)) in E.
  rewrite length_app in E. cbn in E. lia.
Qed.

Lemma strip_prefix_app_both (p a b : path) :
  strip_prefix (p ++ a) (p ++ b) = strip_prefix a b.
Proof.
  induction p as [|x p IH]; [reflexivity|].
  cbn. now rewrite String.eqb_refl.
Qed.

Lemma parent_snoc (p : path) (x : string) : parent (p ++ [x]) = p.
Proof. apply removelast_last. Qed.

(** ** Running the effects *)

Lemma bind_ok {A B} (m : M A) (k : A -> M B) (w w' : World) (a : A) :
  m w = (Ok a, w') -> bind m k w = k a w'.
Proof. unfold bind. now intros ->. Qed.

Lemma bind_raise {A B} (m : M A) (k : A -> M B) (w w' : World) (e : exn) :
  m w = (Raise e, w') -> bind m k w = (Raise e, w').
Proof. unfold bind. now intros ->. Qed.

Lemma try_ok {A} (m : M A) (h : exn -> M A) (w w' : World) (a : A) :
  m w = (Ok a, w') -> try_except m h w = (Ok a, w').
Proof. unfold try_except. now intros ->. Qed.

Lemma try_raise {A} (m : M A) (h : exn -> M A) (w w' : World) (e : exn) :
  m w = (Raise e, w') -> try_except m h w = h e w'.
Proof. unfold try_except. now intros ->. Qed.

Lemma sleep_run (seconds : Z) (w : World) :
  sleep seconds w = (Ok tt, after (1000 * seconds) (EvSleep seconds) w).
Proof. reflexivity. Qed.

Lemma run_logs_run (w : World) (out : string) :
  logs_out (runtime w) (nlogs w) = Some out ->
  run_logs w = (Ok out, after_logs w).
Proof.
  intros H. unfold run_logs. rewrite H. unfold after_logs, after.
  cbn. now rewrite Z.add_0_r.
Qed.

Lemma run_restart_run (w : World) (rc : Z) :
  restart_rc (runtime w) = Some rc ->
  run_restart w
  = ((if rc =? 0 then Ok tt else Raise CalledProcessError),
     after 0 (EvRun restart_argv) w).
Proof.
  intros H. unfold run_restart. rewrite H. unfold after. cbn.
  now destruct (rc =? 0).
Qed.

Lemma read_text_run (p : path) (w : World) (s : string) :
  fs w p = Some (File s) ->
  read_text p w = (Ok (Str.universal_newlines s), after_read p w).
Proof. intros H. unfold read_text, get_fs. unfold bind at 1. now rewrite H. Qed.

Lemma write_text_run (p : path) (s : string) (w : World) :
  fs w p <> Some Dir -> fs w (parent p) = Some Dir ->
  write_text p s w = (Ok tt, mutated (fs_write p s (fs w)) (EvWrite p s) w).
Proof.
  intros Hp Hparent. unfold write_text, get_fs. unfold bind at 1.
  rewrite Hparent. now destruct (fs w p) as [[|]|].
Qed.

Lemma rmtree_run (p : path) (w : World) :
  fs w p = Some Dir ->
  rmtree p w = (Ok tt, mutated (fs_rmtree p (fs w)) (EvRmtree p) w).
Proof. intros H. unfold rmtree, get_fs. unfold bind at 1. now rewrite H. Qed.

Lemma mkdir_parents_run (p : path) (w : World) :
  has_file_ancestor (fs w) p = false -> is_file (fs w p) = false ->
  mkdir_parents p w = (Ok tt, mutated (fs_mkdir p (fs w)) (EvMkdir p) w).
Proof.
  intros Ha Hf. unfold mkdir_parents, get_fs. unfold bind at 1.
  now rewrite Ha, Hf.
Qed.

Lemma copytree_run (src dst : path) (w : World) :
  fs w src = Some Dir -> fs w dst = None ->
  has_file_ancestor (fs w) dst = false ->
  copytree src dst w
  = (Ok tt, mutated (fs_copytree src dst (fs w)) (EvCopytree src dst) w).
Proof.
  intros Hs Hd Ha. unfold copytree, get_fs. unfold bind at 1.
  now rewrite Hs, Hd, Ha.
Qed.

Lemma is_prefix_inv (q p : path) :
  is_prefix q p = true -> q = p \/ In q (proper_prefixes p).
Proof.
  revert q. induction p as [|x p IH]; intros q H.
  - destruct q; [now left|discriminate].
  - destruct q as [|y q]; [right; now left|].
    unfold is_prefix in H. cbn in H.
    destruct (String.eqb_spec y x) as [->|]; [|discriminate].
    destruct (IH q) as [->|Hin]; [exact H|now left|].
    right. cbn. right. now apply in_map.
Qed.

Lemma is_prefix_trans (p q r : path) :
  is_prefix p q = true -> is_prefix q r = true -> is_prefix p r = true.
Proof.
  revert q r. induction p as [|x p IH]; intros q r Hpq Hqr; [reflexivity|].
  destruct q as [|y q]; [discriminate|]. destruct r as [|z r]; [discriminate|].
  unfold is_prefix in *. cbn in *.
  destruct (String.eqb_spec x y) as [->|]; [|discriminate].
  destruct (String.eqb_spec y z) as [->|]; [|discriminate].
  now apply (IH q r).
Qed.

Lemma not_file_ancestor (f : path -> option node) (p q : path) :
  has_file_ancestor f p = false -> In q (proper_prefixes p) -> is_file (f q) = false.
Proof.
  unfold has_file_ancestor. intros H Hin.
  destruct (is_file (f q)) eqn:E; [|reflexivity].
  assert (existsb (fun q => is_file (f q)) (proper_prefixes p) = true)
    by (apply existsb_exists; now exists q).
  congruence.
Qed.

(** ** Structure Builder *)

Lemma is_prefix_snoc (q p : path) (x : string) :
  is_prefix q (p ++ [x]) = true -> is_prefix q p = true \/ q = p ++ [x].
Proof.
  intros H. apply is_prefix_inv in H as [->|Hin]; [now right|left].
  revert q Hin. induction p as [|y p IH]; intros q Hin.
  - cbn in Hin. destruct Hin as [<-|[]]. reflexivity.
  - cbn in Hin. destruct Hin as [<-|Hin]; [reflexivity|].
    apply in_map_iff in Hin as (q' & <- & Hq').
    unfold is_prefix. cbn. rewrite String.eqb_refl. now apply IH.
Qed.

Lemma has_file_ancestor_snoc (f : path -> option node) (p : path) (x : string) :
  has_file_ancestor f p = false -> is_file (f p) = false ->
  has_file_ancestor f (p ++ [x]) = false.
Proof.
  intros Ha Hp. unfold has_file_ancestor.
  destruct (existsb _ (proper_prefixes (p ++ [x]))) eqn:E; [|reflexivity].
  apply existsb_exists in E as (q & Hin & Hq).
  assert (Hpre : is_prefix q (p ++ [x]) = true).
  { pose proof (proper_prefixes_shorter _ _ Hin).
    clear Hq. revert q Hin H. induction (p ++ [x]) as [|y l IH]; intros q Hin Hlen.
    - destruct Hin.
    - cbn in Hin. destruct Hin as [<-|Hin]; [reflexivity|].
      apply in_map_iff in Hin as (q' & <- & Hq').
      unfold is_prefix. cbn. rewrite String.eqb_refl. apply IH; [exact Hq'|].
      now apply proper_prefixes_shorter. }
  apply is_prefix_snoc in Hpre as [Hpre| ->].
  - apply is_prefix_inv in Hpre as [->|Hin']; [congruence|].
    rewrite (not_file_ancestor f p q Ha Hin') in Hq. discriminate.
  - apply proper_prefixes_shorter in Hin. lia.
Qed.

Section Builder.

Variable here : path.
Variable parse_args : list string -> parsed.
Variable json_load : string -> option value.
Variable yaml_safe_load : string -> option document.
Variable yaml_dump : document -> string.

Local Abbreviation base := (SUBMISSION_BASE here).
Local Abbreviation source := (BTCVOL_SOURCE here).

(** The first steps of the Structure Builder, up to the copy of the
    support library; what follows is run in the prepared world. *)
Lemma create_submission_structure_prepares
      (model_path : path) (submission_name : string) (w : World) :
  let dir := joinpath base submission_name in
  builder_ready here (fs w) dir = true ->
  create_submission_structure here json_load model_path submission_name w
  = (code <- (if String.eqb (suffix model_path) ".ipynb"
              then extract_model_code_from_notebook json_load model_path
              else read_text model_path) ;;
     let code := prepare_code code in
     write_text (dir ++ ["main.py"]) code ;;;
     write_text (dir ++ ["requirements.txt"]) (requirements_text code) ;;;
     ret dir) (prepared here dir w).
Proof.
  intros dir Hready. unfold builder_ready in Hready. fold dir in Hready.
  apply andb_true_iff in Hready as [Hready Hout].
  apply andb_true_iff in Hready as [Hready Hsrc].
  apply andb_true_iff in Hready as [Hanc Hdir].
  apply negb_true_iff in Hanc, Hout.
  destruct (fs w source) as [[|]|] eqn:Esrc; try discriminate Hsrc. clear Hsrc.
  unfold create_submission_structure. fold dir.
  unfold bind at 1. unfold path_exists at 1.
  set (w1 := match fs w dir with
             | Some _ => mutated (fs_rmtree dir (fs w)) (EvRmtree dir) w
             | None => w
             end).
  assert (Hstep1 : (if match fs w dir with Some _ => true | None => false end
                    then rmtree dir else ret tt) w = (Ok tt, w1)).
  { subst w1. destruct (fs w dir) as [[|]|] eqn:Ed; try discriminate Hdir.
    - now apply rmtree_run.
    - reflexivity. }
  erewrite bind_ok by exact Hstep1.
  assert (Hw1 : forall q, is_prefix dir q = false -> fs w1 q = fs w q).
  { intros q Hq. subst w1. destruct (fs w dir); [|reflexivity].
    cbn [mutated fs]. unfold fs_rmtree. now rewrite Hq. }
  assert (Hw1dir : fs w1 dir = None).
  { subst w1. destruct (fs w dir) as [[|]|] eqn:Ed; try discriminate Hdir.
    - cbn [mutated fs]. unfold fs_rmtree. now rewrite is_prefix_refl.
    - exact Ed. }
  assert (Hw1dst : fs w1 (dir ++ ["btcvol"]) = None).
  { subst w1. destruct (fs w dir) as [[|]|] eqn:Ed; try discriminate Hdir.
    - cbn [mutated fs]. unfold fs_rmtree. now rewrite is_prefix_app.
    - now destruct (fs w (dir ++ ["btcvol"])). }
  assert (Hanc1 : has_file_ancestor (fs w1) dir = false).
  { rewrite (has_file_ancestor_ext (fs w)); [exact Hanc|].
    intros q Hq. f_equal. apply Hw1, is_prefix_longer.
    now apply proper_prefixes_shorter. }
  erewrite bind_ok.
  2:{ apply mkdir_parents_run; [exact Hanc1 | now rewrite Hw1dir]. }
  set (w2 := mutated (fs_mkdir dir (fs w1)) (EvMkdir dir) w1).
  assert (Hsrc2 : fs w2 source = Some Dir).
  { subst w2. cbn [mutated fs]. unfold fs_mkdir.
    destruct (is_prefix source dir); [reflexivity|]. now rewrite Hw1. }
  unfold bind at 1. unfold path_exists at 1. rewrite Hsrc2. cbn [negb].
  erewrite bind_ok.
  2:{ apply copytree_run.
      - exact Hsrc2.
      - subst w2. cbn [mutated fs]. unfold fs_mkdir.
        rewrite is_prefix_longer; [exact Hw1dst|].
        rewrite length_app. cbn. lia.
      - apply has_file_ancestor_snoc.
        + rewrite (has_file_ancestor_ext (fs w1)); [exact Hanc1|].
          intros q Hq. subst w2. cbn [mutated fs]. unfold fs_mkdir.
          destruct (is_prefix q dir) eqn:Eq; [|reflexivity].
          now rewrite (not_file_ancestor _ _ _ Hanc1 Hq).
        + subst w2. cbn [mutated fs]. unfold fs_mkdir.
          now rewrite is_prefix_refl. }
  reflexivity.
Qed.

(** A file outside the directory is still there once it is prepared. *)
Lemma prepared_keeps_file (dir q : path) (w : World) :
  builder_ready here (fs w) dir = true ->
  is_file (fs w q) = true ->
  is_prefix dir q = false ->
  fs (prepared here dir w) q = fs w q.
Proof.
  intros Hready Hfile Hout. unfold builder_ready in Hready.
  apply andb_true_iff in Hready as [Hready _].
  apply andb_true_iff in Hready as [Hready _].
  apply andb_true_iff in Hready as [Hanc Hdir].
  apply negb_true_iff in Hanc.
  assert (Hnotanc : is_prefix q dir = false).
  { destruct (is_prefix q dir) eqn:E; [|reflexivity].
    apply is_prefix_inv in E as [->|Hin].
    - destruct (fs w dir) as [[|]|]; discriminate.
    - rewrite (not_file_ancestor _ _ _ Hanc Hin) in Hfile. discriminate. }
  unfold prepared. cbn [mutated fs]. unfold fs_copytree.
  destruct (strip_prefix (dir ++ ["btcvol"]) q) as [rest|] eqn:Es.
  - assert (is_prefix dir q = true); [|congruence].
    apply (is_prefix_trans dir (dir ++ ["btcvol"]) q); [apply is_prefix_app|].
    unfold is_prefix. now rewrite Es.
  - destruct (is_prefix q (dir ++ ["btcvol"])) eqn:Ed.
    + apply is_prefix_snoc in Ed as [Ed| ->]; [congruence|].
      now rewrite is_prefix_app in Hout.
    + unfold fs_mkdir. rewrite Hnotanc.
      destruct (fs w dir); [|reflexivity].
      cbn [mutated fs]. unfold fs_rmtree. now rewrite Hout.
Qed.

Lemma trace_prepared (dir : path) (w : World) :
  trace (prepared here dir w)
  = trace w
    ++ match fs w dir with Some _ => [EvRmtree dir] | None => [] end
    ++ [EvMkdir dir; EvCopytree source (dir ++ ["btcvol"])].
Proof.
  unfold prepared. destruct (fs w dir); cbn [mutated trace];
    now rewrite <- !app_assoc.
Qed.

Lemma prepared_dir (dir : path) (w : World) :
  fs (prepared here dir w) dir = Some Dir.
Proof.
  unfold prepared. cbn [mutated fs]. unfold fs_copytree.
  rewrite <- (app_nil_r dir) at 2. rewrite strip_prefix_app_both. cbn [strip_prefix].
  now rewrite is_prefix_app.
Qed.

(** What the prepared directory holds under a name other than that of
    the support library: nothing, unless the directory was not there and
    something was. *)
Lemma prepared_child (dir : path) (x : string) (w : World) :
  x <> "btcvol" ->
  fs (prepared here dir w) (dir ++ [x])
  = match fs w dir with
    | Some _ => None
    | None => fs w (dir ++ [x])
    end.
Proof.
  intros Hx. unfold prepared. cbn [mutated fs]. unfold fs_copytree.
  rewrite strip_prefix_app_both. cbn [strip_prefix].
  destruct (String.eqb_spec "btcvol" x) as [E|_]; [congruence|].
  unfold is_prefix at 1. rewrite strip_prefix_app_both. cbn [strip_prefix].
  destruct (String.eqb_spec x "btcvol") as [E|_]; [congruence|].
  unfold fs_mkdir. rewrite is_prefix_longer by (rewrite length_app; cbn; lia).
  destruct (fs w dir); [|reflexivity].
  cbn [mutated fs]. unfold fs_rmtree. now rewrite is_prefix_app.
Qed.

(** The Structure Builder on a script: the directory is prepared, the
    entry point is the prepared code and the manifest the requirements
    of that code. *)
Lemma structure_builder_writes
      (model_path : path) (submission_name content : string) (w : World) :
  let dir := joinpath base submission_name in
  let code := prepare_code (Str.universal_newlines content) in
  suffix model_path = ".py" ->
  fs w model_path = Some (File content) ->
  is_prefix dir model_path = false ->
  builder_ready here (fs w) dir = true ->
  files_free (fs w) dir = true ->
  exists w',
    create_submission_structure here json_load model_path submission_name w
    = (Ok dir, w')
    /\ fs w' (dir ++ ["main.py"]) = Some (File code)
    /\ fs w' (dir ++ ["requirements.txt"]) = Some (File (requirements_text code))
    /\ trace w'
       = trace (prepared here dir w)
         ++ [EvRead model_path;
             EvWrite (dir ++ ["main.py"]) code;
             EvWrite (dir ++ ["requirements.txt"]) (requirements_text code)].
Proof.
  intros dir code Hsuffix Hfile Hout Hready Hfree.
  rewrite create_submission_structure_prepares by exact Hready. fold dir.
  rewrite Hsuffix. cbn [String.eqb Ascii.eqb Bool.eqb].
  assert (Hmodel : fs (prepared here dir w) model_path = Some (File content)).
  { rewrite (prepared_keeps_file dir model_path w Hready); [exact Hfile| |exact Hout].
    now rewrite Hfile. }
  erewrite bind_ok by (apply read_text_run; exact Hmodel). fold code.
  set (w1 := after_read model_path (prepared here dir w)).
  assert (Hchild : forall x, x <> "btcvol" ->
                   In x ["main.py"; "requirements.txt"] ->
                   fs w1 (dir ++ [x]) <> Some Dir).
  { intros x Hx Hin. subst w1. cbn [after_read mutated fs].
    rewrite (prepared_child dir x w Hx). unfold files_free in Hfree.
    destruct (fs w dir); [discriminate|].
    apply andb_true_iff in Hfree as [Hm Hr]. apply negb_true_iff in Hm, Hr.
    destruct Hin as [<-|[<-|[]]].
    - destruct (fs w (dir ++ ["main.py"])) as [[|]|]; congruence.
    - destruct (fs w (dir ++ ["requirements.txt"])) as [[|]|]; congruence. }
  erewrite bind_ok.
  2:{ apply write_text_run.
      - apply Hchild; [discriminate|now left].
      - rewrite parent_snoc. subst w1. cbn [after_read mutated fs].
        apply prepared_dir. }
  set (w2 := mutated (fs_write (dir ++ ["main.py"]) code (fs w1))
                     (EvWrite (dir ++ ["main.py"]) code) w1).
  erewrite bind_ok.
  2:{ apply write_text_run.
      - subst w2. cbn [mutated fs]. unfold fs_write.
        rewrite path_eqb_siblings by discriminate.
        apply Hchild; [discriminate|right; now left].
      - rewrite parent_snoc. subst w2. cbn [mutated fs]. unfold fs_write.
        rewrite path_eqb_child. subst w1. cbn [after_read mutated fs].
        apply prepared_dir. }
  eexists. split; [reflexivity|]. subst w2 w1.
  cbn [after_read mutated fs trace]. unfold fs_write.
  rewrite !path_eqb_refl, path_eqb_siblings by discriminate.
  split; [reflexivity|]. split; [reflexivity|].
  now rewrite <- !app_assoc.
Qed.

(** C1, as the script has it.  A notebook outside the submission
    directory that passes validation and, as read, is not valid JSON
    makes the run end with the parse error and exit status 1, but only
    after the Structure Builder has prepared the submission directory:
    deleted if it was there, made again, the support library copied into
    it.  Nothing is written after the failed parse, and no container
    command is issued. *)
Theorem malformed_notebook_aborts
        (argv : list string) (args : Args) (w : World) (content : string) :
  parse_args argv = Parsed args ->
  let notebook := model_file args in
  let dir := joinpath base (submission_name_of args w) in
  suffix notebook = ".ipynb" ->
  fs w notebook = Some (File content) ->
  Str.contains "Tracker" content = true ->
  Str.contains "predict" content = true ->
  json_load (Str.universal_newlines content) = None ->
  builder_ready here (fs w) dir = true ->
  is_prefix dir notebook = false ->
  let w' := after_read notebook (prepared here dir (after_read notebook w)) in
  create_submission_structure here json_load notebook (submission_name_of args w)
    (after_read notebook w) = (Raise JSONDecodeError, w')
  /\ main here parse_args json_load yaml_safe_load yaml_dump argv w
     = (Returns 1, w')
  /\ trace w'
     = trace w
       ++ EvRead notebook
       :: match fs w dir with Some _ => [EvRmtree dir] | None => [] end
       ++ [EvMkdir dir; EvCopytree source (dir ++ ["btcvol"]); EvRead notebook].
Proof.
  intros Hparse notebook dir Hsuffix Hfile Htracker Hpredict Hjson Hready Hout w'.
  assert (Hcreate :
    create_submission_structure here json_load notebook (submission_name_of args w)
      (after_read notebook w) = (Raise JSONDecodeError, w')).
  { rewrite create_submission_structure_prepares by exact Hready.
    fold dir. rewrite Hsuffix. cbn [String.eqb Ascii.eqb Bool.eqb].
    apply bind_raise. unfold extract_model_code_from_notebook.
    erewrite bind_ok.
    2:{ apply read_text_run.
        rewrite (prepared_keeps_file dir notebook (after_read notebook w)).
        - exact Hfile.
        - exact Hready.
        - cbn [after_read mutated fs]. now rewrite Hfile.
        - exact Hout. }
    now rewrite Hjson. }
  split; [exact Hcreate|]. split.
  - unfold main. rewrite Hparse.
    assert (Hsubmit : submit here json_load yaml_safe_load yaml_dump args w
                      = (Ok 1, w')); [|now rewrite Hsubmit].
    unfold submit. fold notebook.
    assert (Hvalid : validate_model_file notebook w
                     = (Ok (true, "Valid"), after_read notebook w)).
    { unfold validate_model_file. unfold bind at 1. unfold path_exists at 1.
      rewrite Hfile. cbn [negb]. rewrite Hsuffix.
      cbn [existsb String.eqb Ascii.eqb Bool.eqb orb negb andb].
      erewrite bind_ok by (apply read_text_run; exact Hfile).
      rewrite !contains_universal_newlines by (reflexivity || discriminate).
      now rewrite Htracker, Hpredict. }
    erewrite bind_ok by exact Hvalid. cbn [negb].
    unfold bind at 1. unfold now at 1. unfold bind at 1. unfold now at 1.
    erewrite try_raise; [reflexivity|].
    apply bind_raise. exact Hcreate.
  - subst w'. cbn [after_read mutated trace]. rewrite trace_prepared.
    cbn [after_read mutated trace fs]. now rewrite <- !app_assoc.
Qed.

(** C9, as the script has it.  A name that is not empty and has no
    character of [[a-z0-9]] once lowercased gives the empty slug; the
    submission directory is then the base directory itself, and when that
    is a directory the Structure Builder deletes it with all it holds and
    makes it again, after which the support library is no longer there to
    copy. *)
Theorem empty_slug_targets_base
        (given : string) (t : Z) (model_path : path) (w : World) :
  given <> "" ->
  no_alnum (Str.lower given) = true ->
  fs w base = Some Dir ->
  has_file_ancestor (fs w) base = false ->
  let slug := generate_submission_name (Some given) t in
  slug = ""
  /\ joinpath base slug = base
  /\ exists w',
       create_submission_structure here json_load model_path slug w
       = (Raise FileNotFoundError, w')
       /\ trace w' = trace w ++ [EvRmtree base; EvMkdir base]
       /\ fs w' base = Some Dir
       /\ forall rest, rest <> [] -> fs w' (base ++ rest) = None.
Proof.
  intros Hne Hno Hdir Hanc. cbv zeta.
  assert (Hslug : generate_submission_name (Some given) t = "").
  { destruct given as [|c r]; [congruence|].
    rewrite generate_submission_name_given. now apply slug_spec_no_alnum. }
  split; [exact Hslug|]. rewrite Hslug. split; [reflexivity|].
  unfold create_submission_structure.
  change (joinpath base "") with base.
  unfold bind at 1. unfold path_exists at 1. rewrite Hdir.
  erewrite bind_ok by (apply rmtree_run; exact Hdir).
  set (w1 := mutated (fs_rmtree base (fs w)) (EvRmtree base) w).
  erewrite bind_ok.
  2:{ apply mkdir_parents_run.
      - rewrite (has_file_ancestor_ext (fs w)); [exact Hanc|].
        intros q Hq. subst w1. cbn [mutated fs]. unfold fs_rmtree.
        rewrite is_prefix_longer; [reflexivity|].
        now apply proper_prefixes_shorter.
      - subst w1. cbn [mutated fs]. unfold fs_rmtree.
        now rewrite is_prefix_refl. }
  set (w2 := mutated (fs_mkdir base (fs w1)) (EvMkdir base) w1).
  assert (Hunder : forall rest, rest <> [] -> fs w2 (base ++ rest) = None).
  { intros rest Hrest. subst w2 w1. cbn [mutated fs]. unfold fs_mkdir, fs_rmtree.
    rewrite is_prefix_longer, is_prefix_app; [reflexivity|].
    rewrite length_app. destruct rest; [congruence|]. cbn. lia. }
  unfold bind at 1. unfold path_exists at 1. unfold BTCVOL_SOURCE.
  rewrite Hunder by discriminate. cbn [negb]. unfold raise.
  exists w2. split; [reflexivity|].
  split; [subst w2 w1; cbn [mutated trace]; now rewrite <- app_assoc|].
  split; [|exact Hunder].
  subst w2. cbn [mutated fs]. unfold fs_mkdir. now rewrite is_prefix_refl.
Qed.

End Builder.

(** ** The run as a whole *)

Lemma validate_model_file_frame (model_path : path) (w : World) :
  let '(r, w1) := validate_model_file model_path w in
  clock w1 = clock w /\ fs w1 = fs w /\ runtime w1 = runtime w
  /\ nlogs w1 = nlogs w
  /\ (trace w1 = trace w \/ trace w1 = trace w ++ [EvRead model_path]).
Proof.
  unfold validate_model_file, path_exists, read_text, get_fs, log, ret, raise.
  unfold bind.
  destruct (fs w model_path) as [[content|]|] eqn:E; cbn [negb]; [| |cbn; auto 10].
  - destruct (negb (existsb _ _)); [cbn; auto 10|].
    cbv beta. rewrite E. cbv beta iota.
    destruct (negb (Str.contains "Tracker" _) || _); cbn; auto 10.
  - destruct (negb (existsb _ _)); [cbn; auto 10|].
    cbv beta. rewrite E. cbn. auto 10.
Qed.

Section Run.

Variable here : path.
Variable parse_args : list string -> parsed.
Variable json_load : string -> option value.
Variable yaml_safe_load : string -> option document.
Variable yaml_dump : document -> string.

Local Abbreviation run_exit :=
  (exit_code here parse_args json_load yaml_safe_load yaml_dump).
Local Abbreviation create := (create_submission_structure here json_load).
Local Abbreviation update := (update_models_config here yaml_safe_load yaml_dump).

(** The exit status, stage by stage. *)
Lemma exit_code_stages (argv : list string) (args : Args) (w : World) :
  parse_args argv = Parsed args ->
  run_exit argv w =
  match validate_model_file (model_file args) w with
  | (Ok (true, _), w1) =>
      match create (model_file args) (submission_name_of args w) w1 with
      | (Ok _, w2) =>
          match update (submission_name_of args w) (model_id_of w) w2 with
          | (Ok true, w3) =>
              if no_deploy args then 0
              else
                match trigger_deployment w3 with
                | (Ok true, w4) =>
                    match check_deployment_status (model_id_of w)
                                                  default_max_wait w4 with
                    | (Ok RUNNING, _) => 0
                    | _ => 1
                    end
                | _ => 1
                end
          | _ => 1
          end
      | (Raise _, _) => 1
      end
  | _ => 1
  end.
Proof.
  intros Hparse. unfold exit_code, main. rewrite Hparse. unfold submit.
  pose proof (validate_model_file_frame (model_file args) w) as Hframe.
  unfold bind at 1.
  destruct (validate_model_file (model_file args) w) as [[[valid message]|e] w1];
    [|reflexivity].
  destruct Hframe as (Hclock & _).
  destruct valid; [|reflexivity]. cbn [negb].
  unfold bind at 1. unfold now at 1. unfold bind at 1. unfold now at 1.
  unfold submission_name_of, model_id_of. rewrite Hclock.
  unfold try_except. unfold bind at 1.
  destruct (create_submission_structure _ _ _ _ w1) as [[dir|e] w2];
    [|reflexivity].
  unfold bind at 1.
  destruct (update_models_config _ _ _ _ _ w2) as [[[|]|e] w3];
    try reflexivity.
  cbn [negb]. destruct (no_deploy args); [reflexivity|].
  unfold bind at 1.
  destruct (trigger_deployment w3) as [[[|]|e] w4];
    try reflexivity.
  cbn [negb]. unfold bind at 1.
  destruct (check_deployment_status _ _ w4) as [[[| |]|e] w5];
    reflexivity.
Qed.

(** C2, as the script has it.  When the parser accepts the command line,
    the exit status is 0 exactly when the run succeeds (the submission is
    created and registered, and deployment is either skipped by the flag
    or confirmed RUNNING), and 1 otherwise: on a failed validation, a
    failure of the Structure Builder or the Config Updater, a failed
    trigger, and a final status FAILED or UNKNOWN. *)
Theorem exit_code_reports_success (argv : list string) (args : Args) (w : World) :
  parse_args argv = Parsed args ->
  (run_exit argv w = 0 <-> succeeds here json_load yaml_safe_load yaml_dump args w)
  /\ (run_exit argv w = 0 \/ run_exit argv w = 1)
  /\ (forall r w1,
         validate_model_file (model_file args) w = (r, w1) ->
         (forall message, r <> Ok (true, message)) ->
         run_exit argv w = 1)
  /\ (forall message w1,
         validate_model_file (model_file args) w = (Ok (true, message), w1) ->
         (forall e w2,
             create (model_file args) (submission_name_of args w) w1 = (Raise e, w2) ->
             run_exit argv w = 1)
         /\
         (forall dir w2,
             create (model_file args) (submission_name_of args w) w1 = (Ok dir, w2) ->
             (forall r w3,
                 update (submission_name_of args w) (model_id_of w) w2 = (r, w3) ->
                 r <> Ok true ->
                 run_exit argv w = 1)
             /\
             (forall w3,
                 update (submission_name_of args w) (model_id_of w) w2 = (Ok true, w3) ->
                 no_deploy args = false ->
                 (forall r w4,
                     trigger_deployment w3 = (r, w4) -> r <> Ok true ->
                     run_exit argv w = 1)
                 /\
                 (forall w4 r w5,
                     trigger_deployment w3 = (Ok true, w4) ->
                     check_deployment_status (model_id_of w) default_max_wait w4
                     = (r, w5) ->
                     r <> Ok RUNNING ->
                     run_exit argv w = 1)))).
Proof.
  intros Hparse. rewrite (exit_code_stages argv args w Hparse). unfold succeeds.
  destruct (validate_model_file (model_file args) w) as [rv w1] eqn:Hv.
  destruct (create (model_file args) (submission_name_of args w) w1)
    as [rc w2] eqn:Hc.
  destruct (update (submission_name_of args w) (model_id_of w) w2)
    as [ru w3] eqn:Hu.
  destruct (trigger_deployment w3) as [rt w4] eqn:Ht.
  destruct (check_deployment_status (model_id_of w) default_max_wait w4)
    as [rs w5] eqn:Hs.
  assert (Hexit :
    forall P : Z -> Prop, P 0 -> P 1 ->
    P (match rv with
       | Ok (true, _) =>
           match rc with
           | Ok _ =>
               match ru with
               | Ok true =>
                   if no_deploy args then 0
                   else match rt with
                        | Ok true => match rs with Ok RUNNING => 0 | _ => 1 end
                        | _ => 1
                        end
               | _ => 1
               end
           | Raise _ => 1
           end
       | _ => 1
       end)).
  { intros P P0 P1.
    destruct rv as [[[|] ?]|?], rc as [?|?], ru as [[|]|?], (no_deploy args),
      rt as [[|]|?], rs as [[| |]|?]; assumption. }
  split; [|split; [apply Hexit; auto|]].
  - split.
    + intros H0.
      destruct rv as [[[|] message]|?]; try discriminate H0.
      destruct rc as [dir|?]; try discriminate H0.
      destruct ru as [[|]|?]; try discriminate H0.
      exists message, w1, dir, w2, w3. repeat split.
      * now rewrite Hc.
      * now rewrite Hu.
      * destruct (no_deploy args); [now left|right]. split; [reflexivity|].
        destruct rt as [[|]|?]; try discriminate H0.
        destruct rs as [[| |]|?]; try discriminate H0.
        exists w4, w5. now rewrite Ht, Hs.
    + intros (message & w1' & dir & w2' & w3' & Hv' & Hc' & Hu' & Hd).
      inversion Hv'; subst rv w1'. rewrite Hc in Hc'. inversion Hc'; subst rc w2'.
      rewrite Hu in Hu'. inversion Hu'; subst ru w3'.
      destruct Hd as [->|(-> & w4' & w5' & Ht' & Hs')]; [reflexivity|].
      rewrite Ht in Ht'. inversion Ht'; subst rt w4'.
      rewrite Hs in Hs'. now inversion Hs'.
  - split.
    + intros r w1' Hr Hbad. inversion Hr; subst r w1'.
      destruct rv as [[[|] message]|?]; try reflexivity.
      now destruct (Hbad message).
    + intros message w1' Hr. inversion Hr; subst rv w1'. split.
      * intros e w2' Hr'. rewrite Hc in Hr'. now inversion Hr'.
      * intros dir w2' Hr'. rewrite Hc in Hr'. inversion Hr'; subst rc w2'. split.
        -- intros r w3' Hr'' Hbad. rewrite Hu in Hr''. inversion Hr''; subst r w3'.
           destruct ru as [[|]|?]; congruence.
        -- intros w3' Hr'' Hnd. rewrite Hu in Hr''. inversion Hr''; subst ru w3'.
           rewrite Hnd. split.
           ++ intros r w4' Hr3 Hbad. rewrite Ht in Hr3. inversion Hr3; subst r w4'.
              destruct rt as [[|]|?]; congruence.
           ++ intros w4' r w5' Hr3 Hr4 Hbad. rewrite Ht in Hr3.
              inversion Hr3; subst rt w4'. rewrite Hs in Hr4.
              inversion Hr4; subst r w5'.
              destruct rs as [[| |]|?]; congruence.
Qed.

End Run.
(** ** Config Updater *)

Lemma lookup_store_same (key : string) (v : yval) (items : list (yval * yval)) :
  Obj.lookup key (Obj.store key v items) = Some v.
Proof.
  induction items as [|[k old] rest IH]; cbn.
  - now rewrite String.eqb_refl.
  - destruct (Obj.eq_str k key) eqn:E; cbn; now rewrite E.
Qed.

Lemma lookup_store_other (key key' : string) (v : yval)
      (items : list (yval * yval)) :
  key' <> key ->
  Obj.lookup key' (Obj.store key v items) = Obj.lookup key' items.
Proof.
  intros Hne. induction items as [|[k old] rest IH]; cbn.
  - destruct (String.eqb_spec key key'); [congruence|reflexivity].
  - destruct (Obj.eq_str k key) eqn:E; cbn.
    + destruct k; try discriminate E. cbn in E |- *.
      apply String.eqb_eq in E. subst s.
      destruct (String.eqb_spec key key'); [congruence|reflexivity].
    + now rewrite IH.
Qed.

(** *** Objects and their addresses *)

Lemma length_put (a : addr) (o : yobj) (h : list yobj) :
  List.length (Obj.put a o h) = List.length h.
Proof.
  revert a. induction h as [|x h IH]; intros [|a]; cbn; try reflexivity.
  now rewrite IH.
Qed.

Lemma nth_error_put_same (a : addr) (o : yobj) (h : list yobj) :
  (a < List.length h)%nat -> nth_error (Obj.put a o h) a = Some o.
Proof.
  revert a. induction h as [|x h IH]; intros [|a] Hlen; cbn in *; try lia.
  - reflexivity.
  - apply IH. lia.
Qed.

Lemma nth_error_put_other (a b : addr) (o : yobj) (h : list yobj) :
  b <> a -> nth_error (Obj.put a o h) b = nth_error h b.
Proof.
  revert a b. induction h as [|x h IH]; intros [|a] [|b] Hne; cbn;
    try reflexivity; try congruence.
  apply IH. congruence.
Qed.

Lemma put_put (a : addr) (o o' : yobj) (h : list yobj) :
  Obj.put a o' (Obj.put a o h) = Obj.put a o' h.
Proof.
  revert a. induction h as [|x h IH]; intros [|a]; cbn; try reflexivity.
  now rewrite IH.
Qed.

Lemma put_same (a : addr) (o : yobj) (h : list yobj) :
  nth_error h a = Some o -> Obj.put a o h = h.
Proof.
  revert a. induction h as [|x h IH]; intros [|a] H; cbn in *; try discriminate.
  - now inversion H.
  - now rewrite IH.
Qed.

Lemma nth_error_in_range {A} (l : list A) (a : nat) (x : A) :
  nth_error l a = Some x -> (a < List.length l)%nat.
Proof. intros H. apply nth_error_Some. congruence. Qed.

Lemma nth_error_grown (h : list yobj) (more : list yobj) (a : addr) (o : yobj) :
  nth_error h a = Some o -> nth_error (h ++ more) a = Some o.
Proof.
  intros H. rewrite nth_error_app1; [exact H|]. now apply nth_error_in_range in H.
Qed.

(** A record with a field is a reference to a mapping. *)
Lemma attr_some (h : list yobj) (key : string) (r v : yval) :
  attr h key r = Some v ->
  exists a items,
    r = YRef a /\ nth_error h a = Some (YDict items) /\ Obj.lookup key items = Some v.
Proof.
  unfold attr, Obj.deref. destruct r as [| | | |a]; try discriminate.
  destruct (nth_error h a) as [[|items]|] eqn:E; try discriminate.
  intros H. now exists a, items.
Qed.

Lemma record_ok_id (h : list yobj) (r : yval) :
  record_ok h r = true ->
  exists a items id,
    r = YRef a /\ nth_error h a = Some (YDict items) /\ Obj.lookup "id" items = Some id.
Proof.
  unfold record_ok. destruct (attr h "id" r) as [id|] eqn:E; [|discriminate].
  intros _. destruct (attr_some h "id" r id E) as (a & items & H1 & H2 & H3).
  now exists a, items, id.
Qed.

Lemma getitem_id (h : list yobj) (a : addr) (items : list (yval * yval)) (id : yval) :
  nth_error h a = Some (YDict items) -> Obj.lookup "id" items = Some id ->
  Obj.getitem h (YRef a) "id" = Ok id
  /\ forall model_id, has_id h model_id (YRef a) = Obj.eq_str id model_id.
Proof.
  intros Ha Hid. unfold Obj.getitem, has_id, attr, Obj.deref.
  now rewrite Ha, Hid.
Qed.

Lemma ids_of_ok (h : list yobj) (model_id : string) (models : list yval) :
  forallb (record_ok h) models = true ->
  exists ids,
    ids_of h models = Ok ids /\
    existsb (fun id => Obj.eq_str id model_id) ids
    = existsb (has_id h model_id) models.
Proof.
  induction models as [|m rest IH]; intros H.
  - now exists [].
  - cbn in H. apply andb_true_iff in H as [Hm Hrest].
    destruct (IH Hrest) as (ids & Hids & Hex).
    destruct (record_ok_id h m Hm) as (a & items & id & -> & Ha & Hid).
    destruct (getitem_id h a items id Ha Hid) as [Hget Hhas].
    exists (id :: ids). cbn [ids_of]. rewrite Hget. cbn [rbind].
    rewrite Hids. cbn [rbind]. split; [reflexivity|].
    cbn [existsb]. now rewrite Hhas, Hex.
Qed.

Lemma update_first_ok (h : list yobj) (submission_name model_id : string)
      (models : list yval) :
  forallb (record_ok h) models = true ->
  existsb (has_id h model_id) models = true ->
  exists before a items after,
    models = before ++ YRef a :: after /\
    existsb (has_id h model_id) before = false /\
    nth_error h a = Some (YDict items) /\
    has_id h model_id (YRef a) = true /\
    update_first h submission_name model_id models
    = Ok (Obj.put a (YDict (updated_items submission_name items)) h).
Proof.
  induction models as [|m rest IH]; intros Hok Hex; [discriminate|].
  cbn in Hok. apply andb_true_iff in Hok as [Hm Hrest].
  destruct (record_ok_id h m Hm) as (a & items & id & -> & Ha & Hid).
  destruct (getitem_id h a items id Ha Hid) as [Hget Hhas].
  cbn [existsb] in Hex. cbn [update_first]. rewrite Hget. cbn [rbind].
  rewrite Hhas in Hex. destruct (Obj.eq_str id model_id) eqn:E.
  - exists [], a, items, rest. split; [reflexivity|]. split; [reflexivity|].
    split; [exact Ha|]. split; [now rewrite Hhas|].
    unfold Obj.setitem at 1. cbn [Obj.deref]. rewrite Ha. cbn [rbind].
    unfold Obj.setitem. cbn [Obj.deref].
    rewrite nth_error_put_same by (now apply nth_error_in_range in Ha).
    now rewrite put_put.
  - cbn [orb] in Hex.
    destruct (IH Hrest Hex) as (before & b & its & after & -> & Hb & Hr & Hh & Hu).
    exists (YRef a :: before), b, its, after. rewrite Hu.
    repeat split; try assumption. cbn [existsb]. now rewrite Hhas, E, Hb.
Qed.

(** The Config Updater on a document whose [models] is the list at
    [l]. *)
Lemma update_config_on_records
      (config : document) (r l : addr) (items : list (yval * yval))
      (models : list yval) (submission_name model_id : string) :
  root config = YRef r ->
  nth_error (objects config) r = Some (YDict items) ->
  Obj.lookup "models" items = Some (YRef l) ->
  nth_error (objects config) l = Some (YList models) ->
  forallb (record_ok (objects config)) models = true ->
  update_config config submission_name model_id
  = if existsb (has_id (objects config) model_id) models
    then match update_first (objects config) submission_name model_id models with
         | Ok h => Ok (mkDocument (YRef r) h)
         | Raise e => Raise e
         end
    else Ok (mkDocument (YRef r)
               (Obj.put l (YList (models ++ [YRef (List.length (objects config))]))
                        (objects config
                         ++ [YDict (new_model submission_name model_id)]))).
Proof.
  intros Hroot Hr Hl Hlist Hok.
  destruct (ids_of_ok (objects config) model_id models Hok) as (ids & Hids & Hex).
  unfold update_config. rewrite Hroot.
  unfold Obj.get. cbn [Obj.deref]. rewrite Hr, Hl. cbn [rbind].
  unfold Obj.iter at 1. cbn [Obj.deref]. rewrite Hlist. cbn [rbind].
  rewrite Hids. cbn [rbind]. rewrite Hex.
  destruct (existsb (has_id (objects config) model_id) models).
  - unfold Obj.getitem. cbn [Obj.deref]. rewrite Hr, Hl. cbn [rbind].
    unfold Obj.iter. cbn [Obj.deref]. rewrite Hlist. cbn [rbind].
    now destruct (update_first _ _ _ models).
  - unfold Obj.alloc.
    unfold Obj.has_key. cbn [Obj.deref].
    rewrite (nth_error_grown _ _ _ _ Hr), Hl. cbn [rbind negb].
    unfold Obj.getitem. cbn [Obj.deref].
    rewrite (nth_error_grown _ _ _ _ Hr), Hl. cbn [rbind].
    unfold Obj.append. cbn [Obj.deref].
    now rewrite (nth_error_grown _ _ _ _ Hlist).
Qed.

(** The Config Updater on a document without the key [models]. *)
Lemma update_config_without_models
      (config : document) (r : addr) (items : list (yval * yval))
      (submission_name model_id : string) :
  root config = YRef r ->
  nth_error (objects config) r = Some (YDict items) ->
  Obj.lookup "models" items = None ->
  let h := objects config in
  let n := List.length h in
  update_config config submission_name model_id
  = Ok (mkDocument (YRef r)
          (Obj.put (S n) (YList [YRef n])
             (Obj.put r (YDict (Obj.store "models" (YRef (S n)) items))
                (h ++ [YDict (new_model submission_name model_id)] ++ [YList []])))).
Proof.
  intros Hroot Hr Hl h n. subst h n.
  pose proof (nth_error_in_range _ _ _ Hr) as Hlen.
  unfold update_config. rewrite Hroot.
  unfold Obj.get. cbn [Obj.deref]. rewrite Hr, Hl. cbn [rbind ids_of existsb].
  unfold Obj.alloc.
  unfold Obj.has_key. cbn [Obj.deref].
  rewrite (nth_error_grown _ _ _ _ Hr), Hl. cbn [rbind negb].
  rewrite length_app. cbn [List.length]. rewrite Nat.add_1_r.
  unfold Obj.setitem. cbn [Obj.deref].
  rewrite (nth_error_grown _ [YList []] _ _ (nth_error_grown _ _ _ _ Hr)).
  cbn [rbind].
  unfold Obj.getitem. cbn [Obj.deref].
  rewrite nth_error_put_same by (rewrite !length_app; cbn; lia).
  rewrite lookup_store_same. cbn [rbind].
  unfold Obj.append. cbn [Obj.deref].
  rewrite nth_error_put_other by lia.
  rewrite <- app_assoc.
  replace (nth_error (objects config ++ [YDict (new_model submission_name model_id)]
                      ++ [YList []]) (S (List.length (objects config))))
    with (Some (YList [])).
  - reflexivity.
  - rewrite nth_error_app2 by lia.
    replace (S (List.length (objects config)) - List.length (objects config))%nat
      with 1%nat by lia.
    reflexivity.
Qed.

Lemma attr_put_same (h : list yobj) (a : addr) (items : list (yval * yval))
      (key : string) :
  (a < List.length h)%nat ->
  attr (Obj.put a (YDict items) h) key (YRef a) = Obj.lookup key items.
Proof.
  intros Hlen. unfold attr. cbn [Obj.deref]. now rewrite nth_error_put_same.
Qed.

Lemma deref_put_other (h : list yobj) (a : addr) (o : yobj) (m : yval) :
  m <> YRef a -> Obj.deref (Obj.put a o h) m = Obj.deref h m.
Proof.
  intros Hne. destruct m as [| | | |b]; try reflexivity. cbn [Obj.deref].
  apply nth_error_put_other. congruence.
Qed.

Lemma yval_eq_ref (m : yval) (a : addr) : {m = YRef a} + {m <> YRef a}.
Proof.
  destruct m as [| | | |b]; try (right; discriminate).
  destruct (Nat.eq_dec b a) as [->|Hne]; [now left|right; congruence].
Qed.

(** The document once the first record of the given id is updated. *)
Lemma update_config_updates
      (config : document) (models : list yval) (submission_name model_id : string) :
  records config = Some models ->
  forallb (record_ok (objects config)) models = true ->
  existsb (has_id (objects config) model_id) models = true ->
  exists before a items after,
    models = before ++ YRef a :: after
    /\ existsb (has_id (objects config) model_id) before = false
    /\ nth_error (objects config) a = Some (YDict items)
    /\ has_id (objects config) model_id (YRef a) = true
    /\ update_config config submission_name model_id
       = Ok (mkDocument (root config)
               (Obj.put a (YDict (updated_items submission_name items))
                        (objects config)))
    /\ records (mkDocument (root config)
                  (Obj.put a (YDict (updated_items submission_name items))
                           (objects config)))
       = Some models.
Proof.
  intros Hrec Hok Hany.
  destruct config as [cfg h]. cbn [objects root] in *.
  unfold records in Hrec. cbn [objects root] in Hrec.
  destruct cfg as [| | | |r]; try discriminate. cbn [Obj.deref] in Hrec.
  destruct (nth_error h r) as [[|items]|] eqn:Hr; try discriminate.
  destruct (Obj.lookup "models" items) as [v|] eqn:Hl.
  2:{ inversion Hrec; subst models. discriminate Hany. }
  destruct v as [| | | |l]; try discriminate. cbn [Obj.deref] in Hrec.
  destruct (nth_error h l) as [[ms|]|] eqn:Hlist; try discriminate.
  inversion Hrec; subst ms. clear Hrec.
  pose proof (update_config_on_records (mkDocument (YRef r) h) r l items models
                submission_name model_id eq_refl Hr Hl Hlist Hok) as Hrun.
  cbn [objects root] in Hrun. rewrite Hany in Hrun.
  destruct (update_first_ok h submission_name model_id models Hok Hany)
    as (before & a & its & after & Hm & Hb & Ha & Hhas & Hu).
  rewrite Hu in Hrun.
  pose proof (nth_error_in_range _ _ _ Ha) as Halen.
  exists before, a, its, after.
  split; [exact Hm|]. split; [exact Hb|]. split; [exact Ha|].
  split; [exact Hhas|]. split; [exact Hrun|].
  unfold records. cbn [objects root Obj.deref].
  destruct (Nat.eq_dec r a) as [->|Hra].
  - rewrite nth_error_put_same by exact Halen.
    assert (its = items) by congruence. subst its.
    unfold updated_items. rewrite !lookup_store_other by discriminate.
    rewrite Hl. cbn [Obj.deref].
    now rewrite nth_error_put_other, Hlist by congruence.
  - rewrite nth_error_put_other, Hr, Hl by congruence. cbn [Obj.deref].
    now rewrite nth_error_put_other, Hlist by congruence.
Qed.

(** The document once a new record is appended: the new record is a new
    object, and the objects of the records that were there are the
    same. *)
Lemma update_config_appends
      (config : document) (models : list yval) (submission_name model_id : string) :
  records config = Some models ->
  forallb (record_ok (objects config)) models = true ->
  existsb (has_id (objects config) model_id) models = false ->
  exists h',
    update_config config submission_name model_id
    = Ok (mkDocument (root config) h')
    /\ records (mkDocument (root config) h')
       = Some (models ++ [YRef (List.length (objects config))])
    /\ nth_error h' (List.length (objects config))
       = Some (YDict (new_model submission_name model_id))
    /\ (forall m, In m models -> Obj.deref h' m = Obj.deref (objects config) m)
    /\ (forall key, key <> "models" ->
                    attr h' key (root config)
                    = attr (objects config) key (root config)).
Proof.
  intros Hrec Hok Hany.
  destruct config as [cfg h]. cbn [objects root] in *.
  unfold records in Hrec. cbn [objects root] in Hrec.
  destruct cfg as [| | | |r]; try discriminate. cbn [Obj.deref] in Hrec.
  destruct (nth_error h r) as [[|items]|] eqn:Hr; try discriminate.
  pose proof (nth_error_in_range _ _ _ Hr) as Hrlen.
  set (new := YDict (new_model submission_name model_id)).
  destruct (Obj.lookup "models" items) as [v|] eqn:Hl.
  - destruct v as [| | | |l]; try discriminate. cbn [Obj.deref] in Hrec.
    destruct (nth_error h l) as [[ms|]|] eqn:Hlist; try discriminate.
    inversion Hrec; subst ms. clear Hrec.
    pose proof (nth_error_in_range _ _ _ Hlist) as Hllen.
    assert (Hrl : r <> l) by congruence.
    pose proof (update_config_on_records (mkDocument (YRef r) h) r l items models
                  submission_name model_id eq_refl Hr Hl Hlist Hok) as Hrun.
    cbn [objects root] in Hrun. rewrite Hany in Hrun. fold new in Hrun.
    set (h' := Obj.put l (YList (models ++ [YRef (List.length h)])) (h ++ [new]))
      in *.
    assert (Hold : forall b, b <> l -> (b < List.length h)%nat ->
                             nth_error h' b = nth_error h b).
    { intros b Hb Hlen. subst h'. rewrite nth_error_put_other by exact Hb.
      now apply nth_error_app1. }
    exists h'. split; [exact Hrun|].
    split.
    { unfold records. cbn [objects root Obj.deref].
      rewrite Hold, Hr, Hl by assumption. cbn [Obj.deref]. subst h'.
      rewrite nth_error_put_same; [reflexivity|].
      rewrite length_app. cbn. lia. }
    split.
    { subst h'. rewrite nth_error_put_other by lia.
      rewrite nth_error_app2 by lia. now rewrite Nat.sub_diag. }
    split.
    { intros m Hin. rewrite forallb_forall in Hok.
      destruct (record_ok_id h m (Hok m Hin)) as (b & its & id & -> & Hb & _).
      cbn [Obj.deref]. apply Hold; [congruence|].
      now apply nth_error_in_range in Hb. }
    intros key Hkey. unfold attr. cbn [Obj.deref].
    now rewrite Hold by assumption.
  - inversion Hrec; subst models. clear Hrec.
    pose proof (update_config_without_models (mkDocument (YRef r) h) r items
                  submission_name model_id eq_refl Hr Hl) as Hrun.
    cbn [objects root] in Hrun. cbv zeta in Hrun. fold new in Hrun.
    set (n := List.length h) in *.
    set (h' := Obj.put (S n) (YList [YRef n])
                 (Obj.put r (YDict (Obj.store "models" (YRef (S n)) items))
                    (h ++ [new] ++ [YList []]))) in *.
    assert (Hgrown : List.length (h ++ [new] ++ [YList []]) = S (S n)).
    { rewrite !length_app. cbn. subst n. lia. }
    assert (Hroot' : nth_error h' r
                     = Some (YDict (Obj.store "models" (YRef (S n)) items))).
    { subst h'. rewrite nth_error_put_other by (subst n; lia).
      apply nth_error_put_same. rewrite Hgrown. subst n. lia. }
    exists h'. split; [exact Hrun|].
    split.
    { unfold records. cbn [objects root Obj.deref app].
      rewrite Hroot', lookup_store_same. cbn [Obj.deref]. subst h'.
      rewrite nth_error_put_same; [reflexivity|].
      rewrite length_put, Hgrown. lia. }
    split.
    { subst h'. rewrite !nth_error_put_other by (subst n; lia).
      rewrite nth_error_app2 by (subst n; lia).
      replace (n - List.length h)%nat with 0%nat by (subst n; lia).
      reflexivity. }
    split; [intros m []|].
    intros key Hkey. unfold attr. cbn [Obj.deref].
    rewrite Hroot', Hr. now apply lookup_store_other.
Qed.

(** A record of the given id holds it as a string. *)
Lemma has_id_lookup (h : list yobj) (model_id : string) (a : addr)
      (items : list (yval * yval)) :
  nth_error h a = Some (YDict items) ->
  has_id h model_id (YRef a) = true ->
  Obj.lookup "id" items = Some (YStr model_id).
Proof.
  intros Ha. unfold has_id, attr. cbn [Obj.deref]. rewrite Ha.
  destruct (Obj.lookup "id" items) as [[| | |s|]|]; try discriminate.
  cbn [Obj.eq_str]. now intros ->%String.eqb_eq.
Qed.

Lemma mapping_of_same_object (h h' : list yobj) (m : yval) :
  Obj.deref h' m = Obj.deref h m -> mapping_of h' m = mapping_of h m.
Proof. unfold mapping_of. now intros ->. Qed.

Lemma map_mapping_of (h h' : list yobj) (l : list yval) :
  (forall m, In m l -> Obj.deref h' m = Obj.deref h m) ->
  List.map (mapping_of h') l = List.map (mapping_of h) l.
Proof.
  intros H. apply map_ext_in. intros m Hm. now apply mapping_of_same_object, H.
Qed.

Section Registry.

Variable here : path.
Variable yaml_safe_load : string -> option document.
Variable yaml_dump : document -> string.

Local Abbreviation registry := (MODELS_CONFIG here).

(** The Config Updater around the document: it reads the registry file,
    and writes the updated document back to it. *)
Lemma update_models_config_run
      (submission_name model_id text : string) (config config' : document)
      (w : World) :
  fs w registry = Some (File text) ->
  fs w (parent registry) = Some Dir ->
  yaml_safe_load (Str.universal_newlines text) = Some config ->
  update_config config submission_name model_id = Ok config' ->
  update_models_config here yaml_safe_load yaml_dump submission_name model_id w
  = (Ok true,
     mutated (fs_write registry (yaml_dump config') (fs w))
             (EvWrite registry (yaml_dump config'))
             (after_read registry w)).
Proof.
  intros Hfile Hparent Hload Hupdate. unfold update_models_config.
  apply try_ok.
  erewrite bind_ok by (apply read_text_run; exact Hfile).
  rewrite Hload. unfold lift at 1. unfold bind at 1. rewrite Hupdate.
  erewrite bind_ok.
  2:{ apply write_text_run.
      - cbn [after_read mutated fs]. rewrite Hfile. discriminate.
      - exact Hparent. }
  reflexivity.
Qed.

(** C3, as the script has it.  On a registry document whose records are
    mappings with an id: with no record of the given id, one new record
    is appended (the id, the submission name as name and as
    submission_id, desired_state RUNNING) and the existing records and
    the other keys of the document stay as they are; with a record of
    that id, the first such record gets the submission_id and the
    desired_state where it is and keeps its other fields, the list of
    the records is the same, and every object other than that record
    stays as it is, the other records among them.  A record that is the
    same object as the updated one (an alias) shows the update; when no
    later entry of the list is that object, the list reads entry by
    entry as the specification has it: one entry with the two fields
    set, the entries before and after it as they were.  The updated
    document is what the Config Updater writes to the registry file. *)
Theorem update_config_frame
        (config : document) (models : list yval) (submission_name model_id : string) :
  records config = Some models ->
  forallb (record_ok (objects config)) models = true ->
  exists config',
    update_config config submission_name model_id = Ok config' /\
    root config' = root config /\
    (forall w text,
        fs w registry = Some (File text) ->
        fs w (parent registry) = Some Dir ->
        yaml_safe_load (Str.universal_newlines text) = Some config ->
        exists w',
          update_models_config here yaml_safe_load yaml_dump
            submission_name model_id w = (Ok true, w') /\
          fs w' registry = Some (File (yaml_dump config'))) /\
    (existsb (has_id (objects config) model_id) models = false ->
     exists r,
       records config' = Some (models ++ [r]) /\
       Obj.deref (objects config) r = None /\
       Obj.deref (objects config') r
       = Some (YDict (new_model submission_name model_id)) /\
       attr (objects config') "id" r = Some (YStr model_id) /\
       attr (objects config') "name" r = Some (YStr submission_name) /\
       attr (objects config') "submission_id" r = Some (YStr submission_name) /\
       attr (objects config') "desired_state" r = Some (YStr "RUNNING") /\
       (forall m, In m models ->
                  Obj.deref (objects config') m = Obj.deref (objects config) m) /\
       record_mappings config'
       = Some (List.map (mapping_of (objects config)) models
               ++ [Some (new_model submission_name model_id)]) /\
       (forall key, key <> "models" ->
                    attr (objects config') key (root config)
                    = attr (objects config) key (root config))) /\
    (existsb (has_id (objects config) model_id) models = true ->
     exists before r after,
       models = before ++ r :: after /\
       existsb (has_id (objects config) model_id) before = false /\
       has_id (objects config) model_id r = true /\
       records config' = Some models /\
       attr (objects config') "submission_id" r = Some (YStr submission_name) /\
       attr (objects config') "desired_state" r = Some (YStr "RUNNING") /\
       (forall key, key <> "submission_id" -> key <> "desired_state" ->
                    attr (objects config') key r = attr (objects config) key r) /\
       (forall m, m <> r ->
                  Obj.deref (objects config') m = Obj.deref (objects config) m) /\
       (~ In r after ->
        updates_one_record config config' submission_name model_id)).
Proof.
  intros Hrec Hok.
  assert (Hwrites :
    forall config',
      update_config config submission_name model_id = Ok config' ->
      forall w text,
        fs w registry = Some (File text) ->
        fs w (parent registry) = Some Dir ->
        yaml_safe_load (Str.universal_newlines text) = Some config ->
        exists w',
          update_models_config here yaml_safe_load yaml_dump
            submission_name model_id w = (Ok true, w') /\
          fs w' registry = Some (File (yaml_dump config'))).
  { intros config' Hupdate w text Hfile Hparent Hload. eexists. split.
    - now apply (update_models_config_run _ _ text config config').
    - cbn [mutated fs]. unfold fs_write. now rewrite path_eqb_refl. }
  destruct (existsb (has_id (objects config) model_id) models) eqn:Hany.
  - destruct (update_config_updates config models submission_name model_id
                Hrec Hok Hany)
      as (before & a & items & after & Hm & Hb & Ha & Hhas & Hrun & Hrec').
    pose proof (nth_error_in_range _ _ _ Ha) as Halen.
    eexists. split; [exact Hrun|]. split; [reflexivity|].
    split; [now apply Hwrites|]. split; [discriminate|]. intros _.
    exists before, (YRef a), after. cbn [objects root].
    split; [exact Hm|]. split; [exact Hb|]. split; [exact Hhas|].
    split; [exact Hrec'|].
    rewrite !attr_put_same by exact Halen. unfold updated_items.
    split; [rewrite lookup_store_other by discriminate; apply lookup_store_same|].
    split; [apply lookup_store_same|].
    split.
    + intros key H1 H2. rewrite attr_put_same by exact Halen.
      rewrite !lookup_store_other by assumption.
      unfold attr. cbn [Obj.deref]. now rewrite Ha.
    + split; [intros m Hne; now apply deref_put_other|].
      intros Hafter.
      assert (Hbefore : ~ In (YRef a) before).
      { intros Hin. assert (existsb (has_id (objects config) model_id) before = true)
          by (apply existsb_exists; now exists (YRef a)).
        congruence. }
      exists (List.map (mapping_of (objects config)) before), items,
             (List.map (mapping_of (objects config)) after).
      split.
      { unfold record_mappings. rewrite Hrec, Hm. cbn [option_map].
        rewrite map_app. cbn [List.map]. unfold mapping_of at 2.
        cbn [Obj.deref]. now rewrite Ha. }
      split; [now apply (has_id_lookup (objects config) model_id a)|].
      fold (updated_items submission_name items).
      unfold record_mappings. rewrite Hrec'. cbn [option_map objects].
      rewrite Hm, map_app. cbn [List.map].
      rewrite (map_mapping_of (objects config) _ before),
              (map_mapping_of (objects config) _ after).
      * unfold mapping_of at 2. cbn [Obj.deref].
        now rewrite nth_error_put_same by exact Halen.
      * intros m Hin. apply deref_put_other. now intros ->.
      * intros m Hin. apply deref_put_other. now intros ->.
  - destruct (update_config_appends config models submission_name model_id
                Hrec Hok Hany)
      as (h' & Hrun & Hrec' & Hnew & Hold & Hkeys).
    eexists. split; [exact Hrun|]. split; [reflexivity|].
    split; [now apply Hwrites|]. split; [|discriminate]. intros _.
    exists (YRef (List.length (objects config))). cbn [objects root].
    assert (Hattr : forall key,
               attr h' key (YRef (List.length (objects config)))
               = Obj.lookup key (new_model submission_name model_id)).
    { intros key. unfold attr. cbn [Obj.deref]. now rewrite Hnew. }
    split; [exact Hrec'|].
    split; [cbn [Obj.deref]; apply nth_error_None; lia|].
    split; [exact Hnew|].
    split; [rewrite Hattr; reflexivity|].
    split; [rewrite Hattr; reflexivity|].
    split; [rewrite Hattr; reflexivity|].
    split; [rewrite Hattr; reflexivity|].
    split; [exact Hold|]. split; [|exact Hkeys].
    unfold record_mappings. rewrite Hrec'. cbn [option_map objects].
    rewrite map_app, (map_mapping_of (objects config) h' models Hold).
    cbn [List.map]. unfold mapping_of at 2. cbn [Obj.deref]. now rewrite Hnew.
Qed.

End Registry.

(** ** Deployment Trigger *)

(** C4, as the script has it.  The trigger issues one restart command;
    when the command exits with status 0 it waits the five seconds and
    reports success; when the status is not 0 it reports the failure at
    once, without the wait.  The file system is not touched. *)
Theorem trigger_waits_after_success (w : World) (rc : Z) :
  restart_rc (runtime w) = Some rc ->
  exists w',
    trigger_deployment w = (Ok (rc =? 0), w') /\
    trace w'
    = trace w ++ EvRun restart_argv :: (if rc =? 0 then [EvSleep 5] else []) /\
    (if rc =? 0 then clock w + 5000 <= clock w'
     else clock w' = clock w + Z.of_N (lag (runtime w) (List.length (trace w)))) /\
    fs w' = fs w.
Proof.
  intros Hrc. unfold trigger_deployment.
  pose proof (run_restart_run w rc Hrc) as Hrun.
  destruct (rc =? 0) eqn:E.
  - erewrite try_ok.
    2:{ erewrite bind_ok by exact Hrun.
        erewrite bind_ok by apply sleep_run. reflexivity. }
    eexists. split; [reflexivity|]. unfold after. cbn [trace clock fs].
    split; [now rewrite <- app_assoc|]. split; [lia|reflexivity].
  - erewrite try_raise.
    2:{ erewrite bind_raise by exact Hrun. reflexivity. }
    eexists. split; [reflexivity|]. unfold after. cbn [trace clock fs].
    split; [reflexivity|]. split; [lia|reflexivity].
Qed.

(** ** Status Poller *)

Lemma scan_logs_known (model_id logs : string) : scan_logs model_id logs <> Some UNKNOWN.
Proof.
  unfold scan_logs.
  destruct (Str.contains _ logs); [discriminate|].
  destruct (_ && _); discriminate.
Qed.

Lemma scan_logs_marker (model_id logs : string) :
  Str.contains (success_marker model_id) logs = true ->
  scan_logs model_id logs = Some RUNNING.
Proof. unfold scan_logs, success_marker. now intros ->. Qed.

Lemma fetched_after_pass (w : World) (i : nat) :
  fetched (after (1000 * 3) (EvSleep 3) (after_logs w)) i = fetched w (S i).
Proof.
  unfold fetched, after_logs, after. cbn [runtime nlogs].
  now rewrite Nat.add_succ_comm.
Qed.

Lemma length_polls (n : nat) : List.length (polls n) = (2 * n)%nat.
Proof. induction n as [|n IH]; [reflexivity|]. cbn [polls List.length]. lia. Qed.

(** The loop of the poller, started with fuel enough for the time that is
    left: it ends, either at the deadline after [n] fruitless passes or at
    the first fetch that one of the two tests accepts. *)
Lemma poll_loop_enough (model_id : string) (max_wait start_time : Z) (fuel : nat) :
  forall w,
    (forall i, logs_out (runtime w) i <> None) ->
    1000 * max_wait - (clock w - start_time) <= 3000 * Z.of_nat fuel ->
    exists n st w',
      poll_loop fuel model_id max_wait start_time w = (Ok (Some st), w') /\
      nlogs w' = (nlogs w + n)%nat /\
      runtime w' = runtime w /\
      fs w' = fs w /\
      ((st = UNKNOWN /\
        (forall i, (i < n)%nat -> scan_logs model_id (fetched w i) = None) /\
        trace w' = trace w ++ polls n /\
        1000 * max_wait <= clock w' - start_time)
       \/
       (exists k,
           n = S k /\
           (forall i, (i < k)%nat -> scan_logs model_id (fetched w i) = None) /\
           scan_logs model_id (fetched w k) = Some st /\
           trace w' = trace w ++ polls k ++ [EvRun logs_argv] /\
           clock w'
           - Z.of_N (lag (runtime w) (List.length (trace w) + 2 * k))
           - start_time < 1000 * max_wait)).
Proof.
  induction fuel as [|fuel IH]; intros w Hlogs Hfuel.
  - exists O, UNKNOWN, w. cbn [poll_loop]. unfold bind, now, ret.
    destruct (clock w - start_time <? 1000 * max_wait) eqn:E;
      [apply Z.ltb_lt in E; lia|].
    apply Z.ltb_ge in E.
    repeat split; try (now rewrite ?Nat.add_0_r).
    left. repeat split; [intros i Hi; lia | now rewrite app_nil_r | exact E].
  - cbn [poll_loop]. unfold bind at 1. unfold now at 1.
    destruct (clock w - start_time <? 1000 * max_wait) eqn:E.
    + apply Z.ltb_lt in E.
      destruct (logs_out (runtime w) (nlogs w)) as [out|] eqn:Hout;
        [|now destruct (Hlogs (nlogs w))].
      erewrite bind_ok by (apply run_logs_run; exact Hout).
      assert (Hf0 : fetched w 0 = out).
      { unfold fetched. now rewrite Nat.add_0_r, Hout. }
      destruct (scan_logs model_id out) as [st|] eqn:Hscan.
      * exists 1%nat, st, (after_logs w). unfold ret.
        repeat split; try (cbn; lia).
        right. exists O. rewrite Hf0.
        repeat split; [intros i Hi; lia | exact Hscan |].
        unfold after_logs, after. cbn [clock trace runtime polls app].
        rewrite Nat.add_0_r. lia.
      * erewrite bind_ok by apply sleep_run.
        set (w2 := after (1000 * 3) (EvSleep 3) (after_logs w)).
        destruct (IH w2) as (n & st & w' & Hrun & Hn & Hrt & Hfs & Hcase).
        { exact Hlogs. }
        { unfold w2, after_logs, after. cbn [clock]. lia. }
        exists (S n), st, w'. split; [exact Hrun|].
        split; [rewrite Hn; unfold w2; cbn; lia|].
        split; [exact Hrt|]. split; [exact Hfs|].
        assert (Htr : trace w2 = trace w ++ [EvRun logs_argv; EvSleep 3]).
        { unfold w2, after_logs, after. cbn [trace]. now rewrite <- app_assoc. }
        assert (Hearlier : forall m i,
                   (forall j, (j < m)%nat -> scan_logs model_id (fetched w2 j) = None) ->
                   (i < S m)%nat -> scan_logs model_id (fetched w i) = None).
        { intros m i Hm Hi. destruct i as [|i]; [now rewrite Hf0|].
          unfold w2 in Hm. rewrite <- fetched_after_pass. apply Hm. lia. }
        destruct Hcase as [(Hst & Hnone & Htrace & Hclock)
                          |(k & Hk & Hnone & Hhit & Htrace & Hclock)].
        -- left. split; [exact Hst|].
           split; [intros i Hi; exact (Hearlier n i Hnone Hi)|].
           split; [|exact Hclock].
           rewrite Htrace, Htr. cbn [polls]. now rewrite <- app_assoc.
        -- right. exists (S k). split; [now rewrite Hk|].
           split; [intros i Hi; exact (Hearlier k i Hnone Hi)|].
           split; [unfold w2 in Hhit; now rewrite fetched_after_pass in Hhit|].
           split; [rewrite Htrace, Htr; cbn [polls]; now rewrite <- app_assoc|].
           replace (List.length (trace w) + 2 * S k)%nat
             with (List.length (trace w2) + 2 * k)%nat; [exact Hclock|].
           rewrite Htr, length_app. cbn. lia.
    + apply Z.ltb_ge in E. exists O, UNKNOWN, w. unfold ret.
      repeat split; try (now rewrite ?Nat.add_0_r).
      left. repeat split; [intros i Hi; lia | now rewrite app_nil_r | exact E].
Qed.

(** Whatever the fetches do, the loop does not run out of the fuel it
    is given. *)
Lemma poll_loop_fuelled (model_id : string) (max_wait start_time : Z) (fuel : nat) :
  forall w,
    1000 * max_wait - (clock w - start_time) <= 3000 * Z.of_nat fuel ->
    fst (poll_loop fuel model_id max_wait start_time w) <> Ok None.
Proof.
  induction fuel as [|fuel IH]; intros w Hfuel.
  - cbn [poll_loop]. unfold bind, now, ret.
    destruct (clock w - start_time <? 1000 * max_wait) eqn:E;
      [apply Z.ltb_lt in E; lia|discriminate].
  - cbn [poll_loop]. unfold bind at 1. unfold now at 1.
    destruct (clock w - start_time <? 1000 * max_wait) eqn:E; [|discriminate].
    destruct (logs_out (runtime w) (nlogs w)) as [out|] eqn:Hout.
    + erewrite bind_ok by (apply run_logs_run; exact Hout).
      destruct (scan_logs model_id out); [discriminate|].
      erewrite bind_ok by apply sleep_run.
      apply IH. unfold after_logs, after. cbn [clock]. lia.
    + unfold bind, run_logs. rewrite Hout. discriminate.
Qed.

Lemma poll_fuel_enough (max_wait : Z) :
  1000 * max_wait <= 3000 * Z.of_nat (poll_fuel max_wait).
Proof. unfold poll_fuel. lia. Qed.

(** The poller as a whole, when every fetch gives a text. *)
Lemma check_deployment_status_run (model_id : string) (max_wait : Z) (w : World) :
  (forall i, logs_out (runtime w) i <> None) ->
  exists n st w',
    check_deployment_status model_id max_wait w = (Ok st, w') /\
    nlogs w' = (nlogs w + n)%nat /\
    fs w' = fs w /\
    ((st = UNKNOWN /\
      (forall i, (i < n)%nat -> scan_logs model_id (fetched w i) = None) /\
      trace w' = trace w ++ polls n /\
      1000 * max_wait <= clock w' - clock w)
     \/
     (exists k,
         n = S k /\
         (forall i, (i < k)%nat -> scan_logs model_id (fetched w i) = None) /\
         scan_logs model_id (fetched w k) = Some st /\
         trace w' = trace w ++ polls k ++ [EvRun logs_argv] /\
         clock w'
         - Z.of_N (lag (runtime w) (List.length (trace w) + 2 * k))
         - clock w < 1000 * max_wait)).
Proof.
  intros Hlogs.
  destruct (poll_loop_enough model_id max_wait (clock w) (poll_fuel max_wait) w Hlogs)
    as (n & st & w' & Hrun & Hn & Hrt & Hfs & Hcase).
  { pose proof (poll_fuel_enough max_wait). lia. }
  exists n, st, w'. split; [|now repeat split].
  unfold check_deployment_status. erewrite try_ok; [reflexivity|].
  unfold bind at 1. unfold now at 1. now erewrite bind_ok by exact Hrun.
Qed.



(** C10.  A text with the success marker makes the poller return RUNNING
    whatever else it holds, [FAILED] included: the success test comes
    first.  Without the marker, a text in which [Model <id>] and [FAILED]
    both occur, wherever they are, makes it return FAILED. *)
Theorem success_test_first (model_id text : string) (max_wait : Z) (w : World) :
  0 < max_wait ->
  logs_out (runtime w) (nlogs w) = Some text ->
  (Str.contains (success_marker model_id) text = true ->
   scan_logs model_id text = Some RUNNING /\
   fst (check_deployment_status model_id max_wait w) = Ok RUNNING)
  /\
  (Str.contains (success_marker model_id) text = false ->
   Str.contains ("Model " ++ model_id) text = true ->
   Str.contains "FAILED" text = true ->
   scan_logs model_id text = Some FAILED /\
   fst (check_deployment_status model_id max_wait w) = Ok FAILED).
Proof.
  intros Hwait Hout.
  assert (Hfirst : forall st, scan_logs model_id text = Some st ->
                   fst (check_deployment_status model_id max_wait w) = Ok st).
  { intros st Hscan. unfold check_deployment_status, poll_fuel.
    erewrite try_ok; [reflexivity|].
    unfold bind at 1. unfold now at 1. cbn [poll_loop].
    unfold bind at 1. unfold bind at 1. unfold now at 1.
    replace (clock w - clock w <? 1000 * max_wait) with true
      by (symmetry; apply Z.ltb_lt; lia).
    erewrite bind_ok by (apply run_logs_run; exact Hout).
    rewrite Hscan. reflexivity. }
  split.
  - intros Hmark. pose proof (scan_logs_marker _ _ Hmark) as Hscan.
    split; [exact Hscan | now apply Hfirst].
  - intros Hmark Hmodel Hfailed.
    assert (Hscan : scan_logs model_id text = Some FAILED).
    { unfold scan_logs. unfold success_marker in Hmark.
      now rewrite Hmark, Hmodel, Hfailed. }
    split; [exact Hscan | now apply Hfirst].
Qed.

(** ** Extractor *)

Lemma join_values_strs (parts : list value) :
  all_strs parts = true -> Py.join_values parts = Ok (concat_strs parts).
Proof.
  induction parts as [|v parts IH]; [reflexivity|].
  cbn. destruct v; try discriminate. intros H. now rewrite (IH H).
Qed.

Lemma cell_code_ok (cell : value) :
  cell_ok cell = true ->
  cell_code cell
  = Ok (if is_code_cell cell then Some (joined_source cell) else None).
Proof.
  destruct cell as [| | | |?|items]; try discriminate.
  unfold cell_ok, cell_code, is_code_cell, joined_source, field, Py.get, rbind.
  destruct (Py.lookup "cell_type" items) as [ct|]; [|reflexivity].
  destruct (Py.eq_str ct "code"); [|reflexivity].
  destruct (Py.lookup "source" items) as [[| | | |parts|]|]; try discriminate;
    try reflexivity.
  intros H. now rewrite (join_values_strs parts H).
Qed.

Lemma extract_loop_ok (cells : list value) (code_cells : list string) :
  forallb cell_ok cells = true ->
  extract_loop cells code_cells
  = Ok (code_cells
        ++ filter kept (List.map joined_source (filter is_code_cell cells))).
Proof.
  revert code_cells. induction cells as [|cell rest IH]; intros code_cells H.
  - cbn. now rewrite app_nil_r.
  - cbn in H. apply andb_true_iff in H as [Hc Hr].
    cbn [extract_loop filter]. rewrite (cell_code_ok cell Hc). unfold rbind.
    destruct (is_code_cell cell); [|now apply IH].
    cbn [List.map filter]. rewrite kept_not_skipped.
    destruct (skipped (joined_source cell)); cbn [negb].
    + now apply IH.
    + rewrite (IH _ Hr). now rewrite <- app_assoc.
Qed.

Section Extractor.

Variable json_load : string -> option value.

(** C6.  For every list of cells as a notebook has them, the Extractor
    returns the joined sources of exactly the code cells whose source,
    trimmed, is non-empty, does not begin with ['%'] or ['!'] and contains
    none of [test_model_locally], [pip install], [# Test]; they come in
    their original order, separated by a blank line.  This is what
    [extract_model_code_from_notebook] returns for a file that holds the
    notebook. *)
Theorem extractor_keeps_model_cells (notebook : value) (cells : list value) :
  field "cells" notebook = Some (PList cells) ->
  forallb cell_ok cells = true ->
  extract_code notebook = Ok (extracted_spec cells)
  /\ forall w notebook_path text,
       fs w notebook_path = Some (File text) ->
       json_load (Str.universal_newlines text) = Some notebook ->
       extract_model_code_from_notebook json_load notebook_path w
       = (Ok (extracted_spec cells), after_read notebook_path w).
Proof.
  intros Hcells Hok.
  assert (Hpure : extract_code notebook = Ok (extracted_spec cells)).
  { destruct notebook as [| | | |?|items]; try discriminate.
    cbn [field] in Hcells. unfold extract_code, extracted_spec.
    cbn [Py.get]. rewrite Hcells. cbn [rbind Py.iter].
    now rewrite (extract_loop_ok cells [] Hok). }
  split; [exact Hpure|].
  intros w notebook_path text Hfile Hload.
  unfold extract_model_code_from_notebook.
  erewrite bind_ok by (apply read_text_run; exact Hfile).
  rewrite Hload. unfold lift. now rewrite Hpure.
Qed.

End Extractor.

(** The notebook of the specification's example: an install cell, a cell
    that calls the local test harness, and a cell of model code. *)
Example extractor_three_cells :
  extract_code
    (PDict [(PStr "cells",
             PList [ PDict [(PStr "cell_type", PStr "code");
                            (PStr "source", PList [PStr "pip install btcvol"])];
                     PDict [(PStr "cell_type", PStr "code");
                            (PStr "source", PList [PStr "test_model_locally(MyTracker)"])];
                     PDict [(PStr "cell_type", PStr "code");
                            (PStr "source", PList [PStr "class MyTracker(TrackerBase):";
                                                   PStr "    pass"])] ])])
  = Ok "class MyTracker(TrackerBase):    pass".
Proof. reflexivity. Qed.

(** ** Dependency manifest *)

(** The test of the script is the presence of the import. *)
Lemma detected_import_present (pkg code : string) :
  detected pkg code = import_present pkg code.
Proof. reflexivity. Qed.

Lemma collect_deps_sorted (code : string) :
  sorted (collect_deps code) = manifest_lines code.
Proof.
  unfold collect_deps, manifest_lines, import_patterns, pinned.
  cbn [fold_left filter]. unfold detected, import_present.
  destruct (Str.contains ("import " ++ "numpy") code),
    (Str.contains ("import " ++ "pandas") code),
    (Str.contains ("import " ++ "scipy") code),
    (Str.contains ("import " ++ "sklearn") code); reflexivity.
Qed.

(** A library whose import is present is named in the code. *)
Lemma import_present_named (pkg code : string) :
  import_present pkg code = true -> Str.contains pkg code = true.
Proof.
  unfold import_present. rewrite !contains_spec. intros (a & b & ->).
  exists (a ++ "import ")%string, b.
  now rewrite !append_assoc.
Qed.

(** C7.  The manifest lists, one per line, the pinned minimum version of
    exactly the libraries among numpy, pandas, scipy and sklearn that are
    detected as present in the code (the words [import <name>] occur in
    it), and the baseline [numpy>=1.24.0] alone when none is.  A library
    listed for another reason than the baseline is named in the code. *)
Theorem manifest_lists_detected (code : string) :
  requirements_text code = (Str.join nl (manifest_lines code) ++ nl)%string
  /\ (forall pkg req,
        In (pkg, req) import_patterns ->
        (In req (manifest_lines code) <->
         import_present pkg code = true
         \/ (req = "numpy>=1.24.0"
             /\ forall other, In other (List.map fst import_patterns) ->
                              import_present other code = false)))
  /\ (forall line, In line (manifest_lines code) ->
                   In line (List.map snd import_patterns))
  /\ (forall pkg req,
        In (pkg, req) import_patterns ->
        In req (manifest_lines code) ->
        req <> "numpy>=1.24.0" ->
        Str.contains pkg code = true).
Proof.
  split; [unfold requirements_text; now rewrite collect_deps_sorted|].
  unfold manifest_lines, import_patterns, pinned. cbn [filter List.map fst snd].
  split.
  - intros pkg req Hin.
    destruct (import_present "numpy" code) eqn:E1, (import_present "pandas" code) eqn:E2,
      (import_present "sklearn" code) eqn:E3, (import_present "scipy" code) eqn:E4;
      cbn [In filter List.map fst snd] in Hin |- *;
      destruct Hin as [H|[H|[H|[H|[]]]]]; inversion H; subst pkg req;
      rewrite ?E1, ?E2, ?E3, ?E4;
      (split;
       [ intros Hl;
         first [ left; reflexivity
               | right; split;
                 [ reflexivity
                 | intros other [<-|[<-|[<-|[<-|[]]]]]; assumption ]
               | exfalso; clear - Hl; intuition discriminate ]
       | intros [Hd|[Hr Hnone]];
         [ first [ discriminate Hd | now auto 6 ]
         | first [ discriminate Hr
                 | solve [auto 6]
                 | exfalso;
                   pose proof (Hnone "numpy" (or_introl eq_refl));
                   pose proof (Hnone "pandas" (or_intror (or_introl eq_refl)));
                   pose proof (Hnone "scipy"
                                 (or_intror (or_intror (or_introl eq_refl))));
                   pose proof (Hnone "sklearn"
                                 (or_intror (or_intror (or_intror (or_introl eq_refl)))));
                   congruence ] ] ]).
  - split.
    + intros line.
      destruct (import_present "numpy" code), (import_present "pandas" code),
        (import_present "sklearn" code), (import_present "scipy" code);
        cbn [In filter List.map fst snd]; intuition (subst; auto).
    + intros pkg req Hin Hline Hreq. apply import_present_named.
      destruct (import_present "numpy" code) eqn:E1, (import_present "pandas" code) eqn:E2,
        (import_present "sklearn" code) eqn:E3, (import_present "scipy" code) eqn:E4;
        cbn [In filter List.map fst snd] in Hin, Hline;
        destruct Hin as [H|[H|[H|[H|[]]]]]; inversion H; subst pkg req;
        first [ assumption | congruence
              | exfalso; clear - Hline; intuition discriminate ].
Qed.

(** A library that is named in the code without [import <name>] is not
    detected. *)
Example named_but_not_imported :
  requirements_text "from pandas import DataFrame" = ("numpy>=1.24.0" ++ nl)%string.
Proof. reflexivity. Qed.

(** ** Submission names *)

(** C8, as the script has it.  For a name that is not empty the slug is
    the name lowercased, every run of characters outside [[a-z0-9]]
    collapsed to one hyphen, the hyphens at both ends trimmed; the name
    [My Cool Model!!] gives [my-cool-model]. *)
Theorem slug_of_given_name (given : string) (t : Z) :
  given <> "" ->
  generate_submission_name (Some given) t = slug_spec given
  /\ generate_submission_name (Some "My Cool Model!!") t = "my-cool-model".
Proof.
  intros Hne. split; [|reflexivity].
  destruct given as [|c r]; [congruence|].
  apply generate_submission_name_given.
Qed.

(** ** Submission names and model ids: what every generated one is like *)

Lemma slug_char_lower (c : ascii) : slug_char c = true -> Str.lower_char c = c.
Proof.
  destruct c as [[] [] [] [] [] [] [] []]; intros H;
    first [reflexivity | discriminate H].
Qed.

Lemma all_chars_sub_invalid (s : string) : all_chars slug_char (sub_invalid s) = true.
Proof.
  induction s as [|c r IH]; [reflexivity|].
  unfold sub_invalid in *. cbn [Str.map all_chars]. rewrite IH, andb_true_r.
  unfold slug_char at 1. destruct (is_alnum c || is_hyphen c) eqn:E; [exact E|reflexivity].
Qed.

Lemma all_chars_hyphen_runs (s : string) (in_run : bool) :
  all_chars slug_char s = true ->
  all_chars slug_char (sub_hyphen_runs_from in_run s) = true.
Proof.
  revert in_run. induction s as [|c r IH]; intros in_run H; [reflexivity|].
  cbn in H. apply andb_true_iff in H as [Hc Hr]. cbn [sub_hyphen_runs_from].
  destruct (is_hyphen c); [destruct in_run|]; cbn [all_chars];
    rewrite ?Hc, ?IH; auto.
Qed.

Lemma all_chars_lstrip (p q : ascii -> bool) (s : string) :
  all_chars p s = true -> all_chars p (Str.lstrip q s) = true.
Proof.
  induction s as [|c r IH]; intros H; [reflexivity|].
  cbn [Str.lstrip]. destruct (q c); [|exact H].
  cbn in H. apply andb_true_iff in H as [_ Hr]. auto.
Qed.

Lemma all_chars_rstrip (p q : ascii -> bool) (s : string) :
  all_chars p s = true -> all_chars p (Str.rstrip q s) = true.
Proof.
  induction s as [|c r IH]; intros H; [reflexivity|].
  cbn in H. apply andb_true_iff in H as [Hc Hr]. specialize (IH Hr).
  cbn [Str.rstrip]. destruct (Str.rstrip q r) eqn:E.
  - destruct (q c); cbn; now rewrite ?Hc.
  - cbn [all_chars] in *. now rewrite Hc, IH.
Qed.

Lemma all_chars_uint (d : Decimal.uint) :
  all_chars slug_char (DecimalString.NilEmpty.string_of_uint d) = true.
Proof. induction d; cbn; auto. Qed.

Lemma all_chars_of_Z (n : Z) : all_chars slug_char (Str.of_Z n) = true.
Proof.
  unfold Str.of_Z, NilZero.string_of_int, NilZero.string_of_uint.
  destruct (Z.to_int n) as [d|d]; destruct d; cbn [all_chars];
    rewrite ?all_chars_uint; try reflexivity;
    apply (all_chars_uint (_ d)).
Qed.

Lemma all_chars_app (p : ascii -> bool) (a b : string) :
  all_chars p (a ++ b) = all_chars p a && all_chars p b.
Proof. induction a as [|c a IH]; [reflexivity|]. cbn. now rewrite IH, andb_assoc. Qed.

Lemma first_is_lstrip (p : ascii -> bool) (s : string) :
  first_is p (Str.lstrip p s) = false.
Proof.
  induction s as [|c r IH]; [reflexivity|].
  cbn [Str.lstrip]. destruct (p c) eqn:E; [exact IH|]. cbn. exact E.
Qed.

Lemma first_is_rstrip (p q : ascii -> bool) (s : string) :
  first_is p s = false -> first_is p (Str.rstrip q s) = false.
Proof.
  destruct s as [|c r]; [reflexivity|]. cbn [first_is Str.rstrip]. intros H.
  destruct (Str.rstrip q r); [destruct (q c)|]; cbn; auto.
Qed.

Lemma last_is_rstrip (p : ascii -> bool) (s : string) :
  last_is p (Str.rstrip p s) = false.
Proof.
  induction s as [|c r IH]; [reflexivity|].
  cbn [Str.rstrip]. destruct (Str.rstrip p r) as [|c' r'] eqn:E.
  - destruct (p c) eqn:Hc; [reflexivity|]. cbn. exact Hc.
  - exact IH.
Qed.

Lemma no_double_hyphen_cons (a b : ascii) (r : string) :
  no_double_hyphen (String a (String b r))
  = negb (is_hyphen a && is_hyphen b) && no_double_hyphen (String b r).
Proof. reflexivity. Qed.

Lemma no_double_hyphen_tail (c : ascii) (r : string) :
  no_double_hyphen (String c r) = true -> no_double_hyphen r = true.
Proof.
  destruct r as [|b r]; [reflexivity|]. cbn [no_double_hyphen].
  intros H. now apply andb_true_iff in H as [_ H].
Qed.

Lemma no_double_hyphen_lstrip (p : ascii -> bool) (s : string) :
  no_double_hyphen s = true -> no_double_hyphen (Str.lstrip p s) = true.
Proof.
  induction s as [|c r IH]; intros H; [reflexivity|].
  cbn [Str.lstrip]. destruct (p c); [|exact H].
  apply IH. now apply no_double_hyphen_tail in H.
Qed.

Lemma rstrip_head (p : ascii -> bool) (s : string) (b : ascii) (r : string) :
  Str.rstrip p s = String b r -> exists t, s = String b t.
Proof.
  destruct s as [|c t]; [discriminate|]. cbn [Str.rstrip].
  destruct (Str.rstrip p t); [destruct (p c); [discriminate|]|];
    intros E; inversion E; subst; eauto.
Qed.

Lemma no_double_hyphen_rstrip (p : ascii -> bool) (s : string) :
  no_double_hyphen s = true -> no_double_hyphen (Str.rstrip p s) = true.
Proof.
  induction s as [|c r IH]; intros H; [reflexivity|].
  pose proof (no_double_hyphen_tail c r H) as Hr. specialize (IH Hr).
  destruct (string_dec (Str.rstrip p r) EmptyString) as [E|E].
  - rewrite (rstrip_cons_nil p c r E). now destruct (p c).
  - rewrite (rstrip_cons p c r E).
    destruct (Str.rstrip p r) as [|b r'] eqn:Er; [congruence|].
    destruct (rstrip_head p r b r' Er) as (t & ->).
    rewrite no_double_hyphen_cons in H |- *.
    apply andb_true_iff in H as [Hcb _]. now rewrite Hcb, IH.
Qed.

(** After the second substitution no hyphen follows a hyphen; inside a
    run the output does not even start with one. *)
Lemma hyphen_runs_shape (s : string) :
  no_double_hyphen (sub_hyphen_runs_from false s) = true
  /\ no_double_hyphen (sub_hyphen_runs_from true s) = true
  /\ first_is is_hyphen (sub_hyphen_runs_from true s) = false.
Proof.
  induction s as [|c r (IHf & IHt & IHh)]; [now repeat split|].
  cbn [sub_hyphen_runs_from]. destruct (is_hyphen c) eqn:Hc.
  - repeat split; try assumption.
    destruct (sub_hyphen_runs_from true r) as [|b t] eqn:E; [reflexivity|].
    rewrite no_double_hyphen_cons. cbn [first_is] in IHh.
    now rewrite IHh, andb_false_r, IHt.
  - assert (Hnd : no_double_hyphen (String c (sub_hyphen_runs_from false r)) = true).
    { destruct (sub_hyphen_runs_from false r) as [|b t]; [reflexivity|].
      rewrite no_double_hyphen_cons. now rewrite Hc, IHf. }
    repeat split; assumption.
Qed.

Lemma no_double_hyphen_contains (s : string) :
  no_double_hyphen s = true -> Str.contains "--" s = false.
Proof.
  induction s as [|c r IH]; intros H; [reflexivity|].
  pose proof (no_double_hyphen_tail c r H) as Hr.
  cbn [Str.contains]. rewrite (IH Hr), orb_false_r, prefix_cons.
  destruct (ascii_dec "-" c) as [<-|]; [|reflexivity].
  destruct r as [|b t]; [reflexivity|].
  rewrite prefix_cons. destruct (ascii_dec "-" b) as [<-|]; [|reflexivity].
  rewrite no_double_hyphen_cons in H. discriminate H.
Qed.

(** The shape of a name made from a given one. *)
Lemma slug_shape (c : ascii) (r : string) (t : Z) :
  let name := generate_submission_name (Some (String c r)) t in
  all_chars slug_char name = true
  /\ first_is is_hyphen name = false
  /\ last_is is_hyphen name = false
  /\ no_double_hyphen name = true.
Proof.
  cbv zeta. unfold generate_submission_name, Str.strip_chars, sub_hyphen_runs.
  split; [apply all_chars_rstrip, all_chars_lstrip, all_chars_hyphen_runs,
            all_chars_sub_invalid|].
  split; [apply first_is_rstrip, first_is_lstrip|].
  split; [apply last_is_rstrip|].
  apply no_double_hyphen_rstrip, no_double_hyphen_lstrip, hyphen_runs_shape.
Qed.

Lemma lower_slug (s : string) : all_chars slug_char s = true -> Str.lower s = s.
Proof.
  induction s as [|c r IH]; intros H; [reflexivity|].
  cbn in H. apply andb_true_iff in H as [Hc Hr].
  unfold Str.lower in *. cbn [Str.map]. now rewrite (slug_char_lower c Hc), IH.
Qed.

Lemma sub_invalid_slug (s : string) : all_chars slug_char s = true -> sub_invalid s = s.
Proof.
  induction s as [|c r IH]; intros H; [reflexivity|].
  cbn in H. apply andb_true_iff in H as [Hc Hr].
  unfold sub_invalid in *. cbn [Str.map]. rewrite (IH Hr).
  unfold slug_char in Hc. now rewrite Hc.
Qed.

Lemma hyphen_runs_slug (s : string) :
  no_double_hyphen s = true ->
  sub_hyphen_runs_from false s = s
  /\ (first_is is_hyphen s = false -> sub_hyphen_runs_from true s = s).
Proof.
  induction s as [|c r IH]; intros H; [now split|].
  pose proof (no_double_hyphen_tail c r H) as Hr.
  destruct (IH Hr) as [IHf IHt]. cbn [sub_hyphen_runs_from first_is].
  destruct (is_hyphen c) eqn:Hc.
  - split; [|discriminate].
    rewrite (is_hyphen_eq c Hc) in *. f_equal. apply IHt.
    destruct r as [|b t]; [reflexivity|].
    rewrite no_double_hyphen_cons in H. cbn [first_is].
    destruct (is_hyphen b); [discriminate H|reflexivity].
  - split; intros; now rewrite IHf.
Qed.

Lemma lstrip_clean (p : ascii -> bool) (s : string) :
  first_is p s = false -> Str.lstrip p s = s.
Proof. destruct s as [|c r]; [reflexivity|]. cbn. now intros ->. Qed.

Lemma rstrip_clean (p : ascii -> bool) (s : string) :
  last_is p s = false -> Str.rstrip p s = s.
Proof.
  induction s as [|c r IH]; [reflexivity|].
  destruct r as [|b t].
  - cbn. now intros ->.
  - intros H. rewrite rstrip_cons; rewrite (IH H); [reflexivity|discriminate].
Qed.

(** X1.  A generated name is made of [[a-z0-9-]] only, whichever branch gives
    it; it holds no slash and no dot, so that it is one path component
    at most.  A name made from a given one has no hyphen at either end
    and no two hyphens in a row. *)
Theorem generated_name_is_a_slug (model_name : option string) (t : Z) :
  let name := generate_submission_name model_name t in
  all_chars slug_char name = true
  /\ Str.contains "/" name = false
  /\ Str.contains "." name = false
  /\ (forall given, model_name = Some given -> given <> "" ->
      first_is is_hyphen name = false
      /\ last_is is_hyphen name = false
      /\ Str.contains "--" name = false).
Proof.
  cbv zeta.
  assert (Hchars : all_chars slug_char (generate_submission_name model_name t) = true).
  { unfold generate_submission_name. destruct model_name as [[|c r]|].
    - cbn [all_chars]. now rewrite all_chars_app, all_chars_of_Z.
    - unfold Str.strip_chars, sub_hyphen_runs.
      apply all_chars_rstrip, all_chars_lstrip, all_chars_hyphen_runs,
        all_chars_sub_invalid.
    - now rewrite all_chars_app, all_chars_of_Z. }
  assert (Hnone : forall x : ascii,
             slug_char x = false ->
             forall s, all_chars slug_char s = true ->
                       Str.contains (String x EmptyString) s = false).
  { intros x Hx s. induction s as [|c r IH]; intros H; [reflexivity|].
    cbn in H. apply andb_true_iff in H as [Hc Hr]. cbn [Str.contains].
    rewrite (IH Hr), orb_false_r. cbn.
    destruct (ascii_dec x c) as [<-|]; [congruence|reflexivity]. }
  split; [exact Hchars|].
  split; [now apply Hnone|]. split; [now apply Hnone|].
  intros given -> Hne. destruct given as [|c r]; [congruence|].
  destruct (slug_shape c r t) as (_ & Hfirst & Hlast & Hnd).
  split; [exact Hfirst|]. split; [exact Hlast|].
  now apply no_double_hyphen_contains.
Qed.

(** X2.  A slug is its own slug: giving the script a name it has generated
    from a given one names the same submission again. *)
Theorem slug_is_stable (given : string) (t t' : Z) :
  given <> "" ->
  generate_submission_name (Some given) t <> "" ->
  generate_submission_name (Some (generate_submission_name (Some given) t)) t'
  = generate_submission_name (Some given) t.
Proof.
  intros Hne Hslug. destruct given as [|c r]; [congruence|].
  destruct (slug_shape c r t) as (Hchars & Hfirst & Hlast & Hnd).
  set (s := generate_submission_name (Some (String c r)) t) in *.
  destruct s as [|c' r'] eqn:Es; [congruence|]. rewrite <- Es in *.
  assert (Hgen : generate_submission_name (Some s) t'
                 = Str.strip_chars is_hyphen
                     (sub_hyphen_runs (sub_invalid (Str.lower s))))
    by (rewrite Es; reflexivity).
  rewrite Hgen, (lower_slug s Hchars), (sub_invalid_slug s Hchars).
  unfold sub_hyphen_runs. rewrite (proj1 (hyphen_runs_slug s Hnd)).
  unfold Str.strip_chars. now rewrite (lstrip_clean _ s Hfirst), rstrip_clean.
Qed.


(** X3.  The model id is the decimal of a number from 12315 to 22314, and it
    is not unique: two clock readings a multiple of 10000 seconds apart
    give the same id. *)
Theorem model_id_repeats (t k : Z) :
  0 <= t -> 0 <= k ->
  (exists n, 12315 <= n <= 22314 /\ generate_model_id t = Str.of_Z n)
  /\ generate_model_id (t + 10000 * 1000 * k) = generate_model_id t.
Proof.
  intros Ht Hk. unfold generate_model_id, whole_seconds. split.
  - exists (12315 + Z.quot t 1000 mod 10000). split; [|reflexivity].
    pose proof (Z.mod_pos_bound (Z.quot t 1000) 10000). lia.
  - do 2 f_equal.
    rewrite !Z.quot_div_nonneg by lia.
    replace (t + 10000 * 1000 * k) with (t + (10000 * k) * 1000) by lia.
    rewrite Z.div_add by lia.
    replace (t / 1000 + 10000 * k) with (t / 1000 + k * 10000) by lia.
    apply Z.mod_add. lia.
Qed.

(** ** What the effects leave alone *)

Lemma mutated_or_same_read (p : path) (w : World) :
  snd (read_text p w) = w \/ snd (read_text p w) = after_read p w.
Proof.
  destruct (fs w p) as [[s|]|] eqn:E.
  - right. now rewrite (read_text_run p w s E).
  - left. unfold read_text, get_fs. unfold bind at 1. now rewrite E.
  - left. unfold read_text, get_fs. unfold bind at 1. now rewrite E.
Qed.

Lemma rmtree_cases (p : path) (w : World) :
  snd (rmtree p w) = w
  \/ (fs w p = Some Dir
      /\ snd (rmtree p w) = mutated (fs_rmtree p (fs w)) (EvRmtree p) w).
Proof.
  destruct (fs w p) as [[s|]|] eqn:E.
  - left. unfold rmtree, get_fs. unfold bind at 1. now rewrite E.
  - right. split; [reflexivity|]. now rewrite (rmtree_run p w E).
  - left. unfold rmtree, get_fs. unfold bind at 1. now rewrite E.
Qed.

Lemma mkdir_parents_cases (p : path) (w : World) :
  snd (mkdir_parents p w) = w
  \/ (has_file_ancestor (fs w) p = false /\ is_file (fs w p) = false
      /\ snd (mkdir_parents p w) = mutated (fs_mkdir p (fs w)) (EvMkdir p) w).
Proof.
  destruct (has_file_ancestor (fs w) p) eqn:Ha.
  { left. unfold mkdir_parents, get_fs. unfold bind at 1. now rewrite Ha. }
  destruct (is_file (fs w p)) eqn:Hf.
  { left. unfold mkdir_parents, get_fs. unfold bind at 1. now rewrite Ha, Hf. }
  right. repeat split. now rewrite (mkdir_parents_run p w Ha Hf).
Qed.

Lemma copytree_cases (src dst : path) (w : World) :
  snd (copytree src dst w) = w
  \/ (fs w src = Some Dir /\ fs w dst = None
      /\ has_file_ancestor (fs w) dst = false
      /\ snd (copytree src dst w)
         = mutated (fs_copytree src dst (fs w)) (EvCopytree src dst) w).
Proof.
  destruct (fs w src) as [[s|]|] eqn:Hs.
  1,3: left; unfold copytree, get_fs; unfold bind at 1; now rewrite Hs.
  destruct (fs w dst) as [n|] eqn:Hd.
  { left. unfold copytree, get_fs. unfold bind at 1. now rewrite Hs, Hd. }
  destruct (has_file_ancestor (fs w) dst) eqn:Ha.
  { left. unfold copytree, get_fs. unfold bind at 1. now rewrite Hs, Hd, Ha. }
  right. repeat split. now rewrite (copytree_run src dst w Hs Hd Ha).
Qed.

Lemma write_text_cases (p : path) (s : string) (w : World) :
  snd (write_text p s w) = w
  \/ (fs w p <> Some Dir /\ fs w (parent p) = Some Dir
      /\ snd (write_text p s w) = mutated (fs_write p s (fs w)) (EvWrite p s) w).
Proof.
  destruct (fs w p) as [[c|]|] eqn:Hp.
  2: { left. unfold write_text, get_fs. unfold bind at 1. now rewrite Hp. }
  all: destruct (fs w (parent p)) as [[c'|]|] eqn:Hq.
  1,3,4,6: left; unfold write_text, get_fs; unfold bind at 1; now rewrite Hp, Hq.
  all: right; split; [congruence|]; split; [reflexivity|];
    rewrite write_text_run; [reflexivity|congruence|assumption].
Qed.

Section Keeping.

Context {R : World -> World -> Prop}.
Hypothesis R_refl : forall w, R w w.
Hypothesis R_trans : forall w1 w2 w3, R w1 w2 -> R w2 w3 -> R w1 w3.

Lemma keeps_ret {A} (a : A) : keeps R (ret a).
Proof. intros w. apply R_refl. Qed.

Lemma keeps_raise {A} (e : exn) : keeps R (@raise A e).
Proof. intros w. apply R_refl. Qed.

Lemma keeps_lift {A} (r : result A) : keeps R (lift r).
Proof. intros w. apply R_refl. Qed.

Lemma keeps_bind {A B} (m : M A) (k : A -> M B) :
  keeps R m -> (forall a, keeps R (k a)) -> keeps R (bind m k).
Proof.
  intros Hm Hk w. specialize (Hm w). unfold bind.
  destruct (m w) as [[a|e] w1]; cbn [snd] in *; [|exact Hm].
  exact (R_trans _ _ _ Hm (Hk a w1)).
Qed.

Lemma keeps_try {A} (m : M A) (h : exn -> M A) :
  keeps R m -> (forall e, keeps R (h e)) -> keeps R (try_except m h).
Proof.
  intros Hm Hh w. specialize (Hm w). unfold try_except.
  destruct (m w) as [[a|e] w1]; cbn [snd] in *; [exact Hm|].
  exact (R_trans _ _ _ Hm (Hh e w1)).
Qed.

Lemma keeps_path_exists (p : path) : keeps R (path_exists p).
Proof. intros w. apply R_refl. Qed.

Lemma keeps_now : keeps R now.
Proof. intros w. apply R_refl. Qed.

End Keeping.

(** *** Confinement *)

Lemma confined_refl (inside : path -> bool) (dir : path) (w : World) :
  confined inside dir w w.
Proof. intros p _. destruct (fs w p); auto. Qed.

Lemma confined_trans (inside : path -> bool) (dir : path) (w1 w2 w3 : World) :
  confined inside dir w1 w2 -> confined inside dir w2 w3 -> confined inside dir w1 w3.
Proof.
  intros H12 H23 p Hp. specialize (H12 p Hp). specialize (H23 p Hp).
  destruct (fs w1 p) as [n|].
  - now rewrite H12 in H23.
  - destruct H12 as [H12|[Hpre H12]]; rewrite H12 in H23; [exact H23|].
    right. now split.
Qed.

Lemma confined_same_fs (inside : path -> bool) (dir : path) (w w' : World) :
  fs w' = fs w -> confined inside dir w w'.
Proof. intros H p _. rewrite H. destruct (fs w p); auto. Qed.

Lemma confined_weaken (inside inside' : path -> bool) (dir : path) (w w' : World) :
  (forall p, inside' p = false -> inside p = false) ->
  confined inside dir w w' -> confined inside' dir w w'.
Proof. intros Hsub H p Hp. apply H, Hsub, Hp. Qed.

Lemma keeps_weaken {A} (R R' : World -> World -> Prop) (m : M A) :
  (forall w w', R w w' -> R' w w') -> keeps R m -> keeps R' m.
Proof. intros Hsub H w. apply Hsub, H. Qed.

Lemma confined_read (inside : path -> bool) (dir p : path) :
  keeps (confined inside dir) (read_text p).
Proof.
  intros w. destruct (mutated_or_same_read p w) as [->| ->];
    now apply confined_same_fs.
Qed.

Lemma confined_rmtree (inside : path -> bool) (dir p : path) :
  (forall q, is_prefix p q = true -> inside q = true) ->
  keeps (confined inside dir) (rmtree p).
Proof.
  intros Hin w. destruct (rmtree_cases p w) as [->|(_ & ->)];
    [apply confined_refl|].
  intros q Hq. cbn [fs mutated]. unfold fs_rmtree.
  destruct (is_prefix p q) eqn:E.
  - apply Hin in E. congruence.
  - destruct (fs w q); auto.
Qed.

Lemma confined_mkdir (inside : path -> bool) (dir : path) :
  (forall q, is_prefix dir q = true -> inside q = true) ->
  keeps (confined inside dir) (mkdir_parents dir).
Proof.
  intros Hin w. destruct (mkdir_parents_cases dir w) as [->|(Ha & Hf & ->)];
    [apply confined_refl|].
  intros q Hq. cbn [fs mutated]. unfold fs_mkdir.
  destruct (is_prefix q dir) eqn:E; [|destruct (fs w q); auto].
  destruct (is_prefix_inv q dir E) as [->|Hproper].
  - rewrite (Hin dir (is_prefix_refl dir)) in Hq. discriminate.
  - pose proof (not_file_ancestor (fs w) dir q Ha Hproper) as Hnf.
    destruct (fs w q) as [[c|]|]; [discriminate|reflexivity|auto].
Qed.

Lemma confined_copytree (inside : path -> bool) (dir src : path) (x : string) :
  (forall q, is_prefix dir q = true -> inside q = true) ->
  keeps (confined inside dir) (copytree src (dir ++ [x])).
Proof.
  intros Hin w.
  destruct (copytree_cases src (dir ++ [x]) w) as [->|(_ & _ & Ha & ->)];
    [apply confined_refl|].
  intros q Hq. cbn [fs mutated]. unfold fs_copytree.
  assert (Hout : is_prefix dir q = false).
  { destruct (is_prefix dir q) eqn:E; [|reflexivity].
    apply Hin in E. congruence. }
  destruct (strip_prefix (dir ++ [x]) q) as [rest|] eqn:Es.
  - assert (is_prefix dir q = true); [|congruence].
    apply (is_prefix_trans dir (dir ++ [x]) q); [apply is_prefix_app|].
    unfold is_prefix. now rewrite Es.
  - destruct (is_prefix q (dir ++ [x])) eqn:E; [|destruct (fs w q); auto].
    destruct (is_prefix_snoc q dir x E) as [Hpre| ->].
    + destruct (is_prefix_inv q (dir ++ [x]) E) as [->|Hproper].
      * rewrite is_prefix_app in Hout. discriminate.
      * pose proof (not_file_ancestor (fs w) _ q Ha Hproper) as Hnf.
        destruct (fs w q) as [[c|]|]; [discriminate|reflexivity|auto].
    + rewrite is_prefix_app in Hout. discriminate.
Qed.

Lemma confined_write (inside : path -> bool) (dir p : path) (s : string) :
  inside p = true ->
  keeps (confined inside dir) (write_text p s).
Proof.
  intros Hin w. destruct (write_text_cases p s w) as [->|(_ & _ & ->)];
    [apply confined_refl|].
  intros q Hq. cbn [fs mutated]. unfold fs_write.
  destruct (path_eqb q p) eqn:E.
  - apply path_eqb_eq in E. congruence.
  - destruct (fs w q); auto.
Qed.

(** *** Effects on files only *)

Lemma offline_refl (w : World) : offline w w.
Proof.
  repeat split. exists []. now rewrite app_nil_r.
Qed.

Lemma offline_trans (w1 w2 w3 : World) :
  offline w1 w2 -> offline w2 w3 -> offline w1 w3.
Proof.
  intros (Hc & Hn & Hr & evs & Ht & He) (Hc' & Hn' & Hr' & evs' & Ht' & He').
  repeat split; try congruence.
  exists (evs ++ evs'). rewrite Ht', Ht, app_assoc. split; [reflexivity|].
  rewrite forallb_app. now rewrite He, He'.
Qed.

Lemma offline_mutated (f : path -> option node) (e : event) (w : World) :
  file_event e = true -> offline w (mutated f e w).
Proof.
  intros He. repeat split. exists [e]. split; [reflexivity|].
  cbn. now rewrite He.
Qed.

Lemma offline_read (p : path) : keeps offline (read_text p).
Proof.
  intros w. destruct (mutated_or_same_read p w) as [->| ->];
    [apply offline_refl|now apply offline_mutated].
Qed.

Lemma offline_rmtree (p : path) : keeps offline (rmtree p).
Proof.
  intros w. destruct (rmtree_cases p w) as [->|(_ & ->)];
    [apply offline_refl|now apply offline_mutated].
Qed.

Lemma offline_mkdir (p : path) : keeps offline (mkdir_parents p).
Proof.
  intros w. destruct (mkdir_parents_cases p w) as [->|(_ & _ & ->)];
    [apply offline_refl|now apply offline_mutated].
Qed.

Lemma offline_copytree (src dst : path) : keeps offline (copytree src dst).
Proof.
  intros w. destruct (copytree_cases src dst w) as [->|(_ & _ & _ & ->)];
    [apply offline_refl|now apply offline_mutated].
Qed.

Lemma offline_write (p : path) (s : string) : keeps offline (write_text p s).
Proof.
  intros w. destruct (write_text_cases p s w) as [->|(_ & _ & ->)];
    [apply offline_refl|now apply offline_mutated].
Qed.

(** *** The file system but for some paths *)

Lemma unchanged_refl (touched : path -> bool) (w : World) :
  unchanged_except touched w w.
Proof. now intros p _. Qed.

Lemma unchanged_trans (touched : path -> bool) (w1 w2 w3 : World) :
  unchanged_except touched w1 w2 -> unchanged_except touched w2 w3 ->
  unchanged_except touched w1 w3.
Proof. intros H12 H23 p Hp. now rewrite (H23 p Hp), (H12 p Hp). Qed.

Lemma unchanged_read (touched : path -> bool) (p : path) :
  keeps (unchanged_except touched) (read_text p).
Proof.
  intros w. destruct (mutated_or_same_read p w) as [->| ->]; now intros q _.
Qed.

Lemma unchanged_rmtree (touched : path -> bool) (p : path) :
  (forall q, is_prefix p q = true -> touched q = true) ->
  keeps (unchanged_except touched) (rmtree p).
Proof.
  intros Hin w. destruct (rmtree_cases p w) as [->|(_ & ->)];
    [apply unchanged_refl|].
  intros q Hq. cbn [fs mutated]. unfold fs_rmtree.
  destruct (is_prefix p q) eqn:E; [|reflexivity].
  apply Hin in E. congruence.
Qed.

Lemma unchanged_mkdir (touched : path -> bool) (p : path) :
  (forall q, is_prefix q p = true -> touched q = true) ->
  keeps (unchanged_except touched) (mkdir_parents p).
Proof.
  intros Hin w. destruct (mkdir_parents_cases p w) as [->|(_ & _ & ->)];
    [apply unchanged_refl|].
  intros q Hq. cbn [fs mutated]. unfold fs_mkdir.
  destruct (is_prefix q p) eqn:E; [|reflexivity].
  apply Hin in E. congruence.
Qed.

Lemma unchanged_copytree (touched : path -> bool) (src dst : path) :
  (forall q, is_prefix dst q = true -> touched q = true) ->
  (forall q, is_prefix q dst = true -> touched q = true) ->
  keeps (unchanged_except touched) (copytree src dst).
Proof.
  intros Hunder Hover w.
  destruct (copytree_cases src dst w) as [->|(_ & _ & _ & ->)];
    [apply unchanged_refl|].
  intros q Hq. cbn [fs mutated]. unfold fs_copytree.
  destruct (strip_prefix dst q) as [rest|] eqn:Es.
  - assert (E : is_prefix dst q = true) by (unfold is_prefix; now rewrite Es).
    apply Hunder in E. congruence.
  - destruct (is_prefix q dst) eqn:E; [|reflexivity].
    apply Hover in E. congruence.
Qed.

Lemma unchanged_write (touched : path -> bool) (p : path) (s : string) :
  touched p = true ->
  keeps (unchanged_except touched) (write_text p s).
Proof.
  intros Hin w. destruct (write_text_cases p s w) as [->|(_ & _ & ->)];
    [apply unchanged_refl|].
  intros q Hq. cbn [fs mutated]. unfold fs_write.
  destruct (path_eqb q p) eqn:E; [|reflexivity].
  apply path_eqb_eq in E. congruence.
Qed.

Lemma read_text_missing (p : path) (w : World) :
  fs w p = None -> read_text p w = (Raise FileNotFoundError, w).
Proof. intros H. unfold read_text, get_fs. unfold bind at 1. now rewrite H. Qed.

Lemma read_text_directory (p : path) (w : World) :
  fs w p = Some Dir -> read_text p w = (Raise IsADirectoryError, w).
Proof. intros H. unfold read_text, get_fs. unfold bind at 1. now rewrite H. Qed.

Lemma is_prefix_split (p q : path) :
  is_prefix p q = true -> exists r, q = p ++ r.
Proof.
  revert q. induction p as [|x p IH]; intros q H; [now exists q|].
  destruct q as [|y q]; [discriminate|].
  unfold is_prefix in *. cbn in H.
  destruct (String.eqb_spec x y) as [->|]; [|discriminate].
  destruct (IH q H) as [r ->]. now exists r.
Qed.

Lemma is_prefix_both (p q : path) :
  is_prefix p q = true -> is_prefix q p = true -> p = q.
Proof.
  intros Hpq Hqp.
  apply is_prefix_split in Hpq as [r Hr], Hqp as [r' Hr'].
  assert (Hlen : List.length r = 0%nat).
  { apply (f_equal (@List.length string)) in Hr, Hr'.
    rewrite length_app in Hr, Hr'. lia. }
  destruct r; [|discriminate]. now rewrite app_nil_r in Hr.
Qed.

Lemma is_prefix_shorter (d s r : path) :
  is_prefix d (s ++ r) = true -> (List.length d <= List.length s)%nat ->
  is_prefix d s = true.
Proof.
  revert s. induction d as [|x d IH]; intros s H Hlen; [reflexivity|].
  destruct s as [|y s]; [cbn in Hlen; lia|].
  unfold is_prefix in *. cbn in *.
  destruct (String.eqb x y); [|discriminate].
  apply IH; [exact H|lia].
Qed.

(** ** The footprint of the Structure Builder *)

Section Footprint.

Variable here : path.
Variable json_load : string -> option value.

Local Abbreviation base := (SUBMISSION_BASE here).
Local Abbreviation source := (BTCVOL_SOURCE here).
Local Abbreviation create := (create_submission_structure here json_load).

Lemma confined_extract (inside : path -> bool) (dir p : path) :
  keeps (confined inside dir) (extract_model_code_from_notebook json_load p).
Proof.
  unfold extract_model_code_from_notebook.
  apply (keeps_bind (confined_trans inside dir)); [apply confined_read|].
  intros text. destruct (json_load text).
  - apply keeps_lift, confined_refl.
  - apply keeps_raise, confined_refl.
Qed.

Lemma offline_extract (p : path) :
  keeps offline (extract_model_code_from_notebook json_load p).
Proof.
  unfold extract_model_code_from_notebook.
  apply (keeps_bind offline_trans); [apply offline_read|].
  intros text. destruct (json_load text).
  - apply keeps_lift, offline_refl.
  - apply keeps_raise, offline_refl.
Qed.

Lemma create_confined (inside : path -> bool) (model_path : path)
      (submission_name : string) :
  let dir := joinpath base submission_name in
  (forall q, is_prefix dir q = true -> inside q = true) ->
  keeps (confined inside dir) (create model_path submission_name).
Proof.
  intros dir Hin. unfold create_submission_structure. fold dir.
  pose proof (confined_trans inside dir) as Htrans.
  pose proof (confined_refl inside dir) as Hrefl.
  apply (keeps_bind Htrans); [now apply keeps_path_exists|]. intros present.
  apply (keeps_bind Htrans).
  { destruct present; [now apply confined_rmtree|now apply keeps_ret]. }
  intros _. apply (keeps_bind Htrans); [now apply confined_mkdir|].
  intros _. apply (keeps_bind Htrans); [now apply keeps_path_exists|].
  intros source_present.
  destruct (negb source_present); [now apply keeps_raise|].
  apply (keeps_bind Htrans); [now apply confined_copytree|].
  intros _. apply (keeps_bind Htrans).
  { destruct (String.eqb (suffix model_path) ".ipynb");
      [apply confined_extract|apply confined_read]. }
  intros code. apply (keeps_bind Htrans).
  { apply confined_write, Hin, is_prefix_app. }
  intros _. apply (keeps_bind Htrans).
  { apply confined_write, Hin, is_prefix_app. }
  intros _. now apply keeps_ret.
Qed.

Lemma create_offline (model_path : path) (submission_name : string) :
  keeps offline (create model_path submission_name).
Proof.
  unfold create_submission_structure.
  apply (keeps_bind offline_trans);
    [apply (keeps_path_exists offline_refl)|]. intros present.
  apply (keeps_bind offline_trans).
  { destruct present; [apply offline_rmtree|apply (keeps_ret offline_refl)]. }
  intros _. apply (keeps_bind offline_trans); [apply offline_mkdir|].
  intros _. apply (keeps_bind offline_trans);
    [apply (keeps_path_exists offline_refl)|].
  intros source_present.
  destruct (negb source_present); [apply (keeps_raise offline_refl)|].
  apply (keeps_bind offline_trans); [apply offline_copytree|].
  intros _. apply (keeps_bind offline_trans).
  { destruct (String.eqb (suffix model_path) ".ipynb");
      [apply offline_extract|apply offline_read]. }
  intros code. apply (keeps_bind offline_trans); [apply offline_write|].
  intros _. apply (keeps_bind offline_trans); [apply offline_write|].
  intros _. apply (keeps_ret offline_refl).
Qed.

(** X4.  However the Structure Builder ends, with a directory or with an
    exception, it has stayed in the submission directory: whatever
    existed outside of it is as it was, and nothing was made outside of
    it but missing directories on the way to it.  It has run no process
    and let no time pass. *)
Theorem builder_stays_in_its_directory
        (model_path : path) (submission_name : string) (w : World) :
  let dir := joinpath base submission_name in
  let w' := snd (create model_path submission_name w) in
  (forall p n, is_prefix dir p = false -> fs w p = Some n -> fs w' p = Some n)
  /\ (forall p, is_prefix dir p = false -> fs w p = None ->
                fs w' p = None \/ (is_prefix p dir = true /\ fs w' p = Some Dir))
  /\ clock w' = clock w
  /\ runtime w' = runtime w
  /\ exists evs, trace w' = trace w ++ evs /\ forallb file_event evs = true.
Proof.
  intros dir w'.
  pose proof (create_confined (is_prefix dir) model_path submission_name
                (fun q H => H) w) as Hconf.
  pose proof (create_offline model_path submission_name w)
    as (Hclock & _ & Hrt & Htrace).
  fold w' in Hconf, Hclock, Hrt, Htrace.
  split; [|split; [|now repeat split]].
  - intros p n Hp Hn. specialize (Hconf p Hp). now rewrite Hn in Hconf.
  - intros p Hp Hn. specialize (Hconf p Hp). now rewrite Hn in Hconf.
Qed.

(** X5.  When the submission directory is there, its former contents are
    gone however the Structure Builder ends: what is left under it is
    what the Structure Builder has put there itself. *)
Theorem old_contents_are_gone
        (model_path : path) (submission_name : string) (w : World) (p : path) :
  let dir := joinpath base submission_name in
  let w' := snd (create model_path submission_name w) in
  fs w dir = Some Dir ->
  is_prefix dir p = true ->
  p <> dir ->
  is_prefix (dir ++ ["btcvol"]) p = false ->
  p <> dir ++ ["main.py"] ->
  p <> dir ++ ["requirements.txt"] ->
  fs w' p = None.
Proof.
  intros dir w' Hdir Hunder Hnotdir Hlib Hmain Hreq. subst w'.
  assert (Htarget : builder_target dir p = false).
  { unfold builder_target. rewrite Hlib.
    destruct (is_prefix p dir) eqn:E1.
    { now destruct Hnotdir; apply is_prefix_both. }
    destruct (path_eqb p (dir ++ ["main.py"])) eqn:E2.
    { now apply path_eqb_eq in E2. }
    destruct (path_eqb p (dir ++ ["requirements.txt"])) eqn:E3.
    { now apply path_eqb_eq in E3. }
    reflexivity. }
  assert (Hanc : forall q, is_prefix q dir = true -> builder_target dir q = true).
  { intros q Hq. unfold builder_target. now rewrite Hq. }
  assert (Hdst : forall q, is_prefix (dir ++ ["btcvol"]) q = true ->
                           builder_target dir q = true).
  { intros q Hq. unfold builder_target. rewrite Hq. now rewrite orb_true_r. }
  unfold create_submission_structure. fold dir.
  unfold bind at 1. unfold path_exists at 1. rewrite Hdir.
  erewrite bind_ok by (apply rmtree_run; exact Hdir).
  set (w1 := mutated (fs_rmtree dir (fs w)) (EvRmtree dir) w).
  pose proof (unchanged_trans (builder_target dir)) as Htrans.
  pose proof (unchanged_refl (builder_target dir)) as Hrefl.
  match goal with
  | |- fs (snd (?m w1)) p = None =>
      assert (Htail : keeps (unchanged_except (builder_target dir)) m)
  end.
  { apply (keeps_bind Htrans); [now apply unchanged_mkdir|].
    intros _. apply (keeps_bind Htrans); [now apply keeps_path_exists|].
    intros source_present.
    destruct (negb source_present); [now apply keeps_raise|].
    apply (keeps_bind Htrans).
    { apply unchanged_copytree; [exact Hdst|].
      intros q Hq. destruct (is_prefix_snoc q dir "btcvol" Hq) as [Hpre| ->].
      - now apply Hanc.
      - apply Hdst, is_prefix_refl. }
    intros _. apply (keeps_bind Htrans).
    { unfold extract_model_code_from_notebook.
      destruct (String.eqb (suffix model_path) ".ipynb"); [|apply unchanged_read].
      apply (keeps_bind Htrans); [apply unchanged_read|].
      intros text. destruct (json_load text);
        [now apply keeps_lift|now apply keeps_raise]. }
    intros code. apply (keeps_bind Htrans).
    { apply unchanged_write. unfold builder_target.
      rewrite path_eqb_refl. now rewrite orb_true_r. }
    intros _. apply (keeps_bind Htrans).
    { apply unchanged_write. unfold builder_target.
      rewrite path_eqb_refl. now rewrite orb_true_r. }
    intros _. now apply keeps_ret. }
  rewrite (Htail w1 p Htarget). subst w1. cbn [mutated fs]. unfold fs_rmtree.
  now rewrite Hunder.
Qed.

(** X6.  A model file that lies in the submission directory it is submitted
    to (outside of the copy of the support library) is deleted with the
    directory before it is read: the Structure Builder raises, and the
    file is gone. *)
Theorem model_inside_submission_is_lost
        (model_path : path) (submission_name content : string) (w : World) :
  let dir := joinpath base submission_name in
  fs w dir = Some Dir ->
  fs w model_path = Some (File content) ->
  is_prefix dir model_path = true ->
  is_prefix (dir ++ ["btcvol"]) model_path = false ->
  exists e w',
    create model_path submission_name w = (Raise e, w')
    /\ fs w' model_path = None.
Proof.
  intros dir Hdir Hfile Hunder Hlib.
  assert (Hnotanc : is_prefix model_path dir = false).
  { destruct (is_prefix model_path dir) eqn:E; [|reflexivity].
    assert (dir = model_path) by now apply is_prefix_both.
    congruence. }
  unfold create_submission_structure. fold dir.
  unfold bind at 1. unfold path_exists at 1. rewrite Hdir.
  erewrite bind_ok by (apply rmtree_run; exact Hdir).
  set (w1 := mutated (fs_rmtree dir (fs w)) (EvRmtree dir) w).
  assert (H1 : fs w1 model_path = None).
  { subst w1. cbn [mutated fs]. unfold fs_rmtree. now rewrite Hunder. }
  pose proof (unchanged_mkdir (fun q => is_prefix q dir) dir (fun q H => H)
                w1 model_path Hnotanc) as H2.
  destruct (mkdir_parents dir w1) as [[u|e] w2] eqn:Em; cbn [snd] in H2.
  2:{ erewrite bind_raise by exact Em. exists e, w2.
      split; [reflexivity|congruence]. }
  erewrite bind_ok by exact Em.
  unfold bind at 1. unfold path_exists at 1.
  destruct (fs w2 source) as [n|] eqn:Es; cbn [negb].
  2:{ exists FileNotFoundError, w2. split; [reflexivity|congruence]. }
  assert (H3 : unchanged_except
                 (fun q => is_prefix (dir ++ ["btcvol"]) q
                           || is_prefix q (dir ++ ["btcvol"]))
                 w2 (snd (copytree source (dir ++ ["btcvol"]) w2))).
  { apply unchanged_copytree; intros q ->; [reflexivity|apply orb_true_r]. }
  specialize (H3 model_path). cbv beta in H3.
  assert (Hnotdst : is_prefix model_path (dir ++ ["btcvol"]) = false).
  { destruct (is_prefix model_path (dir ++ ["btcvol"])) eqn:E; [|reflexivity].
    destruct (is_prefix_snoc _ _ _ E) as [E'| ->]; [congruence|].
    now rewrite is_prefix_refl in Hlib. }
  rewrite Hlib, Hnotdst in H3. specialize (H3 eq_refl).
  destruct (copytree source (dir ++ ["btcvol"]) w2) as [[u'|e] w3] eqn:Ec;
    cbn [snd] in H3.
  2:{ erewrite bind_raise by exact Ec. exists e, w3.
      split; [reflexivity|congruence]. }
  erewrite bind_ok by exact Ec.
  assert (Hgone : fs w3 model_path = None) by congruence.
  exists FileNotFoundError, w3. split; [|exact Hgone].
  apply bind_raise.
  destruct (String.eqb (suffix model_path) ".ipynb").
  - unfold extract_model_code_from_notebook.
    apply bind_raise. now apply read_text_missing.
  - now apply read_text_missing.
Qed.

Lemma path_eqb_app (p a b : path) : path_eqb (p ++ a) (p ++ b) = path_eqb a b.
Proof.
  induction p as [|x p IH]; [reflexivity|].
  cbn. now rewrite String.eqb_refl.
Qed.

(** X7.  A run of the Structure Builder that meets no obstacle: the directory
    holds the entry point made from the model's code, the manifest of
    that code and a copy of the support library, file by file; the model
    file is as it was.  The code is taken from the text of the model
    file as it is read, its line ends translated to line feeds: a script
    stored with other line ends gives an entry point with line feeds. *)
Theorem submission_is_complete
        (model_path : path) (submission_name text content : string) (w : World) :
  let dir := joinpath base submission_name in
  let code := prepare_code content in
  fs w model_path = Some (File text) ->
  model_code json_load model_path (Str.universal_newlines text) = Some content ->
  is_prefix dir model_path = false ->
  builder_ready here (fs w) dir = true ->
  files_free (fs w) dir = true ->
  exists w',
    create model_path submission_name w = (Ok dir, w')
    /\ fs w' dir = Some Dir
    /\ fs w' (dir ++ ["main.py"]) = Some (File code)
    /\ fs w' (dir ++ ["requirements.txt"]) = Some (File (requirements_text code))
    /\ (forall rest, fs w' (dir ++ "btcvol" :: rest) = fs w (source ++ rest))
    /\ fs w' model_path = Some (File text).
Proof.
  intros dir code Hfile Hcode Hout Hready Hfree.
  rewrite create_submission_structure_prepares by exact Hready. fold dir.
  assert (Hmodel : fs (prepared here dir w) model_path = Some (File text)).
  { rewrite (prepared_keeps_file here dir model_path w Hready);
      [exact Hfile| |exact Hout].
    now rewrite Hfile. }
  set (w1 := after_read model_path (prepared here dir w)).
  assert (Hread : (if String.eqb (suffix model_path) ".ipynb"
                   then extract_model_code_from_notebook json_load model_path
                   else read_text model_path) (prepared here dir w)
                  = (Ok content, w1)).
  { unfold model_code in Hcode.
    destruct (String.eqb (suffix model_path) ".ipynb").
    - unfold extract_model_code_from_notebook.
      erewrite bind_ok by (apply read_text_run; exact Hmodel).
      destruct (json_load (Str.universal_newlines text)) as [notebook|];
        [|discriminate].
      unfold lift. destruct (extract_code notebook); [|discriminate].
      now inversion Hcode.
    - inversion Hcode; subst content. now apply read_text_run. }
  erewrite bind_ok by exact Hread. fold code.
  assert (Hchild : forall x, x <> "btcvol" ->
                   In x ["main.py"; "requirements.txt"] ->
                   fs w1 (dir ++ [x]) <> Some Dir).
  { intros x Hx Hin. subst w1. cbn [after_read mutated fs].
    rewrite (prepared_child here dir x w Hx). unfold files_free in Hfree.
    destruct (fs w dir); [discriminate|].
    apply andb_true_iff in Hfree as [Hm Hr]. apply negb_true_iff in Hm, Hr.
    destruct Hin as [<-|[<-|[]]].
    - destruct (fs w (dir ++ ["main.py"])) as [[|]|]; congruence.
    - destruct (fs w (dir ++ ["requirements.txt"])) as [[|]|]; congruence. }
  erewrite bind_ok.
  2:{ apply write_text_run.
      - apply Hchild; [discriminate|now left].
      - rewrite parent_snoc. subst w1. cbn [after_read mutated fs].
        apply prepared_dir. }
  set (w2 := mutated (fs_write (dir ++ ["main.py"]) code (fs w1))
                     (EvWrite (dir ++ ["main.py"]) code) w1).
  erewrite bind_ok.
  2:{ apply write_text_run.
      - subst w2. cbn [mutated fs]. unfold fs_write.
        rewrite path_eqb_siblings by discriminate.
        apply Hchild; [discriminate|right; now left].
      - rewrite parent_snoc. subst w2. cbn [mutated fs]. unfold fs_write.
        rewrite path_eqb_child. subst w1. cbn [after_read mutated fs].
        apply prepared_dir. }
  eexists. split; [reflexivity|]. subst w2 w1.
  cbn [after_read mutated fs]. unfold fs_write.
  rewrite !path_eqb_refl, path_eqb_siblings by discriminate.
  rewrite !path_eqb_child.
  split; [apply prepared_dir|]. split; [reflexivity|]. split; [reflexivity|].
  split.
  - intros rest.
    replace (dir ++ ["requirements.txt"]) with (dir ++ ["requirements.txt"] ++ [])
      by reflexivity.
    rewrite !path_eqb_app. cbn [path_eqb String.eqb Ascii.eqb Bool.eqb andb].
    unfold prepared. cbn [mutated fs]. unfold fs_copytree.
    replace (dir ++ "btcvol" :: rest) with ((dir ++ ["btcvol"]) ++ rest)
      by now rewrite <- app_assoc.
    rewrite strip_prefix_app. unfold fs_mkdir.
    assert (Hlen : (List.length dir < List.length (source ++ rest))%nat).
    { unfold dir, joinpath, BTCVOL_SOURCE.
      destruct (String.eqb submission_name ""); rewrite !length_app; cbn; lia. }
    rewrite (is_prefix_longer _ _ Hlen).
    destruct (fs w dir); [|reflexivity].
    cbn [mutated fs]. unfold fs_rmtree.
    destruct (is_prefix dir (source ++ rest)) eqn:E; [|reflexivity].
    apply is_prefix_shorter in E.
    + unfold builder_ready in Hready. fold dir in Hready.
      rewrite E in Hready. now rewrite !andb_false_r in Hready.
    + unfold dir, joinpath, BTCVOL_SOURCE.
      destruct (String.eqb submission_name ""); rewrite !length_app; cbn; lia.
  - assert (Hne : forall x, path_eqb model_path (dir ++ [x]) = false).
    { intros x. destruct (path_eqb model_path (dir ++ [x])) eqn:E; [|reflexivity].
      apply path_eqb_eq in E. subst model_path.
      now rewrite is_prefix_app in Hout. }
    now rewrite !Hne.
Qed.

End Footprint.

(** ** The Config Updater and the registry file *)

Lemma write_text_outcome (p : path) (s : string) (w : World) :
  write_text p s w = (Ok tt, mutated (fs_write p s (fs w)) (EvWrite p s) w)
  \/ exists e, write_text p s w = (Raise e, w).
Proof.
  destruct (fs w p) as [[c|]|] eqn:Hp.
  2:{ right. exists IsADirectoryError.
      unfold write_text, get_fs. unfold bind at 1. now rewrite Hp. }
  all: destruct (fs w (parent p)) as [[c'|]|] eqn:Hq.
  2,5: left; apply write_text_run; [congruence|assumption].
  1,3: right; exists NotADirectoryError;
    unfold write_text, get_fs; unfold bind at 1; now rewrite Hp, Hq.
  all: right; exists FileNotFoundError;
    unfold write_text, get_fs; unfold bind at 1; now rewrite Hp, Hq.
Qed.

Lemma read_text_outcome (p : path) (w : World) :
  (exists s, fs w p = Some (File s)
             /\ read_text p w = (Ok (Str.universal_newlines s), after_read p w))
  \/ exists e, read_text p w = (Raise e, w).
Proof.
  destruct (fs w p) as [[s|]|] eqn:E.
  - left. exists s. split; [reflexivity|now apply read_text_run].
  - right. exists IsADirectoryError.
    unfold read_text, get_fs. unfold bind at 1. now rewrite E.
  - right. exists FileNotFoundError. now apply read_text_missing.
Qed.

Lemma ids_of_raises (h : list yobj) (models : list yval) (bad : yval) :
  In bad models -> record_ok h bad = false -> exists e, ids_of h models = Raise e.
Proof.
  induction models as [|m rest IH]; intros Hin Hbad; [destruct Hin|].
  cbn [ids_of]. destruct (Obj.getitem h m "id") as [id|e] eqn:Eid; cbn [rbind].
  - destruct Hin as [->|Hin].
    + unfold record_ok, attr in Hbad. unfold Obj.getitem in Eid.
      destruct (Obj.deref h bad) as [[|items]|]; try discriminate.
      destruct (Obj.lookup "id" items); discriminate.
    + destruct (IH Hin Hbad) as [e ->]. now exists e.
  - now exists e.
Qed.

Lemma store_same (key : string) (v : yval) (items : list (yval * yval)) :
  Obj.lookup key items = Some v -> Obj.store key v items = items.
Proof.
  induction items as [|[k old] rest IH]; cbn; [discriminate|].
  destruct (Obj.eq_str k key).
  - now intros [= ->].
  - intros H. now rewrite IH.
Qed.

(** Setting the two fields again changes nothing. *)
Lemma updated_items_again (submission_name : string) (items : list (yval * yval)) :
  updated_items submission_name (updated_items submission_name items)
  = updated_items submission_name items.
Proof.
  unfold updated_items at 1.
  rewrite (store_same "submission_id").
  - apply store_same. unfold updated_items. apply lookup_store_same.
  - unfold updated_items. rewrite lookup_store_other by discriminate.
    apply lookup_store_same.
Qed.

(** The first element that passes a test is where it is. *)
Lemma first_match_unique {A} (f : A -> bool) (before before' after after' : list A)
      (x x' : A) :
  before ++ x :: after = before' ++ x' :: after' ->
  existsb f before = false -> f x = true ->
  existsb f before' = false -> f x' = true ->
  x = x'.
Proof.
  revert before'. induction before as [|y before IH]; intros [|z before'] Heq Hb Hx Hb' Hx';
    cbn in *.
  - now inversion Heq.
  - inversion Heq; subst z. now rewrite Hx in Hb'.
  - inversion Heq; subst y. now rewrite Hx' in Hb.
  - inversion Heq; subst z. apply orb_false_iff in Hb as [_ Hb], Hb' as [_ Hb'].
    now apply (IH before').
Qed.

Lemma existsb_pointwise {A} (f g : A -> bool) (l : list A) :
  (forall x, In x l -> f x = g x) -> existsb f l = existsb g l.
Proof.
  induction l as [|x l IH]; intros H; [reflexivity|].
  cbn. rewrite (H x (or_introl eq_refl)). f_equal. apply IH.
  intros y Hy. apply H. now right.
Qed.

Lemma forallb_pointwise {A} (f g : A -> bool) (l : list A) :
  (forall x, In x l -> f x = g x) -> forallb f l = forallb g l.
Proof.
  induction l as [|x l IH]; intros H; [reflexivity|].
  cbn. rewrite (H x (or_introl eq_refl)). f_equal. apply IH.
  intros y Hy. apply H. now right.
Qed.

(** What a record is known by is read off its object. *)
Lemma attr_same_object (h h' : list yobj) (key : string) (m : yval) :
  Obj.deref h' m = Obj.deref h m -> attr h' key m = attr h key m.
Proof. unfold attr. now intros ->. Qed.

Section RegistryFile.

Variable here : path.
Variable yaml_safe_load : string -> option document.
Variable yaml_dump : document -> string.

Local Abbreviation registry := (MODELS_CONFIG here).
Local Abbreviation update := (update_models_config here yaml_safe_load yaml_dump).

(** The Config Updater in every case: what it answers, and the world it
    leaves. *)
Lemma update_models_config_outcome (submission_name model_id : string) (w : World) :
  (exists text config config',
      fs w registry = Some (File text)
      /\ yaml_safe_load (Str.universal_newlines text) = Some config
      /\ update_config config submission_name model_id = Ok config'
      /\ update submission_name model_id w
         = (Ok true,
            mutated (fs_write registry (yaml_dump config') (fs w))
                    (EvWrite registry (yaml_dump config'))
                    (after_read registry w)))
  \/ (update submission_name model_id w = (Ok false, w)
      \/ update submission_name model_id w = (Ok false, after_read registry w)).
Proof.
  unfold update_models_config.
  destruct (read_text_outcome registry w) as [(text & Hfile & Hread)|[e Hread]].
  2:{ right. left. erewrite try_raise by (apply bind_raise; exact Hread).
      reflexivity. }
  destruct (yaml_safe_load (Str.universal_newlines text)) as [config|] eqn:Ey.
  2:{ right. right. erewrite try_raise.
      2:{ erewrite bind_ok by exact Hread. rewrite Ey. reflexivity. }
      reflexivity. }
  destruct (update_config config submission_name model_id) as [config'|e] eqn:Eu.
  2:{ right. right. erewrite try_raise.
      2:{ erewrite bind_ok by exact Hread. rewrite Ey, Eu. reflexivity. }
      reflexivity. }
  destruct (write_text_outcome registry (yaml_dump config') (after_read registry w))
    as [Hwrite|[e Hwrite]].
  - left. exists text, config, config'. repeat split; try assumption.
    erewrite try_ok; [reflexivity|].
    erewrite bind_ok by exact Hread. rewrite Ey, Eu.
    unfold lift. unfold bind at 1.
    erewrite bind_ok by exact Hwrite. reflexivity.
  - right. right. erewrite try_raise.
    2:{ erewrite bind_ok by exact Hread. rewrite Ey, Eu.
        unfold lift. unfold bind at 1.
        erewrite bind_raise by exact Hwrite. reflexivity. }
    reflexivity.
Qed.

(** X8.  The Config Updater never raises, and the registry file is the only
    thing it can change.  When it answers [False] the file system is as
    it was; when it answers [True] the registry file held a document the
    YAML reader accepts, and now holds the dump of the updated
    document. *)
Theorem config_updater_is_contained (submission_name model_id : string) (w : World) :
  exists updated w',
    update submission_name model_id w = (Ok updated, w')
    /\ (forall p, p <> registry -> fs w' p = fs w p)
    /\ clock w' = clock w
    /\ runtime w' = runtime w
    /\ (updated = false -> fs w' = fs w)
    /\ (updated = true ->
        exists text config config',
          fs w registry = Some (File text)
          /\ yaml_safe_load (Str.universal_newlines text) = Some config
          /\ update_config config submission_name model_id = Ok config'
          /\ fs w' registry = Some (File (yaml_dump config'))).
Proof.
  destruct (update_models_config_outcome submission_name model_id w)
    as [(text & config & config' & Hfile & Hy & Hu & Hrun)|[Hrun|Hrun]].
  - eexists true, _. split; [exact Hrun|]. cbn [mutated after_read fs clock runtime].
    split; [|split; [reflexivity|split; [reflexivity|split; [discriminate|]]]].
    + intros p Hp. unfold fs_write.
      destruct (path_eqb p registry) eqn:E; [|reflexivity].
      now apply path_eqb_eq in E.
    + intros _. exists text, config, config'. repeat split; try assumption.
      unfold fs_write. now rewrite path_eqb_refl.
  - exists false, w. split; [exact Hrun|]. repeat split; discriminate.
  - exists false, (after_read registry w). split; [exact Hrun|].
    repeat split; discriminate.
Qed.

(** X9.  One record without an [id] in the registry is enough to block every
    submission, whatever its id: the list of the ids cannot be built, the
    Config Updater answers [False] and the registry file is not written. *)
Theorem record_without_id_blocks_registry
        (submission_name model_id text : string) (config : document)
        (models : list yval) (bad : yval) (w : World) :
  fs w registry = Some (File text) ->
  yaml_safe_load (Str.universal_newlines text) = Some config ->
  records config = Some models ->
  In bad models ->
  record_ok (objects config) bad = false ->
  (exists e, update_config config submission_name model_id = Raise e)
  /\ update submission_name model_id w = (Ok false, after_read registry w).
Proof.
  intros Hfile Hy Hrec Hin Hbad.
  assert (Hraise : exists e, update_config config submission_name model_id = Raise e).
  { unfold records in Hrec.
    destruct (root config) as [| | | |r] eqn:Hroot; cbn [Obj.deref] in Hrec;
      try discriminate.
    destruct (nth_error (objects config) r) as [[|items]|] eqn:Hr;
      try discriminate.
    destruct (Obj.lookup "models" items) as [v|] eqn:Hl.
    2:{ inversion Hrec; subst models. destruct Hin. }
    destruct v as [| | | |l]; cbn [Obj.deref] in Hrec; try discriminate.
    destruct (nth_error (objects config) l) as [[ms|]|] eqn:Hlist;
      try discriminate.
    inversion Hrec; subst ms.
    destruct (ids_of_raises (objects config) models bad Hin Hbad) as [e He].
    exists e. unfold update_config. rewrite Hroot.
    unfold Obj.get. cbn [Obj.deref]. rewrite Hr, Hl. cbn [rbind].
    unfold Obj.iter at 1. cbn [Obj.deref]. rewrite Hlist. cbn [rbind].
    now rewrite He. }
  split; [exact Hraise|]. destruct Hraise as [e He].
  unfold update_models_config. erewrite try_raise.
  2:{ erewrite bind_ok by (apply read_text_run; exact Hfile).
      rewrite Hy, He. reflexivity. }
  reflexivity.
Qed.

(** X10.  Registering the same submission under the same id a second time
    changes nothing: the document the Config Updater makes is a fixed
    point of the update. *)
Theorem update_config_is_idempotent
        (config : document) (models : list yval) (submission_name model_id : string) :
  records config = Some models ->
  forallb (record_ok (objects config)) models = true ->
  exists config',
    update_config config submission_name model_id = Ok config'
    /\ update_config config' submission_name model_id = Ok config'.
Proof.
  intros Hrec Hok.
  destruct (existsb (has_id (objects config) model_id) models) eqn:Hany.
  - destruct (update_config_updates config models submission_name model_id
                Hrec Hok Hany)
      as (before & a & items & after & Hm & Hb & Ha & Hhas & Hrun & Hrec').
    pose proof (nth_error_in_range _ _ _ Ha) as Halen.
    set (h' := Obj.put a (YDict (updated_items submission_name items))
                       (objects config)) in *.
    set (config' := mkDocument (root config) h') in *.
    exists config'. split; [exact Hrun|].
    assert (Hid : forall m, attr h' "id" m = attr (objects config) "id" m).
    { intros m. destruct (yval_eq_ref m a) as [->|Hne].
      - subst h'. rewrite attr_put_same by exact Halen.
        unfold updated_items. rewrite !lookup_store_other by discriminate.
        unfold attr. cbn [Obj.deref]. now rewrite Ha.
      - apply attr_same_object. subst h'. now apply deref_put_other. }
    assert (Hsame_id : forall m, has_id h' model_id m
                                 = has_id (objects config) model_id m).
    { intros m. unfold has_id. now rewrite Hid. }
    assert (Hok' : forallb (record_ok (objects config')) models = true).
    { rewrite <- Hok. apply forallb_pointwise. intros m _.
      unfold record_ok. cbn [objects config']. now rewrite Hid. }
    assert (Hany' : existsb (has_id (objects config') model_id) models = true).
    { rewrite <- Hany. apply existsb_pointwise. intros m _. apply Hsame_id. }
    destruct (update_config_updates config' models submission_name model_id
                Hrec' Hok' Hany')
      as (before' & a' & items' & after' & Hm' & Hb' & Ha' & Hhas' & Hrun' & _).
    cbn [objects root config'] in *.
    assert (Ha'a : YRef a = YRef a').
    { apply (first_match_unique (has_id (objects config) model_id)
               before before' after after'); try assumption.
      - congruence.
      - rewrite <- Hb'. apply existsb_pointwise. intros m _.
        symmetry. apply Hsame_id.
      - now rewrite <- Hsame_id. }
    inversion Ha'a; subst a'.
    assert (Hnow : nth_error h' a = Some (YDict (updated_items submission_name items)))
      by (subst h'; now apply nth_error_put_same).
    assert (items' = updated_items submission_name items) by congruence.
    subst items'. rewrite Hrun', updated_items_again.
    unfold config'. now rewrite (put_same _ _ _ Hnow).
  - destruct (update_config_appends config models submission_name model_id
                Hrec Hok Hany)
      as (h' & Hrun & Hrec' & Hnew & Hold & _).
    set (n := List.length (objects config)) in *.
    set (config' := mkDocument (root config) h') in *.
    exists config'. split; [exact Hrun|].
    assert (Hsame_id : forall m, In m models ->
                                 has_id h' model_id m
                                 = has_id (objects config) model_id m).
    { intros m Hin. unfold has_id.
      now rewrite (attr_same_object _ _ "id" m (Hold m Hin)). }
    assert (Hnew_id : has_id h' model_id (YRef n) = true).
    { unfold has_id, attr. cbn [Obj.deref]. rewrite Hnew. cbn.
      apply String.eqb_refl. }
    assert (Hnone : existsb (has_id h' model_id) models = false).
    { rewrite <- Hany. now apply existsb_pointwise. }
    assert (Hok' : forallb (record_ok (objects config')) (models ++ [YRef n]) = true).
    { rewrite forallb_app. apply andb_true_iff. split.
      - rewrite <- Hok. apply forallb_pointwise. intros m Hin.
        unfold record_ok. cbn [objects config'].
        now rewrite (attr_same_object _ _ "id" m (Hold m Hin)).
      - cbn [forallb objects config']. unfold record_ok, attr. cbn [Obj.deref].
        now rewrite Hnew. }
    assert (Hany' : existsb (has_id (objects config') model_id) (models ++ [YRef n])
                    = true).
    { rewrite existsb_app. cbn [existsb objects config'].
      now rewrite Hnew_id, orb_true_r. }
    destruct (update_config_updates config' (models ++ [YRef n]) submission_name
                model_id Hrec' Hok' Hany')
      as (before' & a' & items' & after' & Hm' & Hb' & Ha' & Hhas' & Hrun' & _).
    cbn [objects root config'] in *.
    assert (Ha'n : YRef n = YRef a').
    { apply (first_match_unique (has_id h' model_id) models before' [] after');
        assumption. }
    inversion Ha'n; subst a'.
    assert (items' = new_model submission_name model_id) by congruence.
    subst items'. rewrite Hrun'.
    replace (updated_items submission_name (new_model submission_name model_id))
      with (new_model submission_name model_id) by reflexivity.
    unfold config'. now rewrite (put_same _ _ _ Hnew).
Qed.

(** X23.  An id that the registry holds as a number is never taken for
    the id of a submission, which is a string: on a registry whose ids
    are all numbers every submission is appended as a new record, even
    when its id reads the same as a number that is there. *)
Theorem numeric_ids_never_match
        (config : document) (models : list yval) (submission_name model_id : string) :
  records config = Some models ->
  (forall r, In r models ->
             exists lit, attr (objects config) "id" r = Some (YNum lit)) ->
  exists config' r,
    update_config config submission_name model_id = Ok config'
    /\ records config' = Some (models ++ [r])
    /\ Obj.deref (objects config) r = None
    /\ Obj.deref (objects config') r
       = Some (YDict (new_model submission_name model_id))
    /\ forall m, In m models ->
                 Obj.deref (objects config') m = Obj.deref (objects config) m.
Proof.
  intros Hrec Hnum.
  assert (Hok : forallb (record_ok (objects config)) models = true).
  { apply forallb_forall. intros r Hr. destruct (Hnum r Hr) as [lit Hid].
    unfold record_ok. now rewrite Hid. }
  assert (Hnone : existsb (has_id (objects config) model_id) models = false).
  { destruct (existsb (has_id (objects config) model_id) models) eqn:E;
      [|reflexivity].
    apply existsb_exists in E as (r & Hr & Hhas).
    destruct (Hnum r Hr) as [lit Hid]. unfold has_id in Hhas.
    rewrite Hid in Hhas. discriminate Hhas. }
  destruct (update_config_appends config models submission_name model_id
              Hrec Hok Hnone)
    as (h' & Hrun & Hrec' & Hnew & Hold & _).
  exists (mkDocument (root config) h'), (YRef (List.length (objects config))).
  split; [exact Hrun|]. split; [exact Hrec'|]. cbn [objects Obj.deref].
  split; [apply nth_error_None; lia|]. split; [exact Hnew|exact Hold].
Qed.

End RegistryFile.

(** ** The Status Poller in every case *)

Lemma run_logs_missing (w : World) :
  logs_out (runtime w) (nlogs w) = None ->
  run_logs w = (Raise FileNotFoundError, w).
Proof. intros H. unfold run_logs. now rewrite H. Qed.

(** The loop of the poller, whatever the fetches do: [n] fetches were
    made, each but the last followed by a pause of three seconds. *)
Lemma poll_loop_passes (model_id : string) (max_wait start_time : Z) (fuel : nat) :
  forall w,
    exists n r w',
      poll_loop fuel model_id max_wait start_time w = (r, w')
      /\ nlogs w' = (nlogs w + n)%nat
      /\ fs w' = fs w
      /\ runtime w' = runtime w
      /\ clock w <= clock w'
      /\ (trace w' = trace w ++ polls n
          \/ exists k, n = S k /\ trace w' = trace w ++ polls k ++ [EvRun logs_argv])
      /\ (n <> 0%nat ->
          3000 * (Z.of_nat n - 1) + (clock w - start_time) < 1000 * max_wait)
      /\ (n = 0%nat -> forall st, r = Ok (Some st) -> st = UNKNOWN).
Proof.
  assert (Hidle : forall (r : result (option status)) w,
             (forall st, r = Ok (Some st) -> st = UNKNOWN) ->
             exists n r' w',
               (r, w) = (r', w')
               /\ nlogs w' = (nlogs w + n)%nat
               /\ fs w' = fs w
               /\ runtime w' = runtime w
               /\ clock w <= clock w'
               /\ (trace w' = trace w ++ polls n
                   \/ exists k, n = S k
                                /\ trace w' = trace w ++ polls k ++ [EvRun logs_argv])
               /\ (n <> 0%nat ->
                   3000 * (Z.of_nat n - 1) + (clock w - start_time) < 1000 * max_wait)
               /\ (n = 0%nat -> forall st, r' = Ok (Some st) -> st = UNKNOWN)).
  { intros r w Hr. exists O, r, w. split; [reflexivity|].
    split; [now rewrite Nat.add_0_r|]. split; [reflexivity|].
    split; [reflexivity|]. split; [lia|].
    split; [left; now rewrite app_nil_r|]. split; [congruence|].
    intros _. exact Hr. }
  induction fuel as [|fuel IH]; intros w.
  - cbn [poll_loop]. unfold bind, now, ret.
    destruct (clock w - start_time <? 1000 * max_wait);
      apply Hidle; congruence.
  - cbn [poll_loop]. unfold bind at 1. unfold now at 1.
    destruct (clock w - start_time <? 1000 * max_wait) eqn:E.
    2:{ unfold ret. apply Hidle. congruence. }
    apply Z.ltb_lt in E.
    destruct (logs_out (runtime w) (nlogs w)) as [out|] eqn:Hout.
    2:{ erewrite bind_raise by (apply run_logs_missing; exact Hout).
        apply Hidle. discriminate. }
    erewrite bind_ok by (apply run_logs_run; exact Hout).
    destruct (scan_logs model_id out) as [st|] eqn:Hscan.
    + exists 1%nat, (Ok (Some st)), (after_logs w). unfold ret.
      split; [reflexivity|]. split; [cbn; lia|]. split; [reflexivity|].
      split; [reflexivity|].
      split; [unfold after_logs, after; cbn [clock]; lia|].
      split; [right; now exists O|]. split; [intros _; lia|discriminate].
    + erewrite bind_ok by apply sleep_run.
      set (w2 := after (1000 * 3) (EvSleep 3) (after_logs w)).
      destruct (IH w2) as (n & r & w' & Hrun & Hn & Hfs & Hrt & Hclock & Htrace
                           & Hbound & _).
      assert (Hc2 : clock w + 3000 <= clock w2)
        by (unfold w2, after_logs, after; cbn [clock]; lia).
      assert (Htr : trace w2 = trace w ++ [EvRun logs_argv; EvSleep 3]).
      { unfold w2, after_logs, after. cbn [trace]. now rewrite <- app_assoc. }
      exists (S n), r, w'. split; [exact Hrun|].
      split; [rewrite Hn; unfold w2; cbn; lia|].
      split; [exact Hfs|]. split; [exact Hrt|]. split; [lia|].
      split.
      { destruct Htrace as [Htrace|(k & -> & Htrace)].
        - left. rewrite Htrace, Htr. cbn [polls]. now rewrite <- app_assoc.
        - right. exists (S k). split; [reflexivity|].
          rewrite Htrace, Htr. cbn [polls]. now rewrite <- app_assoc. }
      split; [|discriminate]. intros _.
      destruct n as [|n]; [lia|].
      specialize (Hbound ltac:(discriminate)). lia.
Qed.

(** X11.  The Status Poller never raises and never touches a file.  All it
    does is fetch the logs and pause for three seconds between two
    fetches; the number [n] of fetches is bounded by the wait, a fetch
    starting only while less than [max_wait] seconds have passed, and
    without a fetch the answer is UNKNOWN. *)
Theorem poller_always_answers (model_id : string) (max_wait : Z) (w : World) :
  exists st w' n,
    check_deployment_status model_id max_wait w = (Ok st, w')
    /\ fs w' = fs w
    /\ runtime w' = runtime w
    /\ clock w <= clock w'
    /\ nlogs w' = (nlogs w + n)%nat
    /\ (trace w' = trace w ++ polls n
        \/ exists k, n = S k /\ trace w' = trace w ++ polls k ++ [EvRun logs_argv])
    /\ (n <> 0%nat -> 3 * (Z.of_nat n - 1) < max_wait)
    /\ (n = 0%nat -> st = UNKNOWN).
Proof.
  destruct (poll_loop_passes model_id max_wait (clock w) (poll_fuel max_wait) w)
    as (n & r & w' & Hrun & Hn & Hfs & Hrt & Hclock & Htrace & Hbound & Hidle).
  unfold check_deployment_status, try_except.
  unfold bind at 1. unfold now at 1. unfold bind at 1. rewrite Hrun.
  assert (Hwait : n <> 0%nat -> 3 * (Z.of_nat n - 1) < max_wait).
  { intros Hpos. specialize (Hbound Hpos). lia. }
  destruct r as [[st|]|e]; unfold ret.
  - exists st, w', n. repeat split; try assumption.
    intros H0. now apply (Hidle H0).
  - exists UNKNOWN, w', n. now repeat split.
  - exists UNKNOWN, w', n. now repeat split.
Qed.

Lemma scan_logs_failed (model_id logs : string) :
  scan_logs model_id logs = Some FAILED
  <-> Str.contains (success_marker model_id) logs = false
      /\ Str.contains ("Model " ++ model_id) logs = true
      /\ Str.contains "FAILED" logs = true.
Proof.
  unfold scan_logs, success_marker.
  destruct (Str.contains ("Model " ++ model_id ++ " is RUNNING") logs).
  - split; [discriminate|]. now intros [? _].
  - destruct (Str.contains ("Model " ++ model_id) logs);
      destruct (Str.contains "FAILED" logs); cbn [andb];
      (split; [try discriminate; now intros _|]);
      try reflexivity; intros (_ & ? & ?); discriminate.
Qed.

(** X21.  The answer is FAILED exactly when the first fetch that decides
    anything is a failure one: a text without the success marker that
    mentions the model and holds [FAILED] somewhere, after fetches that
    decide nothing. *)
Theorem poller_failed_iff
        (model_id : string) (max_wait : Z) (texts : nat -> string) (w0 : World) :
  let w := with_logs texts w0 in
  exists st w',
    check_deployment_status model_id max_wait w = (Ok st, w') /\
    let n := (nlogs w' - nlogs w)%nat in
    (st = FAILED <->
     exists k,
       (k < n)%nat
       /\ (forall i, (i < k)%nat -> scan_logs model_id (fetched w i) = None)
       /\ Str.contains (success_marker model_id) (fetched w k) = false
       /\ Str.contains ("Model " ++ model_id) (fetched w k) = true
       /\ Str.contains "FAILED" (fetched w k) = true).
Proof.
  intros w.
  destruct (check_deployment_status_run model_id max_wait w)
    as (n & st & w' & Hrun & Hn & _ & Hcase); [discriminate|].
  exists st, w'. split; [exact Hrun|]. cbv zeta.
  replace (nlogs w' - nlogs w)%nat with n by lia.
  split.
  - intros ->.
    destruct Hcase as [(Hst & _)|(k & -> & Hnone & Hhit & _)]; [discriminate|].
    exists k. split; [lia|]. split; [exact Hnone|].
    now apply scan_logs_failed.
  - intros (k & Hk & Hnone & Hfail). apply scan_logs_failed in Hfail.
    destruct Hcase as [(_ & Hall & _)|(k' & -> & Hnone' & Hhit & _)].
    + rewrite (Hall k Hk) in Hfail. discriminate.
    + destruct (Nat.eq_dec k k') as [->|Hne].
      * rewrite Hhit in Hfail. now inversion Hfail.
      * rewrite (Hnone' k ltac:(lia)) in Hfail. discriminate.
Qed.

(** ** The validator and the run as a whole *)

(** X12.  The validator accepts a path exactly when it is a file named [.py]
    or [.ipynb] whose text holds both [Tracker] and [predict]. *)
Theorem validator_accepts_iff (model_path : path) (w : World) :
  (exists message w1,
      validate_model_file model_path w = (Ok (true, message), w1))
  <->
  (exists content,
      fs w model_path = Some (File content)
      /\ (suffix model_path = ".py" \/ suffix model_path = ".ipynb")
      /\ Str.contains "Tracker" content = true
      /\ Str.contains "predict" content = true).
Proof.
  assert (Hsuffix : existsb (String.eqb (suffix model_path)) [".py"; ".ipynb"] = true
                    <-> suffix model_path = ".py" \/ suffix model_path = ".ipynb").
  { cbn [existsb]. rewrite orb_false_r, orb_true_iff, !String.eqb_eq. tauto. }
  unfold validate_model_file. unfold bind at 1. unfold path_exists at 1.
  destruct (fs w model_path) as [[content|]|] eqn:E; cbn [negb].
  - destruct (existsb _ _) eqn:Es; cbn [negb].
    + erewrite bind_ok by (apply read_text_run; exact E).
      rewrite !contains_universal_newlines by (reflexivity || discriminate).
      destruct (Str.contains "Tracker" content) eqn:Et;
        destruct (Str.contains "predict" content) eqn:Ep; cbn [negb orb]; unfold ret.
      * split; [intros _|intros _; now eexists _, _].
        exists content. split; [reflexivity|]. split; [now apply Hsuffix|].
        now split.
      * split; [intros (m & w1 & [=])|intros (c & [= <-] & _ & _ & H); congruence].
      * split; [intros (m & w1 & [=])|intros (c & [= <-] & _ & H & _); congruence].
      * split; [intros (m & w1 & [=])|intros (c & [= <-] & _ & H & _); congruence].
    + unfold ret. split; [intros (m & w1 & [=])|].
      intros (c & _ & Hs & _). apply Hsuffix in Hs. congruence.
  - destruct (existsb _ _) eqn:Es; cbn [negb].
    + split; [|intros (c & [=] & _)].
      intros (m & w1 & H).
      erewrite bind_raise in H by (apply read_text_directory; exact E).
      discriminate H.
    + unfold ret. split; [intros (m & w1 & [=])|intros (c & [=] & _)].
  - unfold ret. split; [intros (m & w1 & [=])|intros (c & [=] & _)].
Qed.

(** The validator either returns or meets a directory it cannot read. *)
Lemma validate_outcome (model_path : path) (w : World) :
  ((exists r w1, validate_model_file model_path w = (Ok r, w1))
   /\ ~ (fs w model_path = Some Dir
         /\ existsb (String.eqb (suffix model_path)) [".py"; ".ipynb"] = true))
  \/ (fs w model_path = Some Dir
      /\ existsb (String.eqb (suffix model_path)) [".py"; ".ipynb"] = true
      /\ validate_model_file model_path w = (Raise IsADirectoryError, w)).
Proof.
  destruct (fs w model_path) as [[content|]|] eqn:E;
    [left|destruct (existsb (String.eqb (suffix model_path)) [".py"; ".ipynb"]) eqn:Es;
          [right|left]|left].
  2:{ split; [reflexivity|]. split; [reflexivity|].
      unfold validate_model_file. unfold bind at 1. unfold path_exists at 1.
      rewrite E, Es. cbn [negb].
      apply bind_raise. now apply read_text_directory. }
  all: (split; [|intros [? ?]; congruence]).
  all: unfold validate_model_file; unfold bind at 1; unfold path_exists at 1;
    rewrite E; cbn [negb].
  - destruct (existsb _ _); cbn [negb]; [|eexists _, _; reflexivity].
    erewrite bind_ok by (apply read_text_run; exact E).
    destruct (negb _ || negb _); eexists _, _; reflexivity.
  - rewrite Es. eexists _, _; reflexivity.
  - eexists _, _; reflexivity.
Qed.

Lemma validate_offline (model_path : path) : keeps offline (validate_model_file model_path).
Proof.
  intros w. pose proof (validate_model_file_frame model_path w) as H.
  destruct (validate_model_file model_path w) as [r w1].
  destruct H as (Hc & Hf & Hr & Hn & Ht). cbn [snd].
  repeat split; try assumption.
  destruct Ht as [->| ->]; [exists []; now rewrite app_nil_r|].
  now exists [EvRead model_path].
Qed.

Lemma validate_keeps_files (model_path : path) :
  keeps (fun w w' => fs w' = fs w) (validate_model_file model_path).
Proof.
  intros w. pose proof (validate_model_file_frame model_path w) as H.
  destruct (validate_model_file model_path w) as [r w1].
  now destruct H as (_ & Hf & _).
Qed.

Lemma trigger_outcome (w : World) :
  match restart_rc (runtime w) with
  | None => trigger_deployment w = (Raise FileNotFoundError, w)
  | Some rc =>
      exists w', trigger_deployment w = (Ok (rc =? 0), w')
                 /\ fs w' = fs w /\ runtime w' = runtime w
  end.
Proof.
  unfold trigger_deployment.
  destruct (restart_rc (runtime w)) as [rc|] eqn:E.
  - pose proof (run_restart_run w rc E) as Hrun.
    destruct (rc =? 0).
    + eexists. split.
      * apply try_ok. erewrite bind_ok by exact Hrun.
        erewrite bind_ok by apply sleep_run. reflexivity.
      * split; reflexivity.
    + eexists. split.
      * erewrite try_raise by (apply bind_raise; exact Hrun). reflexivity.
      * split; reflexivity.
  - erewrite try_raise.
    2:{ apply bind_raise. unfold run_restart. rewrite E. reflexivity. }
    reflexivity.
Qed.

Lemma trigger_keeps_files : keeps (fun w w' => fs w' = fs w) trigger_deployment.
Proof.
  intros w. pose proof (trigger_outcome w) as H.
  destruct (restart_rc (runtime w)); [|now rewrite H].
  destruct H as (w' & -> & Hfs & _). exact Hfs.
Qed.

Lemma check_keeps_files (model_id : string) (max_wait : Z) :
  keeps (fun w w' => fs w' = fs w) (check_deployment_status model_id max_wait).
Proof.
  intros w.
  destruct (poll_loop_passes model_id max_wait (clock w) (poll_fuel max_wait) w)
    as (n & r & w' & Hrun & _ & Hfs & _).
  unfold check_deployment_status, try_except.
  unfold bind at 1. unfold now at 1. unfold bind at 1. rewrite Hrun.
  now destruct r as [[st|]|e].
Qed.

Section WholeRun.

Variable here : path.
Variable parse_args : list string -> parsed.
Variable json_load : string -> option value.
Variable yaml_safe_load : string -> option document.
Variable yaml_dump : document -> string.

Local Abbreviation run_main := (main here parse_args json_load yaml_safe_load yaml_dump).
Local Abbreviation run_exit :=
  (exit_code here parse_args json_load yaml_safe_load yaml_dump).
Local Abbreviation run_submit := (submit here json_load yaml_safe_load yaml_dump).
Local Abbreviation create := (create_submission_structure here json_load).
Local Abbreviation update := (update_models_config here yaml_safe_load yaml_dump).
Local Abbreviation base := (SUBMISSION_BASE here).
Local Abbreviation registry := (MODELS_CONFIG here).

(** The run, stage by stage, with the worlds. *)
Lemma submit_stages (args : Args) (w : World) :
  run_submit args w =
  match validate_model_file (model_file args) w with
  | (Ok (true, _), w1) =>
      match create (model_file args) (submission_name_of args w) w1 with
      | (Ok _, w2) =>
          match update (submission_name_of args w) (model_id_of w) w2 with
          | (Ok true, w3) =>
              if no_deploy args then (Ok 0, w3)
              else
                match trigger_deployment w3 with
                | (Ok true, w4) =>
                    match check_deployment_status (model_id_of w)
                                                  default_max_wait w4 with
                    | (Ok RUNNING, w5) => (Ok 0, w5)
                    | (_, w5) => (Ok 1, w5)
                    end
                | (_, w4) => (Ok 1, w4)
                end
          | (_, w3) => (Ok 1, w3)
          end
      | (Raise _, w2) => (Ok 1, w2)
      end
  | (Ok (false, _), w1) => (Ok 1, w1)
  | (Raise e, w1) => (Raise e, w1)
  end.
Proof.
  unfold submit.
  pose proof (validate_model_file_frame (model_file args) w) as Hframe.
  unfold bind at 1.
  destruct (validate_model_file (model_file args) w) as [[[valid message]|e] w1];
    [|reflexivity].
  destruct Hframe as (Hclock & _).
  destruct valid; [|reflexivity]. cbn [negb].
  unfold bind at 1. unfold now at 1. unfold bind at 1. unfold now at 1.
  unfold submission_name_of, model_id_of. rewrite Hclock.
  unfold try_except. unfold bind at 1.
  destruct (create_submission_structure _ _ _ _ w1) as [[dir|e] w2];
    [|reflexivity].
  unfold bind at 1.
  destruct (update_models_config _ _ _ _ _ w2) as [[[|]|e] w3];
    try reflexivity.
  cbn [negb]. destruct (no_deploy args); [reflexivity|].
  unfold bind at 1.
  destruct (trigger_deployment w3) as [[[|]|e] w4];
    try reflexivity.
  cbn [negb]. unfold bind at 1.
  destruct (check_deployment_status _ _ w4) as [[[| |]|e] w5];
    reflexivity.
Qed.

Lemma main_parsed (argv : list string) (args : Args) (w : World) :
  parse_args argv = Parsed args ->
  snd (run_main argv w) = snd (run_submit args w).
Proof.
  intros Hparse. unfold main. rewrite Hparse.
  now destruct (submit _ _ _ _ args w) as [[code|e] w'].
Qed.

Lemma update_offline (submission_name model_id : string) :
  keeps offline (update submission_name model_id).
Proof.
  intros w.
  destruct (update_models_config_outcome here yaml_safe_load yaml_dump
              submission_name model_id w)
    as [(text & config & config' & _ & _ & _ & ->)|[->| ->]]; cbn [snd].
  - apply (offline_trans w (after_read registry w)); now apply offline_mutated.
  - apply offline_refl.
  - now apply offline_mutated.
Qed.

(** The first three stages run no process and let no time pass. *)
Lemma stages_offline (args : Args) (w : World) :
  let w1 := snd (validate_model_file (model_file args) w) in
  let w2 := snd (create (model_file args) (submission_name_of args w) w1) in
  let w3 := snd (update (submission_name_of args w) (model_id_of w) w2) in
  offline w w1 /\ offline w w2 /\ offline w w3.
Proof.
  intros w1 w2 w3.
  assert (H1 : offline w w1) by apply validate_offline.
  assert (H2 : offline w w2).
  { apply (offline_trans w w1 w2 H1). apply create_offline. }
  assert (H3 : offline w w3).
  { apply (offline_trans w w2 w3 H2). apply update_offline. }
  exact (conj H1 (conj H2 H3)).
Qed.

(** X13.  A model file that the validator rejects ends the run with status 1
    before anything is made: the file system is as it was, and no more
    has happened than the reading of the model file. *)
Theorem rejected_model_changes_nothing
        (argv : list string) (args : Args) (w w1 : World) (message : string) :
  parse_args argv = Parsed args ->
  validate_model_file (model_file args) w = (Ok (false, message), w1) ->
  run_main argv w = (Returns 1, w1)
  /\ fs w1 = fs w
  /\ clock w1 = clock w
  /\ (trace w1 = trace w \/ trace w1 = trace w ++ [EvRead (model_file args)]).
Proof.
  intros Hparse Hv. unfold main. rewrite Hparse, submit_stages, Hv.
  pose proof (validate_model_file_frame (model_file args) w) as Hframe.
  rewrite Hv in Hframe. destruct Hframe as (Hc & Hf & _ & _ & Ht).
  now repeat split.
Qed.

(** X14.  Among the exceptions of this development (a file system in
    which every file is a readable text) one only leaves [main], and in
    one case: the model file is a directory with the name of a script or
    a notebook, which the validator tries to read before any [try] is
    entered.  Nothing has been changed then. *)
Theorem only_a_directory_escapes_main
        (argv : list string) (args : Args) (w : World) (e : exn) :
  parse_args argv = Parsed args ->
  (exists w', run_main argv w = (Uncaught e, w'))
  <->
  (fs w (model_file args) = Some Dir
   /\ (suffix (model_file args) = ".py" \/ suffix (model_file args) = ".ipynb")
   /\ e = IsADirectoryError
   /\ run_main argv w = (Uncaught IsADirectoryError, w)).
Proof.
  intros Hparse.
  assert (Hsuffix : existsb (String.eqb (suffix (model_file args))) [".py"; ".ipynb"]
                    = true
                    <-> suffix (model_file args) = ".py"
                        \/ suffix (model_file args) = ".ipynb").
  { cbn [existsb]. rewrite orb_false_r, orb_true_iff, !String.eqb_eq. tauto. }
  unfold main. rewrite Hparse, submit_stages.
  destruct (validate_outcome (model_file args) w)
    as [((r & w1 & Hv) & Hnot)|(Hdir & Hs & Hv)]; rewrite Hv.
  - split.
    + intros (w' & H). exfalso. revert H.
      destruct r as [[|] message]; [|discriminate].
      destruct (create _ _ w1) as [[dir|e1] w2]; [|discriminate].
      destruct (update _ _ w2) as [[[|]|e2] w3]; try discriminate.
      destruct (no_deploy args); [discriminate|].
      destruct (trigger_deployment w3) as [[[|]|e3] w4]; try discriminate.
      destruct (check_deployment_status _ _ w4) as [[[| |]|e4] w5]; discriminate.
    + intros (Hdir & Hs & _). destruct Hnot. split; [exact Hdir|].
      now apply Hsuffix.
  - split.
    + intros (w' & [= <- <-]). repeat split; [exact Hdir|now apply Hsuffix].
    + intros (_ & _ & -> & _). now exists w.
Qed.

(** X15.  With [--no-deploy] the run starts no process and never waits: the
    clock is where it was, the logs were not fetched, and all that has
    happened is reading and writing files. *)
Theorem no_deploy_runs_offline (argv : list string) (args : Args) (w : World) :
  parse_args argv = Parsed args ->
  no_deploy args = true ->
  let w' := snd (run_main argv w) in
  clock w' = clock w
  /\ nlogs w' = nlogs w
  /\ runtime w' = runtime w
  /\ exists evs, trace w' = trace w ++ evs /\ forallb file_event evs = true.
Proof.
  intros Hparse Hflag w'. subst w'. change (offline w (snd (run_main argv w))).
  rewrite (main_parsed argv args w Hparse), submit_stages, Hflag.
  pose proof (stages_offline args w) as H. cbv zeta in H.
  destruct (validate_model_file (model_file args) w) as [[[[|] message]|e] w1];
    cbn [snd] in *; try apply H.
  destruct (create _ _ w1) as [[dir|e1] w2]; cbn [snd] in *; try apply H.
  destruct (update _ _ w2) as [[[|]|e2] w3]; cbn [snd] in *; apply H.
Qed.

(** X16.  Where the container runtime cannot be started, a run that is to
    deploy ends with status 1, and it has started no process and has not
    waited: the submission may be made and registered, but it is never
    deployed. *)
Theorem without_docker_nothing_is_deployed
        (argv : list string) (args : Args) (w : World) :
  parse_args argv = Parsed args ->
  no_deploy args = false ->
  restart_rc (runtime w) = None ->
  let w' := snd (run_main argv w) in
  run_exit argv w = 1
  /\ clock w' = clock w
  /\ nlogs w' = nlogs w
  /\ exists evs, trace w' = trace w ++ evs /\ forallb file_event evs = true.
Proof.
  intros Hparse Hflag Hdocker w'. subst w'.
  assert (Hgoal : run_exit argv w = 1 /\ offline w (snd (run_main argv w))).
  { unfold exit_code. rewrite (main_parsed argv args w Hparse).
    unfold main. rewrite Hparse, submit_stages, Hflag.
    pose proof (stages_offline args w) as H. cbv zeta in H.
    destruct (validate_model_file (model_file args) w) as [[[[|] message]|e] w1];
      cbn [snd] in *; try (split; [reflexivity|apply H]).
    destruct (create _ _ w1) as [[dir|e1] w2];
      cbn [snd] in *; try (split; [reflexivity|apply H]).
    destruct (update _ _ w2) as [[[|]|e2] w3];
      cbn [snd] in *; try (split; [reflexivity|apply H]).
    destruct H as (_ & _ & H3).
    pose proof (trigger_outcome w3) as Ht.
    assert (Hrt : runtime w3 = runtime w) by apply H3.
    rewrite Hrt, Hdocker in Ht. rewrite Ht. cbn [fst snd].
    split; [reflexivity|exact H3]. }
  destruct Hgoal as (Hexit & Hc & Hn & _ & Ht). now repeat split.
Qed.

Lemma update_confined (inside : path -> bool) (dir : path)
      (submission_name model_id : string) :
  inside registry = true ->
  keeps (confined inside dir) (update submission_name model_id).
Proof.
  intros Hin w.
  destruct (update_models_config_outcome here yaml_safe_load yaml_dump
              submission_name model_id w)
    as [(text & config & config' & _ & _ & _ & ->)|[->| ->]]; cbn [snd].
  - intros p Hp. cbn [mutated fs after_read]. unfold fs_write.
    destruct (path_eqb p registry) eqn:E.
    + apply path_eqb_eq in E. congruence.
    + destruct (fs w p); auto.
  - apply confined_refl.
  - now apply confined_same_fs.
Qed.

(** A relation that every stage keeps holds between the start and the
    end of the run. *)
Lemma submit_keeps (R : World -> World -> Prop) (args : Args) (w : World) :
  (forall w, R w w) ->
  (forall w1 w2 w3, R w1 w2 -> R w2 w3 -> R w1 w3) ->
  keeps R (validate_model_file (model_file args)) ->
  keeps R (create (model_file args) (submission_name_of args w)) ->
  keeps R (update (submission_name_of args w) (model_id_of w)) ->
  keeps R trigger_deployment ->
  keeps R (check_deployment_status (model_id_of w) default_max_wait) ->
  R w (snd (run_submit args w)).
Proof.
  intros Hrefl Htrans Hv Hc Hu Ht Hs. rewrite submit_stages.
  specialize (Hv w).
  destruct (validate_model_file (model_file args) w) as [[[[|] message]|e] w1];
    cbn [snd] in *; try exact Hv.
  specialize (Hc w1).
  destruct (create _ _ w1) as [[dir|e1] w2]; cbn [snd] in *;
    pose proof (Htrans _ _ _ Hv Hc) as H2; try exact H2.
  specialize (Hu w2).
  destruct (update _ _ w2) as [[[|]|e2] w3]; cbn [snd] in *;
    pose proof (Htrans _ _ _ H2 Hu) as H3; try exact H3.
  destruct (no_deploy args); [exact H3|].
  specialize (Ht w3).
  destruct (trigger_deployment w3) as [[[|]|e3] w4]; cbn [snd] in *;
    pose proof (Htrans _ _ _ H3 Ht) as H4; try exact H4.
  specialize (Hs w4).
  destruct (check_deployment_status _ _ w4) as [[[| |]|e4] w5]; cbn [snd] in *;
    exact (Htrans _ _ _ H4 Hs).
Qed.

(** X17.  The footprint of the script on the file system.  However the run
    ends, what existed outside the submission directory is as it was,
    the registry file apart; and nothing was made outside of it but
    missing directories on the way to it. *)
Theorem main_changes_only_submission_and_registry
        (argv : list string) (args : Args) (w : World) :
  parse_args argv = Parsed args ->
  let dir := joinpath base (submission_name_of args w) in
  let w' := snd (run_main argv w) in
  (forall p n, is_prefix dir p = false -> p <> registry ->
               fs w p = Some n -> fs w' p = Some n)
  /\ (forall p, is_prefix dir p = false -> p <> registry -> fs w p = None ->
                fs w' p = None \/ (is_prefix p dir = true /\ fs w' p = Some Dir)).
Proof.
  intros Hparse dir w'. subst w'. rewrite (main_parsed argv args w Hparse).
  set (inside := fun p => is_prefix dir p || path_eqb p registry).
  assert (Hfiles : forall A (m : M A),
             keeps (fun w w' => fs w' = fs w) m -> keeps (confined inside dir) m).
  { intros A m Hm w0. apply confined_same_fs, Hm. }
  assert (Hconf : confined inside dir w (snd (run_submit args w))).
  { apply submit_keeps.
    - apply confined_refl.
    - apply confined_trans.
    - apply Hfiles, validate_keeps_files.
    - apply create_confined. intros q Hq. unfold inside, dir. now rewrite Hq.
    - apply update_confined. unfold inside. rewrite path_eqb_refl.
      apply orb_true_r.
    - apply Hfiles, trigger_keeps_files.
    - apply Hfiles, check_keeps_files. }
  assert (Hout : forall p, is_prefix dir p = false -> p <> registry ->
                           inside p = false).
  { intros p Hp Hr. unfold inside. rewrite Hp.
    destruct (path_eqb p registry) eqn:E; [|reflexivity].
    now apply path_eqb_eq in E. }
  split.
  - intros p n Hp Hr Hn. specialize (Hconf p (Hout p Hp Hr)).
    now rewrite Hn in Hconf.
  - intros p Hp Hr Hn. specialize (Hconf p (Hout p Hp Hr)).
    now rewrite Hn in Hconf.
Qed.

End WholeRun.

(** ** The text of the entry point *)

Lemma prefix_before (c : ascii) (n a b : string) :
  all_chars (fun x => negb (Ascii.eqb x c)) n = true ->
  String.prefix n (a ++ String c b) = String.prefix n a.
Proof.
  revert a. induction n as [|y n IH]; intros a Hn; [now destruct a|].
  cbn [all_chars] in Hn. apply andb_true_iff in Hn as [Hy Hn].
  destruct a as [|x a].
  - cbn [String.append]. rewrite prefix_cons.
    destruct (ascii_dec y c) as [->|_]; [|reflexivity].
    now rewrite Ascii.eqb_refl in Hy.
  - cbn [String.append]. rewrite !prefix_cons.
    destruct (ascii_dec y x); [now apply IH|reflexivity].
Qed.

(** A text without the character [c] occurs around a [c] only on one of
    its sides. *)
Lemma contains_around (c : ascii) (n a b : string) :
  all_chars (fun x => negb (Ascii.eqb x c)) n = true ->
  n <> EmptyString ->
  Str.contains n (a ++ String c b) = Str.contains n a || Str.contains n b.
Proof.
  intros Hn Hne. induction a as [|x a IH].
  - cbn [String.append]. rewrite (contains_nil_r n Hne). cbn [orb Str.contains].
    change (String c b) with (EmptyString ++ String c b)%string at 1.
    rewrite (prefix_before c n "" b Hn).
    destruct n; [congruence|reflexivity].
  - cbn [String.append Str.contains].
    change (String x (a ++ String c b)%string) with (String x a ++ String c b)%string.
    rewrite (prefix_before c n (String x a) b Hn), IH.
    now rewrite orb_assoc.
Qed.

Lemma contains_joined (n : string) (cells : list string) :
  all_chars (fun x => negb (Ascii.eqb x "010")) n = true ->
  n <> EmptyString ->
  Str.contains n (Str.join (nl ++ nl) cells) = existsb (Str.contains n) cells.
Proof.
  intros Hn Hne. unfold Str.join. induction cells as [|x [|y rest] IH].
  - cbn. now apply contains_nil_r.
  - cbn. now rewrite orb_false_r.
  - change (String.concat (nl ++ nl) (x :: y :: rest))
      with (x ++ String "010" (String "010" (String.concat (nl ++ nl) (y :: rest))))%string.
    rewrite (contains_around "010" n x _ Hn Hne).
    change (String "010" (String.concat (nl ++ nl) (y :: rest)))
      with (EmptyString ++ String "010" (String.concat (nl ++ nl) (y :: rest)))%string.
    rewrite (contains_around "010" n "" _ Hn Hne), IH.
    rewrite (contains_nil_r n Hne). reflexivity.
Qed.

Lemma extract_loop_clean (cells : list value) (code_cells out : list string) :
  forallb (fun code => negb (skipped code)) code_cells = true ->
  extract_loop cells code_cells = Ok out ->
  forallb (fun code => negb (skipped code)) out = true.
Proof.
  revert code_cells. induction cells as [|cell rest IH]; intros code_cells Hacc Hrun.
  - cbn in Hrun. now inversion Hrun; subst.
  - cbn [extract_loop] in Hrun.
    destruct (cell_code cell) as [[code|]|e]; cbn [rbind] in Hrun;
      [|now apply (IH code_cells)|discriminate].
    destruct (skipped code) eqn:Es; [now apply (IH code_cells)|].
    apply (IH (code_cells ++ [code])); [|exact Hrun].
    rewrite forallb_app, Hacc. cbn. now rewrite Es.
Qed.

(** X18.  The text the Extractor returns holds none of the three marks of a
    cell to leave out: a mark cannot arise where two cells are joined. *)
Theorem extracted_code_has_no_marks (notebook : value) (code : string) :
  extract_code notebook = Ok code ->
  Str.contains "test_model_locally" code = false
  /\ Str.contains "pip install" code = false
  /\ Str.contains "# Test" code = false.
Proof.
  unfold extract_code. intros Hrun.
  destruct (Py.get notebook "cells" (PList [])) as [cells_v|]; [|discriminate].
  cbn [rbind] in Hrun.
  destruct (Py.iter cells_v) as [cells|]; [|discriminate]. cbn [rbind] in Hrun.
  destruct (extract_loop cells []) as [code_cells|] eqn:Eloop; [|discriminate].
  cbn [rbind] in Hrun. inversion Hrun; subst code. clear Hrun.
  pose proof (extract_loop_clean cells [] code_cells eq_refl Eloop) as Hclean.
  assert (Hnone : forall mark,
             (forall c, Str.contains mark c = true -> skipped c = true) ->
             existsb (Str.contains mark) code_cells = false).
  { intros mark Hmark. destruct (existsb _ code_cells) eqn:E; [|reflexivity].
    apply existsb_exists in E as (c & Hin & Hc).
    rewrite forallb_forall in Hclean. specialize (Hclean c Hin).
    now rewrite (Hmark c Hc) in Hclean. }
  repeat split; (rewrite contains_joined; [apply Hnone|reflexivity|discriminate]);
    intros c Hc; unfold skipped; rewrite Hc; now rewrite ?orb_true_r.
Qed.

(** *** Lines *)

Lemma split_app_line (line rest : string) :
  all_chars not_newline line = true ->
  lines_of (line ++ String "010" rest) = line :: lines_of rest.
Proof.
  unfold lines_of. induction line as [|x line IH]; intros H; [reflexivity|].
  cbn [all_chars] in H. apply andb_true_iff in H as [Hx H].
  unfold not_newline, is_newline in Hx. apply negb_true_iff in Hx.
  cbn [String.append Str.split]. now rewrite Hx, (IH H).
Qed.

Lemma split_line (line : string) :
  all_chars not_newline line = true -> lines_of line = [line].
Proof.
  unfold lines_of. induction line as [|x line IH]; intros H; [reflexivity|].
  cbn [all_chars] in H. apply andb_true_iff in H as [Hx H].
  unfold not_newline, is_newline in Hx. apply negb_true_iff in Hx.
  cbn [Str.split]. now rewrite Hx, (IH H).
Qed.

Lemma lines_have_no_newline (text : string) :
  forallb (all_chars not_newline) (lines_of text) = true.
Proof.
  unfold lines_of. induction text as [|c r IH]; [reflexivity|].
  cbn [Str.split]. destruct (Ascii.eqb c "010") eqn:E; [exact IH|].
  destruct (Str.split "010" r) as [|w ws]; cbn [forallb all_chars] in *.
  - unfold not_newline, is_newline. now rewrite E.
  - unfold not_newline at 1, is_newline. now rewrite E.
Qed.

(** Splitting what was joined gives the lines back. *)
Lemma split_join (lines : list string) :
  lines <> [] ->
  forallb (all_chars not_newline) lines = true ->
  lines_of (Str.join nl lines) = lines.
Proof.
  unfold Str.join. induction lines as [|x [|y rest] IH]; intros Hne H.
  - congruence.
  - cbn in H. rewrite andb_true_r in H. now apply split_line.
  - cbn [forallb] in H. apply andb_true_iff in H as [Hx H].
    change (String.concat nl (x :: y :: rest))
      with (x ++ String "010" (String.concat nl (y :: rest)))%string.
    rewrite (split_app_line _ _ Hx). f_equal. apply IH; [discriminate|exact H].
Qed.

Lemma find_main_block_spec (lines : list string) (i : nat) :
  match find_main_block lines i with
  | Some j =>
      exists k, j = (i + k)%nat /\ (k < List.length lines)%nat
                /\ forallb (fun l => negb (entry_guard l)) (firstn k lines) = true
  | None => forallb (fun l => negb (entry_guard l)) lines = true
  end.
Proof.
  revert i. induction lines as [|line rest IH]; intros i; [reflexivity|].
  cbn [find_main_block]. fold (entry_guard line).
  destruct (entry_guard line) eqn:E.
  - exists O. rewrite Nat.add_0_r. cbn. split; [reflexivity|]. split; [lia|reflexivity].
  - specialize (IH (S i)). destruct (find_main_block rest (S i)) as [j|].
    + destruct IH as (k & -> & Hk & Hfirst). exists (S k).
      split; [lia|]. split; [cbn; lia|]. cbn [firstn forallb]. now rewrite E.
    + cbn [forallb]. now rewrite E.
Qed.

(** The lines of [main.py], as [split] gives them, open no entry
    block. *)
Lemma prepared_lines_open_no_block (code line : string) :
  In line (lines_of (prepare_code code)) -> entry_guard line = false.
Proof.
  unfold prepare_code.
  set (code1 := if negb (Str.contains canonical_import code) then _ else code).
  set (code2 := match _ ++ _ with [] => code1 | _ => _ end).
  fold (lines_of code2).
  pose proof (find_main_block_spec (lines_of code2) O) as Hspec.
  pose proof (lines_have_no_newline code2) as Hlines.
  destruct (find_main_block (lines_of code2) O) as [j|].
  - destruct Hspec as (k & -> & Hk & Hfirst). cbn [Nat.add].
    destruct k as [|k].
    + cbn. intros [<-|[]]. reflexivity.
    + rewrite split_join.
      * intros Hin. rewrite forallb_forall in Hfirst.
        apply negb_true_iff. now apply Hfirst.
      * destruct (lines_of code2); [cbn in Hk; lia|discriminate].
      * rewrite forallb_forall in *. intros l Hl. apply Hlines.
        rewrite <- (firstn_skipn (S k) (lines_of code2)). apply in_or_app. now left.
  - intros Hin. rewrite forallb_forall in Hspec. apply negb_true_iff.
    now apply Hspec.
Qed.

(** *** Carriage returns *)

(** A text without a carriage return is read as it is stored. *)
Lemma universal_newlines_plain (s : string) :
  all_chars not_cr s = true -> Str.universal_newlines s = s.
Proof.
  induction s as [|c r IH]; [reflexivity|].
  cbn [all_chars]. intros [Hc Hr]%andb_true_iff. cbn [Str.universal_newlines].
  unfold not_cr in Hc. apply negb_true_iff in Hc. rewrite Hc.
  now rewrite (IH Hr).
Qed.

(** No carriage return is left in a text that was read. *)
Lemma universal_newlines_no_cr (s : string) :
  all_chars not_cr (Str.universal_newlines s) = true.
Proof.
  assert (H : all_chars not_cr (Str.universal_newlines s) = true
              /\ forall c, all_chars not_cr (Str.universal_newlines (String c s))
                           = true).
  { induction s as [|c' r' [IH1 IH2]].
    - split; [reflexivity|]. intros c. cbn [Str.universal_newlines].
      destruct (Ascii.eqb c "013") eqn:E; [reflexivity|].
      cbn [all_chars]. unfold not_cr. now rewrite E.
    - split; [apply IH2|]. intros c.
      change (Str.universal_newlines (String c (String c' r')))
        with (if Ascii.eqb c "013"
              then String "010" (if Ascii.eqb c' "010"
                                 then Str.universal_newlines r'
                                 else Str.universal_newlines (String c' r'))
              else String c (Str.universal_newlines (String c' r'))).
      destruct (Ascii.eqb c "013") eqn:E.
      + cbn [all_chars]. destruct (Ascii.eqb c' "010"); [exact IH1|apply IH2].
      + cbn [all_chars]. unfold not_cr at 1. rewrite E. apply IH2. }
  apply H.
Qed.

Lemma all_chars_replace_from (p : ascii -> bool) (skip : nat) (old new s : string) :
  all_chars p new = true -> all_chars p s = true ->
  all_chars p (Str.replace_from skip old new s) = true.
Proof.
  intros Hnew. revert skip. induction s as [|c r IH]; intros skip; [reflexivity|].
  cbn [all_chars]. intros [Hc Hr]%andb_true_iff. cbn [Str.replace_from].
  destruct skip as [|k]; [|now apply IH].
  destruct (String.prefix old (String c r)).
  - rewrite all_chars_app, Hnew. now apply IH.
  - cbn [all_chars]. rewrite Hc. now apply IH.
Qed.

Lemma all_chars_split (p : ascii -> bool) (sep : ascii) (s : string) :
  all_chars p s = true -> forallb (all_chars p) (Str.split sep s) = true.
Proof.
  induction s as [|c r IH]; [reflexivity|].
  cbn [all_chars]. intros [Hc Hr]%andb_true_iff. specialize (IH Hr).
  cbn [Str.split]. destruct (Ascii.eqb c sep); [exact IH|].
  destruct (Str.split sep r) as [|w ws]; cbn [forallb all_chars] in *.
  - now rewrite Hc.
  - now rewrite Hc.
Qed.

Lemma all_chars_concat (p : ascii -> bool) (sep : string) (parts : list string) :
  all_chars p sep = true -> forallb (all_chars p) parts = true ->
  all_chars p (String.concat sep parts) = true.
Proof.
  intros Hsep. induction parts as [|x [|y rest] IH]; intros H.
  - reflexivity.
  - cbn in *. now rewrite andb_true_r in H.
  - cbn [forallb] in H. apply andb_true_iff in H as [Hx H].
    change (String.concat sep (x :: y :: rest))
      with (x ++ sep ++ String.concat sep (y :: rest))%string.
    rewrite !all_chars_app, Hx, Hsep. now apply IH.
Qed.

Lemma forallb_firstn {A} (f : A -> bool) (k : nat) (l : list A) :
  forallb f l = true -> forallb f (firstn k l) = true.
Proof.
  rewrite !forallb_forall. intros H x Hx. apply H.
  rewrite <- (firstn_skipn k l). apply in_or_app. now left.
Qed.

(** Preparing the code brings no carriage return into it. *)
Lemma prepare_code_no_cr (code : string) :
  all_chars not_cr code = true -> all_chars not_cr (prepare_code code) = true.
Proof.
  intros Hcode. unfold prepare_code.
  set (code1 := if negb (Str.contains canonical_import code) then _ else code).
  assert (H1 : all_chars not_cr code1 = true).
  { subst code1. destruct (negb _); [|exact Hcode].
    now apply all_chars_replace_from. }
  set (code2 := match _ ++ _ with [] => code1 | _ => _ end).
  assert (H2 : all_chars not_cr code2 = true).
  { subst code2.
    destruct (Str.contains "TrackerBase" code1
              && negb (Str.contains canonical_import code1));
      destruct (Str.contains "np." code1
                && negb (Str.contains "import numpy as np" code1));
      cbn [app]; try exact H1;
      rewrite !all_chars_app, H1; reflexivity. }
  destruct (find_main_block (Str.split "010" code2) O) as [j|]; [|exact H2].
  apply all_chars_concat; [reflexivity|].
  now apply forallb_firstn, all_chars_split.
Qed.

(** X19.  No line of the text written to [main.py] opens an entry block: the
    text is cut before the first line that, trimmed, begins with
    [if __name__], and what is kept has no such line.  This holds of the
    lines that [split] makes at the line feeds, whatever the code; it
    holds of the lines as Python reads the file, which end at a carriage
    return too, when the code has no carriage return, and so for every
    script, whose text is read with the line ends translated.  The
    source of a notebook cell can hold a carriage return, and an entry
    block that follows one is kept. *)
Theorem entry_point_has_no_entry_guard :
  (forall code line,
      In line (lines_of (prepare_code code)) -> entry_guard line = false)
  /\ (forall code line,
         all_chars not_cr code = true ->
         In line (source_lines (prepare_code code)) -> entry_guard line = false)
  /\ (forall text line,
         In line (source_lines (prepare_code (Str.universal_newlines text))) ->
         entry_guard line = false)
  /\ (exists code line,
         extract_code Cases.notebook_with_cr = Ok code
         /\ In line (source_lines (prepare_code code))
         /\ entry_guard line = true).
Proof.
  assert (Hplain : forall code line,
             all_chars not_cr code = true ->
             In line (source_lines (prepare_code code)) -> entry_guard line = false).
  { intros code line Hcode. unfold source_lines.
    rewrite (universal_newlines_plain _ (prepare_code_no_cr code Hcode)).
    apply prepared_lines_open_no_block. }
  split; [exact prepared_lines_open_no_block|]. split; [exact Hplain|]. split.
  - intros text line. apply Hplain, universal_newlines_no_cr.
  - exists Cases.cell_with_cr, "if __name__ == '__main__':".
    split; [reflexivity|]. split; [|reflexivity].
    vm_compute. right. left. reflexivity.
Qed.

Lemma replace_absent (old new s : string) :
  Str.contains old s = false -> Str.replace old new s = s.
Proof.
  unfold Str.replace. induction s as [|c r IH]; intros H; [reflexivity|].
  cbn [Str.contains] in H. apply orb_false_iff in H as [Hp Hr].
  cbn [Str.replace_from]. now rewrite Hp, (IH Hr).
Qed.

(** X20.  A model that names [TrackerBase] and imports it in neither of the
    two forms gets the import as the first line of [main.py]. *)
Theorem missing_import_comes_first (code : string) :
  Str.contains "TrackerBase" code = true ->
  Str.contains canonical_import code = false ->
  Str.contains "from btcvol import TrackerBase" code = false ->
  exists rest, lines_of (prepare_code code) = canonical_import :: rest.
Proof.
  intros Hnamed Hcanon Hshort. unfold prepare_code.
  rewrite Hcanon. cbn [negb]. rewrite (replace_absent _ _ code Hshort).
  rewrite Hnamed, Hcanon. cbn [negb andb app].
  set (numpy := if _ && _ then ["import numpy as np"] else []).
  set (code2 := (Str.join nl (canonical_import :: numpy) ++ nl ++ nl ++ nl ++ code)%string).
  assert (Hcode2 : exists tail, code2 = (canonical_import ++ String "010" tail)%string).
  { unfold code2, numpy. destruct (_ && _); eexists; cbn; reflexivity. }
  destruct Hcode2 as [tail Hcode2].
  assert (Hclean : all_chars not_newline canonical_import = true) by reflexivity.
  assert (Hlines : lines_of code2 = canonical_import :: lines_of tail).
  { rewrite Hcode2. now apply split_app_line. }
  fold (lines_of code2). rewrite Hlines.
  cbn [find_main_block].
  replace (Str.startswith "if __name__" (Str.strip canonical_import)) with false
    by reflexivity.
  pose proof (find_main_block_spec (lines_of tail) 1) as Hspec.
  pose proof (lines_have_no_newline tail) as Hnl.
  destruct (find_main_block (lines_of tail) 1) as [j|].
  - destruct Hspec as (k & -> & Hk & _). cbn [Nat.add firstn].
    exists (firstn k (lines_of tail)). apply split_join; [discriminate|].
    cbn [forallb]. rewrite Hclean. cbn [andb].
    rewrite forallb_forall in *. intros l Hl. apply Hnl.
    rewrite <- (firstn_skipn k (lines_of tail)). apply in_or_app. now left.
  - exists (lines_of tail). exact Hlines.
Qed.

(** *** Cells the Extractor cannot take *)

Lemma join_values_bad (parts : list value) :
  all_strs parts = false -> exists e, Py.join_values parts = Raise e.
Proof.
  induction parts as [|v rest IH]; [discriminate|].
  cbn [Py.join_values]. unfold all_strs in *. cbn [forallb].
  destruct v; try (intros _; now eexists).
  cbn [andb]. intros H. destruct (IH H) as [e ->]. now exists e.
Qed.

Lemma cell_code_bad (cell : value) :
  cell_ok cell = false -> exists e, cell_code cell = Raise e.
Proof.
  unfold cell_ok, cell_code, is_code_cell.
  destruct cell as [| | | | |items]; try (intros _; now eexists).
  cbn [field Py.get rbind].
  destruct (Py.lookup "cell_type" items) as [t|]; [|discriminate].
  destruct (Py.eq_str t "code"); [|discriminate].
  destruct (Py.lookup "source" items) as [[| | | |parts|]|];
    try discriminate; try (intros _; now eexists).
  intros H. destruct (join_values_bad parts H) as [e He].
  cbn [rbind]. rewrite He. now exists e.
Qed.

Lemma extract_loop_bad (cells : list value) (bad : value) :
  In bad cells -> cell_ok bad = false ->
  forall code_cells, exists e, extract_loop cells code_cells = Raise e.
Proof.
  intros Hin Hbad. induction cells as [|cell rest IH]; [destruct Hin|].
  intros code_cells. cbn [extract_loop].
  destruct (cell_code cell) as [c|e] eqn:Ec; cbn [rbind]; [|now exists e].
  destruct Hin as [->|Hin].
  { destruct (cell_code_bad bad Hbad) as [e He]. congruence. }
  destruct c as [code|]; [destruct (skipped code)|]; now apply IH.
Qed.

(** X22.  One malformed cell makes the extraction fail, wherever it
    stands and whatever the other cells hold: a cell that is no object,
    or a code cell whose source is neither a string nor a list of
    strings. *)
Theorem malformed_cell_stops_extraction
        (notebook : value) (cells : list value) (bad : value) :
  field "cells" notebook = Some (PList cells) ->
  In bad cells ->
  cell_ok bad = false ->
  exists e, extract_code notebook = Raise e.
Proof.
  intros Hcells Hin Hbad. unfold extract_code.
  destruct notebook as [| | | | |items]; try discriminate.
  cbn [field] in Hcells. cbn [Py.get rbind]. rewrite Hcells. cbn [Py.iter rbind].
  destruct (extract_loop_bad cells bad Hin Hbad []) as [e ->]. now exists e.
Qed.

(** ** The sample installation at work *)

(** The empty name is not sanitised: it gets the name made from the
    clock, where the specification's slug is empty. *)
Lemma empty_name_gets_timestamp :
  generate_submission_name (Some "") Sample.clock0 = "submission-1730000000"
  /\ slug_spec "" = ""
  /\ generate_submission_name (Some "") Sample.clock0 <> slug_spec "".
Proof. repeat split. discriminate. Qed.

(** A name with capitals, blanks and hyphens at both ends. *)
Lemma slug_of_given_name_sample :
  "--Garch / v2--" <> ""
  /\ generate_submission_name (Some "--Garch / v2--") Sample.clock0
     = slug_spec "--Garch / v2--"
  /\ generate_submission_name (Some "My Cool Model!!") Sample.clock0
     = "my-cool-model".
Proof.
  split; [discriminate|].
  apply (slug_of_given_name "--Garch / v2--" Sample.clock0). discriminate.
Defined.

(** The empty name has no character of [[a-z0-9]], and its slug is not
    empty. *)
Lemma empty_name_slug_not_empty :
  no_alnum (Str.lower "") = true
  /\ generate_submission_name (Some "") Sample.clock0 <> "".
Proof. split; [reflexivity|discriminate]. Qed.

(** The name [!!!]: the base directory is removed and made again, and
    the support library is gone with it. *)
Lemma empty_slug_targets_base_sample :
  "!!!" <> ""
  /\ no_alnum (Str.lower "!!!") = true
  /\ fs (Sample.world Sample.rt_running) (SUBMISSION_BASE Sample.here) = Some Dir
  /\ has_file_ancestor (fs (Sample.world Sample.rt_running))
                       (SUBMISSION_BASE Sample.here) = false
  /\ generate_submission_name (Some "!!!") Sample.clock0 = ""
  /\ exists w',
       create_submission_structure Sample.here Sample.json_load
         (model_file Sample.args_py) "" (Sample.world Sample.rt_running)
       = (Raise FileNotFoundError, w')
       /\ trace w' = [EvRmtree (SUBMISSION_BASE Sample.here);
                      EvMkdir (SUBMISSION_BASE Sample.here)].
Proof.
  assert (H1 : "!!!" <> "") by discriminate.
  assert (H2 : no_alnum (Str.lower "!!!") = true) by reflexivity.
  assert (H3 : fs (Sample.world Sample.rt_running) (SUBMISSION_BASE Sample.here)
               = Some Dir) by reflexivity.
  assert (H4 : has_file_ancestor (fs (Sample.world Sample.rt_running))
                                 (SUBMISSION_BASE Sample.here) = false)
    by reflexivity.
  destruct (empty_slug_targets_base Sample.here Sample.json_load "!!!"
              Sample.clock0 (model_file Sample.args_py)
              (Sample.world Sample.rt_running) H1 H2 H3 H4)
    as (Hslug & _ & w' & Hrun & Htrace & _).
  refine (conj H1 (conj H2 (conj H3 (conj H4 (conj Hslug _))))).
  exists w'. rewrite <- Hslug. split; [exact Hrun | exact Htrace].
Defined.

(** The broken notebook: the earlier submission is gone and the support
    library copied before the notebook is opened for parsing. *)
Lemma malformed_notebook_mutates_first :
  let w := Sample.world Sample.rt_running in
  let run := main Sample.here Sample.parse_args Sample.json_load
                  Sample.yaml_safe_load Sample.yaml_dump Sample.argv_broken w in
  let notebook := model_file Sample.args_broken in
  suffix notebook = ".ipynb"
  /\ fs w notebook = Some (File Sample.broken_ipynb)
  /\ Sample.json_load Sample.broken_ipynb = None
  /\ fst run = Returns 1
  /\ trace (snd run)
     = [EvRead notebook;
        EvRmtree Sample.garch_dir;
        EvMkdir Sample.garch_dir;
        EvCopytree (BTCVOL_SOURCE Sample.here) (Sample.garch_dir ++ ["btcvol"]);
        EvRead notebook]
  /\ fs w (Sample.garch_dir ++ ["main.py"]) = Some (File "# an earlier model")
  /\ fs (snd run) (Sample.garch_dir ++ ["main.py"]) = None
  /\ fs (snd run) (Sample.garch_dir ++ ["btcvol"; "tracker.py"])
     = Some (File "class TrackerBase: pass").
Proof. vm_compute. repeat split. Qed.

(** The same run, from the conditions under which the Structure Builder
    reaches the notebook. *)
Lemma malformed_notebook_aborts_sample :
  let w := Sample.world Sample.rt_running in
  let notebook := model_file Sample.args_broken in
  suffix notebook = ".ipynb"
  /\ fs w notebook = Some (File Sample.broken_ipynb)
  /\ Str.contains "Tracker" Sample.broken_ipynb = true
  /\ Str.contains "predict" Sample.broken_ipynb = true
  /\ Sample.json_load (Str.universal_newlines Sample.broken_ipynb) = None
  /\ builder_ready Sample.here (fs w) Sample.garch_dir = true
  /\ is_prefix Sample.garch_dir notebook = false
  /\ Sample.parse_args Sample.argv_broken = Parsed Sample.args_broken
  /\ fst (main Sample.here Sample.parse_args Sample.json_load
               Sample.yaml_safe_load Sample.yaml_dump Sample.argv_broken w)
     = Returns 1.
Proof.
  cbv zeta.
  assert (H1 : suffix (model_file Sample.args_broken) = ".ipynb") by reflexivity.
  assert (H2 : fs (Sample.world Sample.rt_running) (model_file Sample.args_broken)
               = Some (File Sample.broken_ipynb)) by reflexivity.
  assert (H3 : Str.contains "Tracker" Sample.broken_ipynb = true) by reflexivity.
  assert (H4 : Str.contains "predict" Sample.broken_ipynb = true) by reflexivity.
  assert (H5 : Sample.json_load (Str.universal_newlines Sample.broken_ipynb) = None)
    by reflexivity.
  assert (H6 : builder_ready Sample.here (fs (Sample.world Sample.rt_running))
                 (joinpath (SUBMISSION_BASE Sample.here)
                    (submission_name_of Sample.args_broken
                       (Sample.world Sample.rt_running))) = true)
    by reflexivity.
  assert (H7 : is_prefix
                 (joinpath (SUBMISSION_BASE Sample.here)
                    (submission_name_of Sample.args_broken
                       (Sample.world Sample.rt_running)))
                 (model_file Sample.args_broken) = false) by reflexivity.
  assert (H0 : Sample.parse_args Sample.argv_broken = Parsed Sample.args_broken)
    by reflexivity.
  destruct (malformed_notebook_aborts Sample.here Sample.parse_args
              Sample.json_load Sample.yaml_safe_load Sample.yaml_dump
              Sample.argv_broken Sample.args_broken
              (Sample.world Sample.rt_running) Sample.broken_ipynb
              H0 H1 H2 H3 H4 H5 H6 H7) as (_ & Hmain & _).
  refine (conj H1 (conj H2 (conj H3 (conj H4 (conj H5 (conj H6 (conj H7
            (conj H0 _)))))))).
  now rewrite Hmain.
Defined.

(** The restart fails: the failure is reported with no sleep after the
    command. *)
Lemma failed_restart_is_not_followed_by_wait :
  let run := trigger_deployment (Sample.world Sample.rt_restart_fails) in
  fst run = Ok false
  /\ trace (snd run) = [EvRun restart_argv]
  /\ ~ In (EvSleep 5) (trace (snd run))
  /\ clock (snd run) = Sample.clock0 + 250.
Proof.
  vm_compute. repeat split. intros [H|[]]. discriminate H.
Qed.

(** The restart succeeds: the five seconds follow the command. *)
Lemma trigger_waits_after_success_sample :
  restart_rc (runtime (Sample.world Sample.rt_running)) = Some 0
  /\ exists w',
       trigger_deployment (Sample.world Sample.rt_running) = (Ok true, w')
       /\ trace w' = [EvRun restart_argv; EvSleep 5].
Proof.
  split; [reflexivity|].
  destruct (trigger_waits_after_success (Sample.world Sample.rt_running) 0 eq_refl)
    as (w' & Hrun & Htrace & _).
  exists w'. split; [exact Hrun | exact Htrace].
Defined.

(** The poller on the sample installation: the third fetch shows the
    model running, seven seconds after the start; when the logs never
    mention the model it gives up after eighteen passes. *)
Example poller_sample_runs :
  let hit := check_deployment_status "12315" 60 (Sample.world Sample.rt_running) in
  let miss := check_deployment_status "12315" 60 (Sample.world Sample.rt_silent) in
  fst hit = Ok RUNNING
  /\ trace (snd hit) = polls 2 ++ [EvRun logs_argv]
  /\ clock (snd hit) - Sample.clock0 = 7250
  /\ fst miss = Ok UNKNOWN
  /\ trace (snd miss) = polls 18
  /\ clock (snd miss) - Sample.clock0 = 63000.
Proof. vm_compute. repeat split. Qed.

(** When [docker logs] cannot be started there is no text to look at:
    the exception is caught and the poller answers UNKNOWN at once. *)
Example poller_without_logs :
  let run := check_deployment_status "12315" 60
               (Sample.world Sample.rt_logs_unavailable) in
  fst run = Ok UNKNOWN
  /\ trace (snd run) = []
  /\ clock (snd run) = Sample.clock0.
Proof. vm_compute. repeat split. Qed.

(** Logs with a failed attempt and the success marker: RUNNING. *)
Lemma success_test_first_sample :
  0 < 60
  /\ logs_out (runtime (Sample.world Sample.rt_mixed))
              (nlogs (Sample.world Sample.rt_mixed)) = Some Sample.mixed_logs
  /\ Str.contains (success_marker "12315") Sample.mixed_logs = true
  /\ Str.contains "FAILED" Sample.mixed_logs = true
  /\ fst (check_deployment_status "12315" 60 (Sample.world Sample.rt_mixed))
     = Ok RUNNING.
Proof.
  assert (H1 : 0 < 60) by reflexivity.
  assert (H2 : logs_out (runtime (Sample.world Sample.rt_mixed))
                        (nlogs (Sample.world Sample.rt_mixed))
               = Some Sample.mixed_logs) by reflexivity.
  assert (H3 : Str.contains (success_marker "12315") Sample.mixed_logs = true)
    by reflexivity.
  split; [exact H1|]. split; [exact H2|]. split; [exact H3|].
  split; [reflexivity|].
  exact (proj2 (proj1 (success_test_first "12315" Sample.mixed_logs 60
                         (Sample.world Sample.rt_mixed) H1 H2) H3)).
Defined.

(** The sample notebook: its one cell is kept as it is. *)
Lemma extractor_keeps_model_cells_sample :
  field "cells" Sample.good_notebook
  = Some (PList [PDict [(PStr "cell_type", PStr "code");
                        (PStr "source", PList [PStr "class Tracker:";
                                               PStr " predict = None"])]])
  /\ extract_code Sample.good_notebook = Ok "class Tracker: predict = None".
Proof.
  split; [reflexivity|].
  exact (proj1 (extractor_keeps_model_cells Sample.json_load
                  Sample.good_notebook _ eq_refl eq_refl)).
Defined.

(** A registry whose two entries are one record, given by an anchor and
    an alias: the update of the first entry shows in the second, which
    the specification counts among the other records. *)
Lemma aliased_record_is_updated_too :
  let config := Sample.aliased_registry in
  let old := new_model "baseline" "12315" in
  let new := updated_items "garch" old in
  record_mappings config = Some [Some old; Some old]
  /\ exists config',
       update_config config "garch" "12315" = Ok config'
       /\ record_mappings config' = Some [Some new; Some new]
       /\ new <> old
       /\ ~ updates_one_record config config' "garch" "12315".
Proof.
  cbv zeta. split; [reflexivity|].
  eexists. split; [reflexivity|]. split; [reflexivity|].
  split; [discriminate|].
  intros (before & items & after & Hold & _ & Hnew).
  change (record_mappings Sample.aliased_registry)
    with (Some [Some (new_model "baseline" "12315");
                Some (new_model "baseline" "12315")]) in Hold.
  match type of Hnew with
  | record_mappings ?c = _ =>
      change (record_mappings c)
        with (Some [Some (updated_items "garch" (new_model "baseline" "12315"));
                    Some (updated_items "garch" (new_model "baseline" "12315"))])
        in Hnew
  end.
  destruct before as [|x [|y before]].
  - cbn [app] in *. inversion Hold; subst. discriminate Hnew.
  - cbn [app] in *. inversion Hold; subst. discriminate Hnew.
  - cbn [app] in *. inversion Hold as [[H1 H2 H3]].
    destruct before; discriminate H3.
Qed.

(** The registry with two records: the second one is updated where it
    is, and the list of the records is the same. *)
Lemma update_config_frame_sample :
  records Sample.registry = Some [YRef 2%nat; YRef 3%nat]
  /\ forallb (record_ok (objects Sample.registry)) [YRef 2%nat; YRef 3%nat] = true
  /\ exists config',
       update_config Sample.registry "garch-v2" "12316" = Ok config'
       /\ records config' = Some [YRef 2%nat; YRef 3%nat]
       /\ exists r, In r [YRef 2%nat; YRef 3%nat]
                    /\ attr (objects config') "submission_id" r
                       = Some (YStr "garch-v2").
Proof.
  assert (H1 : records Sample.registry = Some [YRef 2%nat; YRef 3%nat])
    by reflexivity.
  assert (H2 : forallb (record_ok (objects Sample.registry))
                       [YRef 2%nat; YRef 3%nat] = true) by reflexivity.
  refine (conj H1 (conj H2 _)).
  destruct (update_config_frame Sample.here Sample.yaml_safe_load Sample.yaml_dump
              Sample.registry _ "garch-v2" "12316" H1 H2)
    as (config' & Hrun & _ & _ & _ & Hupdate).
  destruct (Hupdate eq_refl) as (before & r & after & Hm & _ & _ & Hrec & Hsub & _).
  exists config'. split; [exact Hrun|]. split; [exact Hrec|].
  exists r. split; [rewrite Hm; apply in_elt|exact Hsub].
Defined.

(** The request for help: the exit status is 0, and no run has taken
    place, let alone succeeded. *)
Lemma help_exits_with_zero :
  let w := Sample.world Sample.rt_running in
  exit_code Sample.here Sample.parse_args Sample.json_load Sample.yaml_safe_load
            Sample.yaml_dump Sample.argv_help w = 0
  /\ trace (snd (main Sample.here Sample.parse_args Sample.json_load
                      Sample.yaml_safe_load Sample.yaml_dump Sample.argv_help w))
     = []
  /\ ~ invocation_succeeds Sample.here Sample.parse_args Sample.json_load
                           Sample.yaml_safe_load Sample.yaml_dump
                           Sample.argv_help w.
Proof.
  cbv zeta. split; [reflexivity|]. split; [reflexivity|].
  intros (args & Hparse & _). discriminate Hparse.
Qed.

(** A run of the script in which the model is confirmed running. *)
Lemma exit_code_sample_run :
  Sample.parse_args Sample.argv_py = Parsed Sample.args_py
  /\ exit_code Sample.here Sample.parse_args Sample.json_load
               Sample.yaml_safe_load Sample.yaml_dump
               Sample.argv_py (Sample.world Sample.rt_running) = 0
  /\ succeeds Sample.here Sample.json_load Sample.yaml_safe_load Sample.yaml_dump
              Sample.args_py (Sample.world Sample.rt_running).
Proof.
  assert (H0 : Sample.parse_args Sample.argv_py = Parsed Sample.args_py)
    by reflexivity.
  assert (H1 : exit_code Sample.here Sample.parse_args Sample.json_load
                 Sample.yaml_safe_load Sample.yaml_dump
                 Sample.argv_py (Sample.world Sample.rt_running) = 0)
    by (vm_compute; reflexivity).
  refine (conj H0 (conj H1 _)).
  exact (proj1 (proj1 (exit_code_reports_success Sample.here Sample.parse_args
                         Sample.json_load Sample.yaml_safe_load Sample.yaml_dump
                         Sample.argv_py Sample.args_py
                         (Sample.world Sample.rt_running) H0)) H1).
Defined.

(** The same command line when the logs never mention the model. *)
Example exit_code_silent_run :
  exit_code Sample.here Sample.parse_args Sample.json_load Sample.yaml_safe_load
            Sample.yaml_dump Sample.argv_py (Sample.world Sample.rt_silent) = 1.
Proof. vm_compute. reflexivity. Qed.

(** The manifest of the sample model. *)
Example manifest_of_sample :
  requirements_text (prepare_code Sample.garch_py) = ("numpy>=1.24.0" ++ nl)%string.
Proof. reflexivity. Qed.

(** ** Further runs on the sample installation *)

(** The slug of [My Cool Model!!], given as a name again. *)
Lemma slug_is_stable_sample :
  "My Cool Model!!" <> ""
  /\ generate_submission_name (Some "My Cool Model!!") Sample.clock0 <> ""
  /\ generate_submission_name (Some "my-cool-model") 0 = "my-cool-model".
Proof.
  assert (H1 : "My Cool Model!!" <> "") by discriminate.
  assert (H2 : generate_submission_name (Some "My Cool Model!!") Sample.clock0 <> "")
    by (vm_compute; discriminate).
  refine (conj H1 (conj H2 _)).
  exact (slug_is_stable "My Cool Model!!" Sample.clock0 0 H1 H2).
Defined.

(** Two submissions 10000 seconds apart. *)
Lemma model_id_repeats_sample :
  0 <= Sample.clock0 /\ 0 <= 1
  /\ generate_model_id (Sample.clock0 + 10000 * 1000 * 1)
     = generate_model_id Sample.clock0.
Proof.
  assert (H1 : 0 <= Sample.clock0) by (vm_compute; discriminate).
  assert (H2 : 0 <= 1) by (vm_compute; discriminate).
  refine (conj H1 (conj H2 _)).
  exact (proj2 (model_id_repeats Sample.clock0 1 H1 H2)).
Defined.

(** Submitting again under the name [garch]: a file of notes in the
    earlier submission is not there afterwards. *)
Lemma old_contents_are_gone_sample :
  let w := Sample.world Sample.rt_running in
  fs w Sample.garch_dir = Some Dir
  /\ fs (snd (create_submission_structure Sample.here Sample.json_load
                (model_file Sample.args_py) "garch" w))
        (Sample.garch_dir ++ ["notes"; "todo.txt"]) = None.
Proof.
  cbv zeta.
  assert (H1 : fs (Sample.world Sample.rt_running)
                  (joinpath (SUBMISSION_BASE Sample.here) "garch") = Some Dir)
    by reflexivity.
  split; [exact H1|].
  apply (old_contents_are_gone Sample.here Sample.json_load
           (model_file Sample.args_py) "garch" (Sample.world Sample.rt_running)
           (Sample.garch_dir ++ ["notes"; "todo.txt"]) H1);
    try reflexivity; discriminate.
Defined.

(** The entry point of the earlier submission, submitted again under
    the same name. *)
Lemma model_inside_submission_is_lost_sample :
  let w := Sample.world Sample.rt_running in
  fs w Sample.garch_dir = Some Dir
  /\ fs w Cases.earlier_main = Some (File "# an earlier model")
  /\ is_prefix Sample.garch_dir Cases.earlier_main = true
  /\ is_prefix (Sample.garch_dir ++ ["btcvol"]) Cases.earlier_main = false
  /\ exists e w',
       create_submission_structure Sample.here Sample.json_load
         Cases.earlier_main "garch" w = (Raise e, w')
       /\ fs w' Cases.earlier_main = None.
Proof.
  cbv zeta.
  assert (H1 : fs (Sample.world Sample.rt_running)
                  (joinpath (SUBMISSION_BASE Sample.here) "garch") = Some Dir)
    by reflexivity.
  assert (H2 : fs (Sample.world Sample.rt_running) Cases.earlier_main
               = Some (File "# an earlier model")) by reflexivity.
  assert (H3 : is_prefix (joinpath (SUBMISSION_BASE Sample.here) "garch")
                         Cases.earlier_main = true) by reflexivity.
  assert (H4 : is_prefix (joinpath (SUBMISSION_BASE Sample.here) "garch" ++ ["btcvol"])
                         Cases.earlier_main = false) by reflexivity.
  refine (conj H1 (conj H2 (conj H3 (conj H4 _)))).
  exact (model_inside_submission_is_lost Sample.here Sample.json_load
           Cases.earlier_main "garch" "# an earlier model"
           (Sample.world Sample.rt_running) H1 H2 H3 H4).
Defined.

(** The sample notebook, submitted under the name [garch]. *)
Lemma submission_is_complete_sample :
  let w := Sample.world Sample.rt_running in
  let notebook := (Sample.home ++ ["good.ipynb"]) in
  fs w notebook = Some (File Sample.good_ipynb)
  /\ model_code Sample.json_load notebook (Str.universal_newlines Sample.good_ipynb)
     = Some "class Tracker: predict = None"
  /\ is_prefix Sample.garch_dir notebook = false
  /\ builder_ready Sample.here (fs w) Sample.garch_dir = true
  /\ files_free (fs w) Sample.garch_dir = true
  /\ exists w',
       create_submission_structure Sample.here Sample.json_load notebook "garch" w
       = (Ok Sample.garch_dir, w')
       /\ fs w' (Sample.garch_dir ++ ["main.py"])
          = Some (File "class Tracker: predict = None")
       /\ fs w' (Sample.garch_dir ++ ["btcvol"; "tracker.py"])
          = Some (File "class TrackerBase: pass").
Proof.
  cbv zeta.
  set (w := Sample.world Sample.rt_running).
  set (notebook := Sample.home ++ ["good.ipynb"]).
  assert (H1 : fs w notebook = Some (File Sample.good_ipynb)) by reflexivity.
  assert (H2 : model_code Sample.json_load notebook
                 (Str.universal_newlines Sample.good_ipynb)
               = Some "class Tracker: predict = None") by reflexivity.
  assert (H3 : is_prefix (joinpath (SUBMISSION_BASE Sample.here) "garch") notebook
               = false) by reflexivity.
  assert (H4 : builder_ready Sample.here (fs w)
                 (joinpath (SUBMISSION_BASE Sample.here) "garch") = true)
    by reflexivity.
  assert (H5 : files_free (fs w) (joinpath (SUBMISSION_BASE Sample.here) "garch")
               = true) by reflexivity.
  refine (conj H1 (conj H2 (conj H3 (conj H4 (conj H5 _))))).
  destruct (submission_is_complete Sample.here Sample.json_load notebook "garch"
              Sample.good_ipynb "class Tracker: predict = None" w
              H1 H2 H3 H4 H5)
    as (w' & Hrun & _ & Hmain & _ & Hlib & _).
  exists w'. split; [exact Hrun|]. split; [exact Hmain|].
  exact (Hlib ["tracker.py"]).
Defined.

(** A registry whose record has no [id]. *)
Lemma record_without_id_blocks_registry_sample :
  let w := Sample.world Sample.rt_running in
  fs w (MODELS_CONFIG Sample.here) = Some (File Sample.registry_yml)
  /\ records Cases.registry_without_id = Some [YRef 2%nat]
  /\ record_ok (objects Cases.registry_without_id) (YRef 2%nat) = false
  /\ fst (update_models_config Sample.here Cases.load_without_id Sample.yaml_dump
            "garch" "12315" w) = Ok false.
Proof.
  cbv zeta.
  assert (H1 : fs (Sample.world Sample.rt_running) (MODELS_CONFIG Sample.here)
               = Some (File Sample.registry_yml)) by reflexivity.
  assert (H2 : records Cases.registry_without_id = Some [YRef 2%nat])
    by reflexivity.
  assert (H3 : record_ok (objects Cases.registry_without_id) (YRef 2%nat) = false)
    by reflexivity.
  refine (conj H1 (conj H2 (conj H3 _))).
  rewrite (proj2 (record_without_id_blocks_registry Sample.here
                    Cases.load_without_id Sample.yaml_dump "garch" "12315"
                    Sample.registry_yml Cases.registry_without_id _ _
                    (Sample.world Sample.rt_running)
                    H1 eq_refl H2 (or_introl eq_refl) H3)).
  reflexivity.
Defined.

(** The registry with two records, updated twice for the same model. *)
Lemma update_config_is_idempotent_sample :
  records Sample.registry = Some [YRef 2%nat; YRef 3%nat]
  /\ forallb (record_ok (objects Sample.registry)) [YRef 2%nat; YRef 3%nat] = true
  /\ exists config',
       update_config Sample.registry "garch-v2" "12316" = Ok config'
       /\ update_config config' "garch-v2" "12316" = Ok config'.
Proof.
  split; [reflexivity|]. split; [reflexivity|].
  exact (update_config_is_idempotent Sample.registry _ "garch-v2" "12316"
           eq_refl eq_refl).
Defined.

(** A model file that is not there. *)
Lemma rejected_model_changes_nothing_sample :
  let w := Sample.world Sample.rt_running in
  Cases.parse_as Cases.args_missing [] = Parsed Cases.args_missing
  /\ validate_model_file (model_file Cases.args_missing) w
     = (Ok (false, "Model file not found: home/ana/missing.py"), w)
  /\ main Sample.here (Cases.parse_as Cases.args_missing) Sample.json_load
          Sample.yaml_safe_load Sample.yaml_dump [] w
     = (Returns 1, w).
Proof.
  cbv zeta.
  assert (H1 : Cases.parse_as Cases.args_missing [] = Parsed Cases.args_missing)
    by reflexivity.
  assert (H2 : validate_model_file (model_file Cases.args_missing)
                 (Sample.world Sample.rt_running)
               = (Ok (false, "Model file not found: home/ana/missing.py"),
                  Sample.world Sample.rt_running)) by reflexivity.
  refine (conj H1 (conj H2 _)).
  exact (proj1 (rejected_model_changes_nothing Sample.here
                  (Cases.parse_as Cases.args_missing) Sample.json_load
                  Sample.yaml_safe_load Sample.yaml_dump [] Cases.args_missing
                  _ _ _ H1 H2)).
Defined.

(** A directory named [models.py] given as the model file. *)
Lemma only_a_directory_escapes_main_sample :
  Cases.parse_as Cases.args_package [] = Parsed Cases.args_package
  /\ fs Cases.world_with_package Cases.package = Some Dir
  /\ suffix Cases.package = ".py"
  /\ exists w',
       main Sample.here (Cases.parse_as Cases.args_package) Sample.json_load
            Sample.yaml_safe_load Sample.yaml_dump [] Cases.world_with_package
       = (Uncaught IsADirectoryError, w').
Proof.
  assert (H1 : Cases.parse_as Cases.args_package [] = Parsed Cases.args_package)
    by reflexivity.
  assert (H2 : fs Cases.world_with_package Cases.package = Some Dir) by reflexivity.
  assert (H3 : suffix Cases.package = ".py") by reflexivity.
  refine (conj H1 (conj H2 (conj H3 _))).
  apply (only_a_directory_escapes_main Sample.here
           (Cases.parse_as Cases.args_package) Sample.json_load
           Sample.yaml_safe_load Sample.yaml_dump [] Cases.args_package
           Cases.world_with_package IsADirectoryError H1).
  split; [exact H2|]. split; [left; exact H3|]. split; reflexivity.
Defined.

(** The sample model submitted with [--no-deploy]. *)
Lemma no_deploy_runs_offline_sample :
  let w := Sample.world Sample.rt_running in
  let w' := snd (main Sample.here (Cases.parse_as Cases.args_offline)
                      Sample.json_load Sample.yaml_safe_load Sample.yaml_dump [] w) in
  Cases.parse_as Cases.args_offline [] = Parsed Cases.args_offline
  /\ no_deploy Cases.args_offline = true
  /\ clock w' = Sample.clock0.
Proof.
  cbv zeta. split; [reflexivity|]. split; [reflexivity|].
  exact (proj1 (no_deploy_runs_offline Sample.here
                  (Cases.parse_as Cases.args_offline) Sample.json_load
                  Sample.yaml_safe_load Sample.yaml_dump [] Cases.args_offline
                  (Sample.world Sample.rt_running) eq_refl eq_refl)).
Defined.

(** The sample model submitted where no container runtime is installed. *)
Lemma without_docker_nothing_is_deployed_sample :
  let w := Sample.world Cases.rt_no_docker in
  Sample.parse_args Sample.argv_py = Parsed Sample.args_py
  /\ no_deploy Sample.args_py = false
  /\ restart_rc (runtime w) = None
  /\ exit_code Sample.here Sample.parse_args Sample.json_load
               Sample.yaml_safe_load Sample.yaml_dump Sample.argv_py w = 1.
Proof.
  cbv zeta. split; [reflexivity|]. split; [reflexivity|]. split; [reflexivity|].
  exact (proj1 (without_docker_nothing_is_deployed Sample.here Sample.parse_args
                  Sample.json_load Sample.yaml_safe_load Sample.yaml_dump
                  Sample.argv_py Sample.args_py (Sample.world Cases.rt_no_docker)
                  eq_refl eq_refl eq_refl)).
Defined.

(** The sample run: the model file and the support library it was
    copied from are as they were. *)
Lemma main_changes_only_submission_and_registry_sample :
  let w := Sample.world Sample.rt_running in
  let w' := snd (main Sample.here Sample.parse_args Sample.json_load
                      Sample.yaml_safe_load Sample.yaml_dump Sample.argv_py w) in
  Sample.parse_args Sample.argv_py = Parsed Sample.args_py
  /\ fs w' (Sample.home ++ ["garch.py"]) = Some (File Sample.garch_py)
  /\ fs w' (BTCVOL_SOURCE Sample.here ++ ["tracker.py"])
     = Some (File "class TrackerBase: pass").
Proof.
  cbv zeta.
  assert (H0 : Sample.parse_args Sample.argv_py = Parsed Sample.args_py)
    by reflexivity.
  pose proof (proj1 (main_changes_only_submission_and_registry Sample.here
                       Sample.parse_args Sample.json_load Sample.yaml_safe_load
                       Sample.yaml_dump Sample.argv_py Sample.args_py
                       (Sample.world Sample.rt_running) H0)) as H.
  split; [exact H0|]. split.
  - apply H; [reflexivity|discriminate|reflexivity].
  - apply H; [reflexivity|discriminate|reflexivity].
Defined.

(** The code of the sample notebook. *)
Lemma extracted_code_has_no_marks_sample :
  extract_code Sample.good_notebook = Ok "class Tracker: predict = None"
  /\ Str.contains "pip install" "class Tracker: predict = None" = false.
Proof.
  assert (H : extract_code Sample.good_notebook = Ok "class Tracker: predict = None")
    by reflexivity.
  split; [exact H|].
  exact (proj1 (proj2 (extracted_code_has_no_marks Sample.good_notebook _ H))).
Defined.

(** A model that names the base class without importing it. *)
Lemma missing_import_comes_first_sample :
  Str.contains "TrackerBase" "class Mine(TrackerBase): pass" = true
  /\ Str.contains canonical_import "class Mine(TrackerBase): pass" = false
  /\ Str.contains "from btcvol import TrackerBase" "class Mine(TrackerBase): pass"
     = false
  /\ exists rest,
       lines_of (prepare_code "class Mine(TrackerBase): pass")
       = canonical_import :: rest.
Proof.
  split; [reflexivity|]. split; [reflexivity|]. split; [reflexivity|].
  exact (missing_import_comes_first "class Mine(TrackerBase): pass"
           eq_refl eq_refl eq_refl).
Defined.

(** A code cell whose source is [null], after a cell of model code. *)
Lemma malformed_cell_stops_extraction_sample :
  let bad := PDict [(PStr "cell_type", PStr "code"); (PStr "source", PNone)] in
  let notebook :=
    PDict [(PStr "cells",
            PList [PDict [(PStr "cell_type", PStr "code");
                          (PStr "source", PStr "class Tracker: pass")];
                   bad])] in
  cell_ok bad = false
  /\ exists e, extract_code notebook = Raise e.
Proof.
  cbv zeta. split; [reflexivity|].
  exact (malformed_cell_stops_extraction
           (PDict [(PStr "cells",
                    PList [PDict [(PStr "cell_type", PStr "code");
                                  (PStr "source", PStr "class Tracker: pass")];
                           PDict [(PStr "cell_type", PStr "code");
                                  (PStr "source", PNone)]])])
           [PDict [(PStr "cell_type", PStr "code");
                   (PStr "source", PStr "class Tracker: pass")];
            PDict [(PStr "cell_type", PStr "code"); (PStr "source", PNone)]]
           (PDict [(PStr "cell_type", PStr "code"); (PStr "source", PNone)])
           eq_refl (or_intror (or_introl eq_refl)) eq_refl).
Defined.

(** The id 12315 held as a number, and a submission with the id
    ["12315"]: the registry gets a second record. *)
Lemma numeric_ids_never_match_sample :
  records Cases.registry_with_number = Some [YRef 2%nat]
  /\ attr (objects Cases.registry_with_number) "id" (YRef 2%nat)
     = Some (YNum "12315")
  /\ exists config' r,
       update_config Cases.registry_with_number "garch" "12315" = Ok config'
       /\ records config' = Some [YRef 2%nat; r]
       /\ Obj.deref (objects config') r = Some (YDict (new_model "garch" "12315")).
Proof.
  split; [reflexivity|]. split; [reflexivity|].
  destruct (numeric_ids_never_match Cases.registry_with_number [YRef 2%nat]
              "garch" "12315" eq_refl)
    as (config' & r & Hrun & Hrec & _ & Hnew & _).
  - intros r [<-|[]]. now exists "12315".
  - exists config', r. split; [exact Hrun|]. split; [exact Hrec|exact Hnew].
Defined.
